(** * DuckIt uploader: conversion and publish pipeline

    A shallow embedding of the client-side pipeline of the DuckIt uploader
    ([src/lib/duckdb.ts], [src/lib/neon-db.ts], [src/lib/pushToRemote.ts],
    [src/pages/Home.tsx]) and the properties of its specification.

    Conventions of the embedding.
    - A JavaScript string or byte buffer is a [string] (a list of bytes; text
      is UTF-8).  The characters the code looks for (pipe, tab, comma, dot,
      newline, quotes) are ASCII, so counting or splitting on bytes and on
      decoded characters agree.
    - A JavaScript number that is a megabyte figure, a limit or a count is a
      rational [Q].  The arithmetic the code does on them (division by 1024,
      multiplication by 2, comparisons) is exact on doubles in the range of
      file sizes, so the rational model loses nothing.
    - The embedded analytical engine, JSZip's compressor and the JSON parser
      of the browser are capabilities of a [Platform]; the code of the
      repository is modelled over any platform.
    - What the remote services answer is a [World]; a handler is a function
      of the state of the page, the world and the engine session, and it
      logs the library calls it makes, in order.
    - Progress callbacks and console output only feed the text the page
      shows and are left out; so are the flags that the page sets around a
      handler ([isPushing], the timers). *)

From Stdlib Require Import ZArith NArith QArith String Ascii List DecimalString Lia.
From stdpp Require Import gmap strings list fin_maps sorting.

Local Open Scope string_scope.

(** ** JavaScript helpers *)

Module Js.

Definition TAB : string := String "009"%char EmptyString.
Definition LF : ascii := "010"%char.

(** [String.prototype.toLowerCase] on the ASCII letters.  (Outside ASCII
    only U+212A KELVIN SIGN lowercases to an ASCII letter; file names with
    it are outside the model.) *)
Definition toLowerCase_char (c : ascii) : ascii :=
  let n := N_of_ascii c in
  if ((65 <=? n) && (n <=? 90))%N then ascii_of_N (n + 32) else c.

Fixpoint toLowerCase (s : string) : string :=
  match s with
  | EmptyString => EmptyString
  | String c r => String (toLowerCase_char c) (toLowerCase r)
  end.

(** [s.split(sep)] for a one-character separator: never empty. *)
Fixpoint split (sep : ascii) (s : string) : list string :=
  match s with
  | EmptyString => [EmptyString]
  | String c r =>
      if Ascii.eqb c sep then EmptyString :: split sep r
      else match split sep r with
           | [] => [String c EmptyString]
           | h :: t => String c h :: t
           end
  end.

(** [(s.match(/c/g) || []).length] for a literal character [c]. *)
Fixpoint countChar (c : ascii) (s : string) : nat :=
  match s with
  | EmptyString => 0
  | String a r => (if Ascii.eqb a c then 1 else 0) + countChar c r
  end.

Fixpoint contains (c : ascii) (s : string) : bool :=
  match s with
  | EmptyString => false
  | String a r => Ascii.eqb a c || contains c r
  end.

(** [s.endsWith(suffix)]. *)
Definition endsWith (s suffix : string) : bool :=
  let n := String.length s in
  let k := String.length suffix in
  (k <=? n)%nat && String.eqb (substring (n - k) k s) suffix.

(** [s.replace(/\.(e1|e2|...)$/i, repl)]: the extensions hold no dot, so
    the only place the pattern can match is the last dot of [s]. *)
Fixpoint replaceExt (exts : list string) (repl s : string) : string :=
  match exts with
  | [] => s
  | e :: rest =>
      if endsWith (toLowerCase s) ("." ++ e)
      then substring 0 (String.length s - String.length e - 1) s ++ repl
      else replaceExt rest repl s
  end.

(** [/\.(e1|e2|...)$/i.test(s)]. *)
Definition testExt (exts : list string) (s : string) : bool :=
  existsb (fun e => endsWith (toLowerCase s) ("." ++ e)) exts.

Definition isWordChar (c : ascii) : bool :=
  let n := N_of_ascii c in
  (((48 <=? n) && (n <=? 57)) || ((65 <=? n) && (n <=? 90))
   || ((97 <=? n) && (n <=? 122)) || (n =? 95))%N.

Definition isAlnum (c : ascii) : bool :=
  let n := N_of_ascii c in
  (((48 <=? n) && (n <=? 57)) || ((65 <=? n) && (n <=? 90))
   || ((97 <=? n) && (n <=? 122)))%N.

(** A name is held as the bytes of its UTF-8 form, and a pattern without
    the [u] flag works on the UTF-16 code units of the name.  [codeUnits c]
    is the number of code units of the character that the byte [c] starts:
    one for a character of one, two or three bytes, two (a surrogate pair)
    for a character of four bytes, none for a byte that continues a
    character. *)
Definition codeUnits (c : ascii) : nat :=
  let n := N_of_ascii c in
  if (n <? 128)%N then 1
  else if (n <? 192)%N then 0
  else if (n <? 240)%N then 1
  else 2.

Fixpoint underscores (n : nat) : string :=
  match n with
  | O => EmptyString
  | S k => String "_"%char (underscores k)
  end.

(** [s.replace(/[^a-zA-Z0-9_]/g, '_')]: one underscore for every code unit
    that is not a word character. *)
Fixpoint sanitize (s : string) : string :=
  match s with
  | EmptyString => EmptyString
  | String c r =>
      if isWordChar c then String c (sanitize r)
      else underscores (codeUnits c) ++ sanitize r
  end.

(** [s.replace(/[^a-zA-Z0-9]/g, '')]. *)
Fixpoint keepAlnum (s : string) : string :=
  match s with
  | EmptyString => EmptyString
  | String c r => if isAlnum c then String c (keepAlnum r) else keepAlnum r
  end.

(** A thrown [Error]: its [message]. *)
Definition Error := string.

(** The outcome of awaiting a promise: rejected with an error, or
    fulfilled. *)
Definition Settled (A : Type) : Type := Error + A.

(** [x || d] on numbers: zero is falsy. *)
Definition orNum (x d : Q) : Q := if Qeq_bool x 0 then d else x.

(** [x > y] on numbers. *)
Definition gt (x y : Q) : bool := negb (Qle_bool x y).
(** [x >= y] on numbers. *)
Definition ge (x y : Q) : bool := Qle_bool y x.

(** A value read from a parsed JSON body or an optional field. *)
Inductive Value :=
| VUndefined
| VNull
| VBool (b : bool)
| VNum (q : Q)
| VStr (s : string)
| VObject.   (* an array or an object: truthy, not a string *)

Definition truthy (v : Value) : bool :=
  match v with
  | VUndefined | VNull => false
  | VBool b => b
  | VNum q => negb (Qeq_bool q 0)
  | VStr s => negb (String.eqb s "")
  | VObject => true
  end.

(** The result of [JSON.parse]: [null], or a value whose properties can be
    read.  A primitive or an array answers [undefined] to every property
    the code reads, and is a [PObj] without those fields. *)
Inductive Parsed :=
| PNull
| PObj (fields : gmap string Value).

(** [body.key]: reading a property of [null] throws a [TypeError]. *)
Definition prop (body : Parsed) (key : string) : Settled Value :=
  match body with
  | PNull => inl ("Cannot read properties of null (reading '" ++ key ++ "')")
  | PObj fields => inr (default VUndefined (fields !! key))
  end.

(** *** JSON.stringify(value, null, 2)

    The values the code serialises: strings, row counts, booleans, arrays
    and objects with their properties in insertion order. *)
#[local] Set Warnings "-register-all".
Inductive Json :=
| JString (s : string)
| JNumber (n : N)
| JBool (b : bool)
| JArray (items : list Json)
| JObject (props : list (string * Json)).

Definition DQ : string := String "034"%char EmptyString.
Definition BACKSLASH : string := String "092"%char EmptyString.
Definition NL : string := String LF EmptyString.

Definition hexDigit (n : N) : string :=
  String (ascii_of_N (if (n <? 10)%N then 48 + n else 87 + n)) EmptyString.

(** QuoteJSONString, one code unit at a time. *)
Definition quoteChar (c : ascii) : string :=
  let n := N_of_ascii c in
  if (n =? 34)%N then BACKSLASH ++ DQ
  else if (n =? 92)%N then BACKSLASH ++ BACKSLASH
  else if (n =? 8)%N then BACKSLASH ++ "b"
  else if (n =? 12)%N then BACKSLASH ++ "f"
  else if (n =? 10)%N then BACKSLASH ++ "n"
  else if (n =? 13)%N then BACKSLASH ++ "r"
  else if (n =? 9)%N then BACKSLASH ++ "t"
  else if (n <? 32)%N then BACKSLASH ++ "u00" ++ hexDigit (n / 16) ++ hexDigit (n mod 16)
  else String c EmptyString.

Fixpoint quoteBody (s : string) : string :=
  match s with
  | EmptyString => EmptyString
  | String c r => quoteChar c ++ quoteBody r
  end.

Definition quote (s : string) : string := DQ ++ quoteBody s ++ DQ.

(** Number::toString of a non-negative integer (below 10^21). *)
Definition numberToString (n : N) : string := NilZero.string_of_uint (N.to_uint n).

Fixpoint stringifyAt (indent : string) (j : Json) : string :=
  let inner := indent ++ "  " in
  match j with
  | JString s => quote s
  | JNumber n => numberToString n
  | JBool b => if b then "true" else "false"
  | JArray [] => "[]"
  | JArray items =>
      "[" ++ NL ++ inner
      ++ String.concat ("," ++ NL ++ inner) (map (stringifyAt inner) items)
      ++ NL ++ indent ++ "]"
  | JObject [] => "{}"
  | JObject props =>
      "{" ++ NL ++ inner
      ++ String.concat ("," ++ NL ++ inner)
           (map (fun kv => quote (fst kv) ++ ": " ++ stringifyAt inner (snd kv)) props)
      ++ NL ++ indent ++ "}"
  end.

Definition stringify (j : Json) : string := stringifyAt "" j.

(** *** JSZip: the members in insertion order; [zip.file(name, data)]
    replaces a member of the same name in place. *)
Definition JSZip : Type := list (string * string).

Fixpoint zipFile (member data : string) (zip : JSZip) : JSZip :=
  match zip with
  | [] => [(member, data)]
  | (m, d) :: rest =>
      if String.eqb m member then (member, data) :: rest
      else (m, d) :: zipFile member data rest
  end.

Fixpoint zipMember (member : string) (zip : JSZip) : option string :=
  match zip with
  | [] => None
  | (m, d) :: rest => if String.eqb m member then Some d else zipMember member rest
  end.

(** *** Integers in text: [toString], [padStart], [parseInt] *)

(** Number::toString of an integer. *)
Definition integerToString (z : Z) : string :=
  if (z <? 0)%Z then "-" ++ numberToString (Z.to_N (- z)) else numberToString (Z.to_N z).

Fixpoint zeros (n : nat) : string :=
  match n with
  | O => EmptyString
  | S k => String "0"%char (zeros k)
  end.

(** [s.padStart(targetLength, '0')]. *)
Definition padStart0 (targetLength : nat) (s : string) : string :=
  zeros (targetLength - String.length s) ++ s.

(** The ASCII characters that [parseInt] skips at the start. *)
Definition isWhiteSpace (c : ascii) : bool :=
  let n := N_of_ascii c in
  (((9 <=? n) && (n <=? 13)) || (n =? 32))%N.

Fixpoint skipWhiteSpace (s : string) : string :=
  match s with
  | EmptyString => EmptyString
  | String c r => if isWhiteSpace c then skipWhiteSpace r else s
  end.

Definition isDigit (c : ascii) : bool :=
  let n := N_of_ascii c in ((48 <=? n) && (n <=? 57))%N.

(** The decimal digits a string starts with, as a number; [None] when it
    starts with none. *)
Fixpoint leadingDigits (acc : option Z) (s : string) : option Z :=
  match s with
  | EmptyString => acc
  | String c r =>
      if isDigit c
      then leadingDigits (Some (10 * default 0%Z acc + Z.of_N (N_of_ascii c - 48))%Z) r
      else acc
  end.

(** [parseInt(s, 10)]; [None] is [NaN]. *)
Definition parseInt (s : string) : option Z :=
  match skipWhiteSpace s with
  | String "-"%char r => option_map Z.opp (leadingDigits None r)
  | String "+"%char r => leadingDigits None r
  | s' => leadingDigits None s'
  end.

(** [parseInt(parts[i], 10)]: a missing part is [undefined], which parses
    to [NaN]. *)
Definition parseIntAt (parts : list string) (i : nat) : option Z :=
  match parts !! i with
  | Some part => parseInt part
  | None => None
  end.

(** A number spliced into a template literal. *)
Definition showNumber (x : option Z) : string :=
  match x with
  | Some z => integerToString z
  | None => "NaN"
  end.

End Js.

(** ** The platform: engine, compressor, JSON parser *)

Record Column := { col_name : string; col_type : string }.

(** A relation held by the engine: its ordered columns and its rows. *)
Record Table := { columns : list Column; rows : list (list string) }.

Class Platform := {
  (** [read_csv(bytes, auto_detect=true, sample_size=-1, delim=d)]: the table
      read, or the engine's error. *)
  read_csv : string -> string -> Js.Settled Table;
  (** [COPY t TO file (FORMAT PARQUET)]: the bytes written. *)
  to_parquet : Table -> string;
  (** [zip.generateAsync({compression: 'DEFLATE', level: 9})] on the members
      in insertion order. *)
  zip_generate : list (string * string) -> string;
  (** [JSON.parse]: a [SyntaxError] or the value. *)
  JSON_parse : string -> Js.Settled Js.Parsed;
  (** [String(v)] for a value that is not a string. *)
  js_String : Js.Value -> string;
  (** [n.toLocaleString()]. *)
  toLocaleString : N -> string;
}.

(** A [File] of the browser: its name and its bytes. *)
Record File := { name : string; content : string }.

Definition size (f : File) : N := N.of_nat (String.length (content f)).

(** ** The engine session

    The tables of the [main] schema, keyed by name, and the virtual file
    system: the file handles registered by the page and the files written
    by [COPY ... TO]. *)
Record Db := { tables : gmap string Table; files : gmap string string }.

Definition emptyDb : Db := {| tables := ∅; files := ∅ |}.

(** An operation on the session: it may throw, and it leaves a session. *)
Definition Eng (A : Type) : Type := Db -> Js.Settled A * Db.

Module EngM.
Definition ret {A} (a : A) : Eng A := fun d => (inr a, d).
Definition throw {A} (e : Js.Error) : Eng A := fun d => (inl e, d).
Definition bind {A B} (m : Eng A) (k : A -> Eng B) : Eng B :=
  fun d => match m d with
           | (inl e, d') => (inl e, d')
           | (inr a, d') => k a d'
           end.
End EngM.

Declare Scope eng_scope.
Delimit Scope eng_scope with eng.
Notation "x <- m ;; k" := (EngM.bind m (fun x => k))
  (at level 100, m at next level, right associativity) : eng_scope.
Notation "m ;; k" := (EngM.bind m (fun _ => k))
  (at level 100, right associativity) : eng_scope.

(** [for (const x of l) { acc = await f(acc, x) }]. *)
Fixpoint forEach {A B} (f : B -> A -> Eng B) (l : list A) (acc : B) : Eng B :=
  match l with
  | [] => EngM.ret acc
  | x :: r => (acc' <- f acc x ;; forEach f r acc')%eng
  end.

(** ** lib/duckdb.ts *)

Module DuckDb.

(** [detectDelimiter]: the counts are taken on the first line of the first
    8192 bytes. *)
Definition SAMPLE_BYTES : nat := N.to_nat 8192.

Definition firstLine (file : File) : string :=
  let slice := substring 0 SAMPLE_BYTES (content file) in
  hd "" (Js.split Js.LF slice).

Definition pipeCount (file : File) : nat := Js.countChar "|"%char (firstLine file).
Definition tabCount (file : File) : nat := Js.countChar "009"%char (firstLine file).
Definition commaCount (file : File) : nat := Js.countChar ","%char (firstLine file).

Definition detectDelimiter (file : File) : string :=
  if ((0 <? pipeCount file) && (tabCount file <=? pipeCount file)
      && (commaCount file <=? pipeCount file))%nat then "|"
  else if ((0 <? tabCount file) && (commaCount file <=? tabCount file))%nat then Js.TAB
  else ",".

(** The count, on the first line, of a delimiter. *)
Definition countOf (delimiter : string) (file : File) : nat :=
  if String.eqb delimiter "|" then pipeCount file
  else if String.eqb delimiter Js.TAB then tabCount file
  else commaCount file.

(** [file.name.toLowerCase().split('.').pop()]. *)
Definition fileExtension (file : File) : option string :=
  last (Js.split "."%char (Js.toLowerCase (name file))).

(** The [delimiter] local of [importCSV] (and of [convertCsvToParquet]). *)
Definition delimiterFor (file : File) : string :=
  let ext := fileExtension file in
  if bool_decide (ext = Some "pipe") || bool_decide (ext = Some "psv") then "|"
  else if bool_decide (ext = Some "tsv") then Js.TAB
  else if bool_decide (ext = Some "txt") then detectDelimiter file
  else detectDelimiter file.

Local Open Scope eng_scope.

(** A name spliced between quotes into SQL text denotes itself when it
    holds no such quote.  A name that holds the quote changes the text of
    the statement, and what the engine makes of that text is not
    modelled: the statement is taken to be rejected there. *)
Definition DQUOTE : ascii := "034"%char.
Definition SQUOTE : ascii := "039"%char.

Definition spliced (quote : ascii) (s : string) : Eng unit :=
  if Js.contains quote s then EngM.throw ("Parser Error: syntax error near " ++ s)
  else EngM.ret tt.

(** [db.registerFileHandle(name, file, BROWSER_FILEREADER, true)]. *)
Definition registerFileHandle (fileName bytes : string) : Eng unit :=
  fun d => (inr tt, {| tables := tables d; files := <[fileName := bytes]> (files d) |}).

(** [db.copyFileToBuffer(name)]. *)
Definition copyFileToBuffer (fileName : string) : Eng string :=
  fun d => match files d !! fileName with
           | Some bytes => (inr bytes, d)
           | None => (inl ("File not found: " ++ fileName), d)
           end.

(** The catalogue resolves a name without regard to the case of its ASCII
    letters, also between double quotes, and keeps the name of a table as
    it was written when the table was created. *)
Definition foldCase (tableName : string) : string := Js.toLowerCase tableName.

Definition sameName (a b : string) : bool := String.eqb (foldCase a) (foldCase b).

(** The tables but the one that [tableName] resolves to. *)
Definition withoutTable (tableName : string) (tbs : gmap string Table) : gmap string Table :=
  filter (fun entry => Is_true (negb (sameName (fst entry) tableName))) tbs.

(** A name of no character cannot be written between double quotes. *)
Definition delimited (tableName : string) : Eng unit :=
  if String.eqb tableName ""
  then EngM.throw ("Parser Error: zero-length delimited identifier at or near "
                   ++ Js.DQ ++ Js.DQ ++ Js.DQ ++ Js.DQ)
  else EngM.ret tt.

(** [CREATE OR REPLACE TABLE "t" AS SELECT * FROM read_csv('f', auto_detect=true,
    sample_size=-1, delim='d')]: the table that [t] resolves to, if any, is
    replaced by the one read, under the name [t]. *)
Definition createOrReplaceTableAsReadCsv `{Platform}
    (tableName fileName delim : string) : Eng unit :=
  delimited tableName ;;
  spliced DQUOTE tableName ;;
  spliced SQUOTE fileName ;;
  fun d => match files d !! fileName with
           | None => (inl ("IO Error: No files found that match the pattern " ++ fileName), d)
           | Some bytes =>
               match read_csv bytes delim with
               | inl e => (inl e, d)
               | inr t => (inr tt,
                           {| tables := <[tableName := t]> (withoutTable tableName (tables d));
                              files := files d |})
               end
           end.

(** [COPY "t" TO 'f' (FORMAT PARQUET)]. *)
Definition copyToParquet `{Platform} (tableName fileName : string) : Eng unit :=
  spliced DQUOTE tableName ;;
  spliced SQUOTE fileName ;;
  fun d => match tables d !! tableName with
           | None => (inl ("Catalog Error: Table with name " ++ tableName ++ " does not exist!"), d)
           | Some t => (inr tt, {| tables := tables d;
                                   files := <[fileName := to_parquet t]> (files d) |})
           end.

(** [SELECT COUNT( * ) as cnt FROM "t"]. *)
Definition countRows (tableName : string) : Eng N :=
  spliced DQUOTE tableName ;;
  fun d => match tables d !! tableName with
           | None => (inl ("Catalog Error: Table with name " ++ tableName ++ " does not exist!"), d)
           | Some t => (inr (N.of_nat (length (rows t))), d)
           end.

(** [SELECT column_name, data_type FROM information_schema.columns WHERE
    table_schema = 'main' AND table_name = 't' ORDER BY ordinal_position]. *)
Definition columnsOf (tableName : string) : Eng (list Column) :=
  spliced SQUOTE tableName ;;
  fun d => (inr (match tables d !! tableName with
                 | None => []
                 | Some t => columns t
                 end), d).

(** [DROP TABLE IF EXISTS "t"]: the table that [t] resolves to, if any. *)
Definition dropTableIfExists (tableName : string) : Eng unit :=
  spliced DQUOTE tableName ;;
  fun d => (inr tt, {| tables := withoutTable tableName (tables d); files := files d |}).

Record TableInfo := { ti_name : string; ti_rowCount : N; ti_columns : list Column }.

(** [ORDER BY table_name]: byte order of the names. *)
Definition name_le (a b : string) : Prop := Is_true (String.leb a b).

Definition tableNames (d : Db) : list string :=
  merge_sort name_le (map fst (map_to_list (tables d))).

Definition tableInfo (tableName : string) : Eng TableInfo :=
  rowCount <- countRows tableName ;;
  cols <- columnsOf tableName ;;
  EngM.ret {| ti_name := tableName; ti_rowCount := rowCount; ti_columns := cols |}.

Definition getTables : Eng (list TableInfo) :=
  fun d =>
    forEach (fun acc tableName => info <- tableInfo tableName ;; EngM.ret (acc ++ [info])%list)
            (tableNames d) [] d.

Definition escapeDelim (delimiter : string) : string :=
  if String.eqb delimiter Js.TAB then "\t" else delimiter.

Definition importCSV `{Platform} (file : File) (tableName : string) : Eng unit :=
  registerFileHandle (name file) (content file) ;;
  let delimiter := delimiterFor file in
  let escapedDelim := escapeDelim delimiter in
  createOrReplaceTableAsReadCsv tableName (name file) escapedDelim.

Definition exportToParquet `{Platform} : Eng string :=
  let outputFile := "export.parquet" in
  tables <- getTables ;;
  match tables with
  | [] => EngM.throw "No tables to export"                  (* tables.length === 0 *)
  | [table] =>                                              (* tables.length === 1 *)
      copyToParquet (ti_name table) outputFile ;;
      buffer <- copyFileToBuffer outputFile ;;
      EngM.ret buffer
  | _ => EngM.throw "Multiple tables - use exportToDuckDB instead"
  end.

Definition CSV_EXTENSIONS : list string := ["csv"; "tsv"; "txt"; "pipe"; "psv"].

Definition convertCsvToParquet `{Platform} (file : File) : Eng (string * N) :=
  let tempTableName := "_temp_csv_to_parquet_" in
  let outputFile := Js.replaceExt CSV_EXTENSIONS "" (name file) ++ ".parquet" in
  registerFileHandle (name file) (content file) ;;
  let delimiter := delimiterFor file in
  let escapedDelim := escapeDelim delimiter in
  createOrReplaceTableAsReadCsv tempTableName (name file) escapedDelim ;;
  rowCount <- countRows tempTableName ;;
  copyToParquet tempTableName outputFile ;;
  buffer <- copyFileToBuffer outputFile ;;
  dropTableIfExists tempTableName ;;
  EngM.ret (buffer, rowCount).

Definition byteLength (buffer : string) : N := N.of_nat (String.length buffer).

Definition estimateDatabaseSize `{Platform} : Eng N :=
  tables <- getTables ;;
  if (length tables =? 0)%nat then EngM.ret 0%N
  else
    forEach (fun totalSize table =>
               let fileName := "_estimate_" ++ ti_name table ++ ".parquet" in
               copyToParquet (ti_name table) fileName ;;
               buffer <- copyFileToBuffer fileName ;;
               EngM.ret (totalSize + byteLength buffer)%N)
            tables 0%N.

(** *** The text members of a bundle *)

Definition manifestEntry (t : TableInfo) : Js.Json :=
  Js.JObject [("name", Js.JString (ti_name t));
              ("files", Js.JArray [Js.JString (ti_name t ++ ".parquet")]);
              ("rowCount", Js.JNumber (ti_rowCount t))].

Definition manifestJson (entries : list Js.Json) : Js.Json :=
  Js.JObject [("tables", Js.JArray entries); ("chunked", Js.JBool false)].

Definition columnDdl (c : Column) : string :=
  Js.DQ ++ col_name c ++ Js.DQ ++ " " ++ col_type c.

Definition createTableStatement (t : TableInfo) : string :=
  let columns := String.concat ("," ++ Js.NL ++ "  ") (map columnDdl (ti_columns t)) in
  "CREATE TABLE " ++ Js.DQ ++ ti_name t ++ Js.DQ ++ " (" ++ Js.NL ++ "  " ++ columns
  ++ Js.NL ++ ");".

Definition joinStatements (schemaStatements : list string) : string :=
  String.concat (Js.NL ++ Js.NL) schemaStatements.

(** The [zip] object of [exportToDuckDB] before it is compressed. *)
Definition duckDbZip `{Platform} : Eng Js.JSZip :=
tables <- getTables ;;
if (length tables =? 0)%nat then EngM.throw "No tables to export"
else
  zip <- forEach (fun (zip : Js.JSZip) table =>
                    let fileName := ti_name table ++ ".parquet" in
                    copyToParquet (ti_name table) fileName ;;
                    buffer <- copyFileToBuffer fileName ;;
                    EngM.ret (Js.zipFile fileName buffer zip))
                 tables [] ;;
  let manifest := manifestJson (map manifestEntry tables) in
  let zip := Js.zipFile "manifest.json" (Js.stringify manifest) zip in
  let schemaStatements := map createTableStatement tables in
  let zip := Js.zipFile "schema.sql" (joinStatements schemaStatements) zip in
  EngM.ret zip.

Definition exportToDuckDB `{Platform} : Eng string :=
zip <- duckDbZip ;;
EngM.ret (zip_generate zip).

End DuckDb.

(** ** The services behind the page

    What the metadata store, the status proxy, the token proxy and the
    transfer answer is given by a [World]; the page and its libraries are
    modelled for every world. *)

Inductive StorageTier := temp | persistent | permanent.
Inductive Role := pro | admin.

#[global] Instance StorageTier_eq_dec : EqDecision StorageTier.
Proof. solve_decision. Defined.
#[global] Instance Role_eq_dec : EqDecision Role.
Proof. solve_decision. Defined.

(** The answer of [dbApi(operation, params)]: it throws (no session, a
    status that is not ok), or yields the field the caller reads, which may
    be missing. *)
Inductive Reply (A : Type) :=
| Threw (e : Js.Error)
| Replied (field : option A).
Arguments Threw {A} e.
Arguments Replied {A} field.

(** [Record<string, number | null>]. *)
Abbreviation Limits := (gmap string (option Q)).

(** The JSON body of [/api/status]; every field may be missing. *)
Record StatusData := {
  d_available_mb : option Q;
  d_usage_percent : option Q;
  d_file_count : option Q;
  d_can_upload : option bool;
  d_max_file_size_mb : option Q;
}.

Inductive StatusReply :=
| StatusThrew                      (* fetch or response.json() rejected *)
| StatusNotOk (status : N)
| StatusOk (data : StatusData).

Inductive HttpReply :=
| NetworkError (e : Js.Error)
| Http (status : N) (body : string).

(** The event that ends an [XMLHttpRequest]. *)
Inductive XhrOutcome :=
| XhrLoad (status : N) (responseText : string)
| XhrError
| XhrAbort.

Record World := {
  isNeonDataConfigured : bool;
  user_limits : string -> Reply Limits;                (* user.limits: result.limits *)
  files_count : string -> Reply Q;                     (* files.count: result.count *)
  api_status : StorageTier -> StatusReply;             (* GET /api/status?tier= *)
  api_upload_token : string -> N -> StorageTier -> HttpReply;
  xhr_post : Js.Value -> string -> string -> XhrOutcome; (* url, file name, bytes *)
}.

Record FileRecordInput := {
  user_id : string;
  user_email : string;
  server_filename : Js.Value;
  display_name : string;
  download_url : Js.Value;
  size_mb : Q;
  format : string;
}.

(** The library operations a handler invokes, in the order of invocation. *)
Inductive Call :=
| EstimateDatabaseSize
| GetEffectiveLimits (email : string)
| GetUserFileCount (email : string)
| GetStorageStatus (tier : StorageTier)
| ExportAsZipBundle
| GetUploadToken (filename : string) (contentLength : N) (storageTier : StorageTier)
| UploadWithToken (filename : string) (bytes : string)
| AddFileRecord (record : FileRecordInput).

(** What a handler runs against: the engine session and the log of calls. *)
Record Sys := { db : Db; calls : list Call }.

(** An asynchronous action of the page. *)
Definition Act (A : Type) : Type := World -> Sys -> A * Sys.

Module ActM.
Definition ret {A} (a : A) : Act A := fun _ sys => (a, sys).
Definition bind {A B} (m : Act A) (k : A -> Act B) : Act B :=
  fun w sys => let (a, sys') := m w sys in k a w sys'.
Definition ask : Act World := fun w sys => (w, sys).
Definition call (c : Call) : Act unit :=
  fun _ sys => (tt, {| db := db sys; calls := (calls sys ++ [c])%list |}).
(** Await an operation of the engine. *)
Definition engine {A} (m : Eng A) : Act (Js.Settled A) :=
  fun _ sys => let (r, d) := m (db sys) in (r, {| db := d; calls := calls sys |}).
(** The rest of a [try] block after an awaited step that may reject. *)
Definition andThen {A B} (m : Act (Js.Settled A)) (k : A -> Act (Js.Settled B))
  : Act (Js.Settled B) :=
  bind m (fun r => match r with
                   | inl e => ret (inl e)
                   | inr a => k a
                   end).
(** [try { body } catch (error) { handler }]. *)
Definition tryCatch {A} (body : Act (Js.Settled A)) (handler : Js.Error -> Act (Js.Settled A))
  : Act (Js.Settled A) :=
  bind body (fun r => match r with
                      | inl e => handler e
                      | inr a => ret (inr a)
                      end).
End ActM.

Declare Scope act_scope.
Delimit Scope act_scope with act.
Notation "x <- m ;; k" := (ActM.bind m (fun x => k))
  (at level 100, m at next level, right associativity) : act_scope.
Notation "m ;; k" := (ActM.bind m (fun _ => k))
  (at level 100, right associativity) : act_scope.
Notation "x <-? m ;; k" := (ActM.andThen m (fun x => k))
  (at level 100, m at next level, right associativity) : act_scope.

(** [bytes / 1024 / 1024]. *)
Definition megabytes (bytes : N) : Q := Z.of_N bytes # 1048576.

(** ** The services of the identity *)

(** What [neonAuth.getSession()] answers. *)
Inductive SessionAnswer :=
| SessionThrew
| NoSession                           (* no [data.session] or no [data.user] *)
| ActiveSession (id email : string).  (* [data.user.id], [data.user.email] *)

(** What the [try] block of [checkUserAccess] meets: an exception (of
    [getSession], of [dbApi], or of reading a property of a [null] result), or
    the fields of the result of [dbApi('user.check', ...)]. *)
Inductive CheckAnswer :=
| CheckThrew (e : Js.Error)
| CheckReplied (allowed role : Js.Value) (limits : option Limits).

(** The services of the identity: the session, [user.check] and [user.role]
    by e-mail address ([result.role] is the field of the [Reply]). *)
Record Accounts := {
  auth_getSession : SessionAnswer;
  user_check : string -> CheckAnswer;
  user_role : string -> Reply Js.Value;
}.

(** ** lib/neon-db.ts *)

Module NeonDb.
Local Open Scope act_scope.

Definition getStorageTier (role : Role) : StorageTier :=
  if decide (role = admin) then permanent else persistent.

Definition getEffectiveLimits (email : string) : Act Limits :=
  ActM.call (GetEffectiveLimits email) ;;
  w <- ActM.ask ;;
  ActM.ret match user_limits w email with
           | Replied (Some limits) => limits       (* result.limits || {} *)
           | Replied None => ∅
           | Threw _ => ∅
           end.

Definition getUserFileCount (userEmail : string) : Act Q :=
  w <- ActM.ask ;;
  if negb (isNeonDataConfigured w) then ActM.ret 0%Q
  else
    ActM.call (GetUserFileCount userEmail) ;;
    ActM.ret match files_count w userEmail with
             | Replied (Some count) => Js.orNum count 0   (* result.count || 0 *)
             | Replied None => 0%Q
             | Threw _ => 0%Q
             end.

(** The [reason] text of a refused validation, by its template and the
    values spliced into it. *)
Inductive ValidationReason :=
| FileLimitReached (maxFiles : option Q)
  (* You have reached your file limit (maxFiles files). Please delete some files first. *)
| FileSizeExceeds (fileSizeMb : Q) (maxFileSizeMb : option Q).
  (* File size (fileSizeMb MB) exceeds your limit (maxFileSizeMb MB). *)

Record UploadValidation := {
  allowed : bool;
  reason : option ValidationReason;
  userFileCount : Q;
  maxFiles : option Q;          (* number | null *)
}.

(** [limits.key ?? null]. *)
Definition limit (limits : Limits) (key : string) : option Q :=
  match limits !! key with
  | Some (Some q) => Some q
  | Some None | None => None
  end.

(** [max !== null && x >= max]. *)
Definition reaches (x : Q) (max : option Q) : bool :=
  match max with
  | Some m => Js.ge x m
  | None => false
  end.

(** [max !== null && x > max]. *)
Definition exceeds (x : Q) (max : option Q) : bool :=
  match max with
  | Some m => Js.gt x m
  | None => false
  end.

Definition validateUpload (userEmail : string) (fileSizeMb : Q) (limits : Limits)
  : Act UploadValidation :=
  userFileCount <- getUserFileCount userEmail ;;
  let maxFiles := limit limits "max_files" in
  if reaches userFileCount maxFiles
  then ActM.ret {| allowed := false; reason := Some (FileLimitReached maxFiles);
                   userFileCount := userFileCount; maxFiles := maxFiles |}
  else
    let maxFileSizeMb := limit limits "max_file_size_mb" in
    if exceeds fileSizeMb maxFileSizeMb
    then ActM.ret {| allowed := false;
                     reason := Some (FileSizeExceeds fileSizeMb maxFileSizeMb);
                     userFileCount := userFileCount; maxFiles := maxFiles |}
    else ActM.ret {| allowed := true; reason := None;
                     userFileCount := userFileCount; maxFiles := maxFiles |}.

Definition addFileRecord (file : FileRecordInput) : Act unit :=
  w <- ActM.ask ;;
  if negb (isNeonDataConfigured w) then ActM.ret tt
  else ActM.call (AddFileRecord file).

(** *** The identity *)

Inductive UserStatus := status_allowed | status_blocked.

Record AppUser := { au_role : Js.Value; au_status : UserStatus }.

Record UserAccess := {
  ua_allowed : Js.Value;
  ua_user : option AppUser;
  ua_limits : Limits;
}.

Definition checkUserAccess (w : World) (acc : Accounts) (email : string) : UserAccess :=
  if negb (isNeonDataConfigured w)
  then {| ua_allowed := Js.VBool true; ua_user := None; ua_limits := ∅ |}
  else match user_check acc email with
       | CheckReplied allowed role limits =>
           {| ua_allowed := allowed;
              ua_user := Some {| au_role := role;
                                 au_status := if Js.truthy allowed then status_allowed
                                              else status_blocked |};
              ua_limits := default ∅ limits |}                 (* result.limits || {} *)
       | CheckThrew _ =>
           {| ua_allowed := Js.VBool true; ua_user := None; ua_limits := ∅ |}
       end.

Definition getUserRole (acc : Accounts) (email : string) : Role :=
  match user_role acc email with
  | Replied (Some (Js.VStr role)) => if String.eqb role "admin" then admin else pro
  | Replied _ => pro
  | Threw _ => pro
  end.

End NeonDb.

(** ** lib/pushToRemote.ts *)

Module PushToRemote.
Local Open Scope act_scope.

Record StorageStatus := {
  available_mb : Q;
  usage_percent : Q;
  file_count : Q;
  can_upload : bool;
  max_file_size_mb : Q;
}.

Definition getStorageStatus (tier : StorageTier) : Act (option StorageStatus) :=
  ActM.call (GetStorageStatus tier) ;;
  w <- ActM.ask ;;
  ActM.ret match api_status w tier with
           | StatusThrew => None
           | StatusNotOk _ => None
           | StatusOk data =>
               Some {| available_mb := Js.orNum (default 0%Q (d_available_mb data)) 0;
                       usage_percent := Js.orNum (default 0%Q (d_usage_percent data)) 0;
                       file_count := Js.orNum (default 0%Q (d_file_count data)) 0;
                       can_upload := default true (d_can_upload data);
                       max_file_size_mb :=
                         Js.orNum (default 0%Q (d_max_file_size_mb data)) 150 |}
           end.

Record PushToRemoteResult := {
  success : bool;
  downloadUrl : Js.Value;
  filename : Js.Value;
  sizeBytes : option N;
  expiresInHours : Js.Value;
  error : option string;
}.

(** [response.ok]. *)
Definition ok (status : N) : bool := ((200 <=? status) && (status <=? 299))%N.

Definition getUploadToken `{Platform}
    (filename : string) (contentLength : N) (storageTier : StorageTier)
  : Act (Js.Settled Js.Parsed) :=
  ActM.call (GetUploadToken filename contentLength storageTier) ;;
  w <- ActM.ask ;;
  ActM.ret match api_upload_token w filename contentLength storageTier with
           | NetworkError e => inl e
           | Http status body =>
               if negb (ok status)
               then inl ("Failed to get upload token: " ++ Js.numberToString status
                         ++ " - " ++ body)          (* await response.text() *)
               else JSON_parse body                  (* response.json() *)
           end.

(** [new Error(v).message] for a truthy [v]. *)
Definition messageOf `{Platform} (v : Js.Value) : string :=
  match v with
  | Js.VStr s => s
  | _ => js_String v
  end.

(** [a || b]. *)
Definition orElse (a b : Js.Value) : Js.Value := if Js.truthy a then a else b.

Definition uploadWithToken `{Platform}
    (bytes filename : string) (tokenResponse : Js.Parsed)
  : Act (Js.Settled Js.Parsed) :=
  match Js.prop tokenResponse "full_upload_url" with
  | inl e => ActM.ret (inl e)
  | inr url =>
      ActM.call (UploadWithToken filename bytes) ;;
      w <- ActM.ask ;;
      ActM.ret match xhr_post w url filename bytes with
               | XhrLoad status responseText =>
                   if ((200 <=? status) && (status <? 300))%N
                   then match JSON_parse responseText with
                        | inr body => inr body
                        | inl _ => inl "Invalid response from server"
                        end
                   else match JSON_parse responseText with
                        | inr (Js.PObj fields) =>
                            let detail := default Js.VUndefined (fields !! "detail") in
                            let err := default Js.VUndefined (fields !! "error") in
                            inl (messageOf
                                   (orElse (orElse detail err)
                                      (Js.VStr ("HTTP " ++ Js.numberToString status))))
                        | inr Js.PNull | inl _ =>
                            inl ("Upload failed: HTTP " ++ Js.numberToString status)
                        end
               | XhrError => inl "Network error during upload"
               | XhrAbort => inl "Upload cancelled"
               end
  end.

(** [console.log('Token received:', tokenResponse.token.substring(0, 8) + '...')]:
    it throws unless the token is a string. *)
Definition logToken (tokenResponse : Js.Parsed) : Act (Js.Settled unit) :=
  ActM.ret match Js.prop tokenResponse "token" with
           | inl e => inl e
           | inr (Js.VStr _) => inr tt
           | inr Js.VUndefined =>
               inl "Cannot read properties of undefined (reading 'substring')"
           | inr Js.VNull => inl "Cannot read properties of null (reading 'substring')"
           | inr _ => inl "tokenResponse.token.substring is not a function"
           end.

Definition readme `{Platform} (tables : list DuckDb.TableInfo) : string :=
  "# DuckIt Export" ++ Js.NL ++ Js.NL
  ++ "This ZIP bundle was created by DuckIt (https://duckit.tigzig.com)." ++ Js.NL ++ Js.NL
  ++ "## Contents" ++ Js.NL
  ++ "- manifest.json: Table metadata" ++ Js.NL
  ++ "- schema.sql: DDL statements" ++ Js.NL
  ++ "- *.parquet: Table data files" ++ Js.NL ++ Js.NL
  ++ "## Tables" ++ Js.NL
  ++ String.concat Js.NL
       (map (fun t => "- " ++ DuckDb.ti_name t ++ ": "
                      ++ toLocaleString (DuckDb.ti_rowCount t) ++ " rows") tables)
  ++ Js.NL ++ Js.NL
  ++ "## Usage" ++ Js.NL
  ++ "Import into DuckDB:" ++ Js.NL
  ++ "```sql" ++ Js.NL
  ++ "-- For each table:" ++ Js.NL
  ++ "CREATE TABLE table_name AS SELECT * FROM read_parquet('table_name.parquet');" ++ Js.NL
  ++ "```" ++ Js.NL.

(** The [zip] object of [exportAsZipBundle] before it is compressed. *)
Definition zipBundle `{Platform} : Eng Js.JSZip :=
  (tables <- DuckDb.getTables ;;
   if (length tables =? 0)%nat then EngM.throw "No tables to export"
   else
     zm <- forEach
             (fun (zm : Js.JSZip * list Js.Json) table =>
                let fileName := DuckDb.ti_name table ++ ".parquet" in
                DuckDb.copyToParquet (DuckDb.ti_name table) fileName ;;
                buffer <- DuckDb.copyFileToBuffer fileName ;;
                EngM.ret (Js.zipFile fileName buffer (fst zm),
                            (snd zm ++ [DuckDb.manifestEntry table])%list))
             tables ([], []) ;;
     let zip := fst zm in
     let manifest := DuckDb.manifestJson (snd zm) in
     let zip := Js.zipFile "manifest.json" (Js.stringify manifest) zip in
     let schemaStatements :=
       fold_left (fun acc table => (acc ++ [DuckDb.createTableStatement table])%list)
                 tables [] in
     let zip := Js.zipFile "schema.sql" (DuckDb.joinStatements schemaStatements) zip in
     let zip := Js.zipFile "README.md" (readme tables) zip in
     EngM.ret zip)%eng.

Definition exportAsZipBundle `{Platform} : Act (Js.Settled (string * N)) :=
  ActM.call ExportAsZipBundle ;;
  ActM.engine (zip <- zipBundle ;;
               let zipBuffer := zip_generate zip in
               EngM.ret (zipBuffer, DuckDb.byteLength zipBuffer))%eng.

Definition failure (e : Js.Error) : PushToRemoteResult :=
  {| success := false; downloadUrl := Js.VUndefined; filename := Js.VUndefined;
     sizeBytes := None; expiresInHours := Js.VUndefined; error := Some e |}.

(** The object returned at the end of the [try] block. *)
Definition completed (result : Js.Parsed) (bytes : N) : Js.Settled PushToRemoteResult :=
  match Js.prop result "download_url", Js.prop result "filename",
        Js.prop result "expires_in_hours" with
  | inr url, inr fname, inr hours =>
      inr {| success := true; downloadUrl := url; filename := fname;
             sizeBytes := Some bytes; expiresInHours := hours; error := None |}
  | inl e, _, _ | _, inl e, _ | _, _, inl e => inl e
  end.

Definition pushToRemote `{Platform} (databaseName : string) (storageTier : StorageTier)
  : Act (Js.Settled PushToRemoteResult) :=
  ActM.tryCatch
    (exportResult <-? exportAsZipBundle ;;
     let zipFilename := databaseName ++ ".zip" in
     tokenResponse <-? getUploadToken zipFilename (snd exportResult) storageTier ;;
     _ <-? logToken tokenResponse ;;
     result <-? uploadWithToken (fst exportResult) zipFilename tokenResponse ;;
     ActM.ret (completed result (snd exportResult)))
    (fun e => ActM.ret (inr (failure e))).

Definition uploadDirectFile `{Platform} (file : File) (storageTier : StorageTier)
  : Act (Js.Settled PushToRemoteResult) :=
  ActM.tryCatch
    (let fileExtension := option_map Js.toLowerCase (last (Js.split "."%char (name file))) in
     let isParquet := bool_decide (fileExtension = Some "parquet") in
     let isDuckDB := bool_decide (fileExtension = Some "duckdb")
                     || bool_decide (fileExtension = Some "db") in
     if negb isParquet && negb isDuckDB
     then ActM.ret (inl "Only .parquet and .duckdb files are supported for direct upload")
     else
       tokenResponse <-? getUploadToken (name file) (size file) storageTier ;;
       _ <-? logToken tokenResponse ;;
       result <-? uploadWithToken (content file) (name file) tokenResponse ;;
       ActM.ret (completed result (size file)))
    (fun e => ActM.ret (inr (failure e))).

Definition uploadParquetBuffer `{Platform}
    (buffer filename : string) (storageTier : StorageTier)
  : Act (Js.Settled PushToRemoteResult) :=
  ActM.tryCatch
    (let parquetFilename := Js.replaceExt DuckDb.CSV_EXTENSIONS ".parquet" filename in
     tokenResponse <-? getUploadToken parquetFilename (DuckDb.byteLength buffer) storageTier ;;
     _ <-? logToken tokenResponse ;;
     result <-? uploadWithToken buffer parquetFilename tokenResponse ;;
     ActM.ret (completed result (DuckDb.byteLength buffer)))
    (fun e => ActM.ret (inr (failure e))).

End PushToRemote.

(** ** pages/Home.tsx *)

Module Home.
Local Open Scope act_scope.
Import PushToRemote.

Record NeonUser := { id : string; email : string }.

Record ParquetResult := {
  rowCount : option N;
  localBuffer : option string;
  pr_filename : option string;
}.

(** The state of the component that the handlers read. *)
Record HomeState := {
  user : option NeonUser;                 (* useAuth() *)
  isAllowed : bool;                       (* useAuth() *)
  userStorageTier : StorageTier;
  userRole : Role;
  isRoleLoading : bool;
  keepPersistent : bool;
  keepPersistentQuick : bool;
  tables : list DuckDb.TableInfo;
  quickStagedFile : option File;
  parquetResult : option ParquetResult;
}.

Definition MAX_UPLOAD_SIZE_MB : Q := 150%Q.

(** The state at mount. *)
Definition initialState : HomeState :=
  {| user := None; isAllowed := false; userStorageTier := temp; userRole := pro;
     isRoleLoading := true; keepPersistent := false; keepPersistentQuick := false;
     tables := []; quickStagedFile := None; parquetResult := None |}.

(** [user?.email] when it is truthy. *)
Definition userEmail (s : HomeState) : option string :=
  match user s with
  | Some u => if String.eqb (email u) "" then None else Some (email u)
  | None => None
  end.

(** *** The effect that loads the role

    [loadUserRole] runs when [user?.email] or [isAllowed] change.  It sets
    [isRoleLoading], awaits [getUserRole] for an allowed signed-in user
    (which answers ['pro'] when the request fails), and then stores the
    role, the tier and clears [isRoleLoading]. *)
Definition authChanged (u : option NeonUser) (allowed : bool) (s : HomeState) : HomeState :=
  {| user := u; isAllowed := allowed; userStorageTier := userStorageTier s;
     userRole := userRole s; isRoleLoading := isRoleLoading s;
     keepPersistent := keepPersistent s; keepPersistentQuick := keepPersistentQuick s;
     tables := tables s; quickStagedFile := quickStagedFile s;
     parquetResult := parquetResult s |}.

Definition loadUserRole_start (s : HomeState) : HomeState :=
  {| user := user s; isAllowed := isAllowed s; userStorageTier := userStorageTier s;
     userRole := userRole s; isRoleLoading := true;
     keepPersistent := keepPersistent s; keepPersistentQuick := keepPersistentQuick s;
     tables := tables s; quickStagedFile := quickStagedFile s;
     parquetResult := parquetResult s |}.

(** [role] is the answer of [getUserRole]; it is read only for an allowed
    signed-in user. *)
Definition loadUserRole_finish (role : Role) (s : HomeState) : HomeState :=
  let signedIn := match userEmail s with Some _ => isAllowed s | None => false end in
  {| user := user s; isAllowed := isAllowed s;
     userStorageTier := if signedIn then NeonDb.getStorageTier role else temp;
     userRole := if signedIn then role else pro;
     isRoleLoading := false;
     keepPersistent := keepPersistent s; keepPersistentQuick := keepPersistentQuick s;
     tables := tables s; quickStagedFile := quickStagedFile s;
     parquetResult := parquetResult s |}.

(** The effect [loadUserRole], from its start to its end. *)
Definition loadUserRole (acc : Accounts) (s : HomeState) : HomeState :=
  let s := loadUserRole_start s in
  match userEmail s with
  | Some mail =>
      if isAllowed s
      then loadUserRole_finish (NeonDb.getUserRole acc mail) s
      else loadUserRole_finish pro s
  | None => loadUserRole_finish pro s
  end.

(** The checkbox [Keep persistent] of the build panel; it is disabled
    unless [isAllowed]. *)
Definition setKeepPersistent (checked : bool) (s : HomeState) : HomeState :=
  {| user := user s; isAllowed := isAllowed s; userStorageTier := userStorageTier s;
     userRole := userRole s; isRoleLoading := isRoleLoading s;
     keepPersistent := if isAllowed s then checked else keepPersistent s;
     keepPersistentQuick := keepPersistentQuick s;
     tables := tables s; quickStagedFile := quickStagedFile s;
     parquetResult := parquetResult s |}.

Definition setTables (l : list DuckDb.TableInfo) (s : HomeState) : HomeState :=
  {| user := user s; isAllowed := isAllowed s; userStorageTier := userStorageTier s;
     userRole := userRole s; isRoleLoading := isRoleLoading s;
     keepPersistent := keepPersistent s; keepPersistentQuick := keepPersistentQuick s;
     tables := l; quickStagedFile := quickStagedFile s;
     parquetResult := parquetResult s |}.

Definition getEffectiveStorageTier (s : HomeState) (checkboxChecked : bool) : StorageTier :=
  if negb (isAllowed s) || negb checkboxChecked then temp else userStorageTier s.

(** *** What a handler shows *)

(** The messages of [setError], by template and spliced values. *)
Inductive Banner :=
| PleaseWait                (* Please wait, loading user permissions... *)
| PleaseDropCsv             (* Please drop CSV, TSV, TXT, PIPE, or PSV files *)
| PleaseDropQuick           (* Please drop a Parquet or DuckDB file *)
| PleaseDropDelimited       (* Please drop a CSV, TSV, or delimited file *)
| OneFileQuick              (* Quick Upload supports one file at a time *)
| OneFileParquet            (* CSV -> Parquet supports one file at a time *)
| FileTooLarge (fileType : string) (fileSizeMb maxSizeMb : Q)
    (* fileType file too large (fileSizeMb MB). Maximum allowed: maxSizeMb MB *)
| DatabaseTooLarge (estimatedDuckDbMb maxMb : Q)
    (* Database too large: ~estimatedDuckDbMb MB. Maximum allowed: 75 MB. ... *)
| ImportFailed (message : string)
| ConversionFailed (message : string)
| PushFailed (message : option string)
| UploadFailed (message : option string).

Inductive Outcome :=
| Returned                                   (* a bare [return] *)
| Refused (b : Banner)                       (* [setError(b); return] before any transfer *)
| Imported (tables : option (list DuckDb.TableInfo))   (* [setTables], if [getTables] answered *)
| Staged (file : File)                       (* [setQuickStagedFile(file)] *)
| Converted (r : ParquetResult)              (* [setParquetResult(r)] *)
| FileLimitModal (userFileCount maxFiles : Q)
    (* [setFileLimitInfo(...); setShowFileLimitModal(true); return] *)
| StorageFullModal (usedMb maxMb fileSizeMb : Q)
    (* [setStorageInfo(...); setShowStorageFullModal(true); return] *)
| Published (storageTier : StorageTier) (result : PushToRemoteResult)
            (record : option FileRecordInput)  (* the transfer succeeded *)
| TransferFailed (storageTier : StorageTier) (b : Banner)  (* the transfer was attempted *)
| Caught (b : Banner).                        (* the [catch] of the handler *)

(** What the checks that precede a transfer conclude: the handler throws,
    returns early with an outcome, or goes on to the transfer. *)
Definition Checked : Type := Js.Settled (option Outcome).

Definition proceed : Act Checked := ActM.ret (inr None).
Definition stop (o : Outcome) : Act Checked := ActM.ret (inr (Some o)).

(** [validation.maxFiles || 2]. *)
Definition maxFilesOr2 (v : NeonDb.UploadValidation) : Q :=
  match NeonDb.maxFiles v with
  | Some m => Js.orNum m 2
  | None => 2
  end.

(** [keepPersistent && isAllowed && user?.email && storageTier !== 'temp']:
    the e-mail when the whole condition holds. *)
Definition persistentRequest (s : HomeState) (checkbox : bool) (storageTier : StorageTier)
  : option string :=
  if checkbox && isAllowed s && negb (bool_decide (storageTier = temp))
  then userEmail s else None.

(** The block that the three upload handlers repeat for a persistent
    request: the file-count validation, then the capacity of the
    persistent tier.  [fileSizeMb] is what the handler passes to
    [validateUpload], [estimatedMb] what it compares with the capacity. *)
Definition persistentChecks (email : string) (fileSizeMb estimatedMb : Q) : Act Checked :=
  limits <- NeonDb.getEffectiveLimits email ;;
  validation <- NeonDb.validateUpload email fileSizeMb limits ;;
  if negb (NeonDb.allowed validation)
  then stop (FileLimitModal (Js.orNum (NeonDb.userFileCount validation) 0)
                            (maxFilesOr2 validation))
  else
    storageStatus <- getStorageStatus persistent ;;
    match storageStatus with
    | Some st =>
        if Js.gt estimatedMb (available_mb st) || negb (can_upload st)
        then stop (StorageFullModal 0 (available_mb st) estimatedMb)
        else proceed
    | None => proceed
    end.

(** The record saved after a transfer, when
    [keep && isAllowed && user?.email && result.downloadUrl && result.filename]. *)
Definition recordFor (s : HomeState) (keep : bool) (result : PushToRemoteResult)
    (displayName : string) (sizeMb : Q) (fmt : string) : option FileRecordInput :=
  match user s, userEmail s with
  | Some u, Some mail =>
      if keep && isAllowed s && Js.truthy (downloadUrl result) && Js.truthy (filename result)
      then Some {| user_id := id u; user_email := mail;
                   server_filename := filename result; display_name := displayName;
                   download_url := downloadUrl result; size_mb := sizeMb; format := fmt |}
      else None
  | _, _ => None
  end.

Definition saveRecord (r : option FileRecordInput) : Act unit :=
  match r with
  | Some record => NeonDb.addFileRecord record
  | None => ActM.ret tt
  end.

(** *** Build Database *)

Definition tableNameFor (file : File) : string :=
  Js.sanitize (Js.replaceExt DuckDb.CSV_EXTENSIONS "" (name file)).

Definition importAll `{Platform} (files : list File) : Eng unit :=
  forEach (fun (_ : unit) file => DuckDb.importCSV file (tableNameFor file)) files tt.

(** [refreshTables]: the list of tables, unless [getTables] throws. *)
Definition refreshTables : Act (option (list DuckDb.TableInfo)) :=
  r <- ActM.engine DuckDb.getTables ;;
  ActM.ret match r with
           | inr tableList => Some tableList
           | inl _ => None
           end.

Definition importFiles `{Platform} (files : list File) : Act Outcome :=
  r <- ActM.engine (importAll files) ;;
  match r with
  | inl e => ActM.ret (Caught (ImportFailed e))
  | inr _ => t <- refreshTables ;; ActM.ret (Imported t)
  end.

Definition handleBuildDrop `{Platform} (s : HomeState) (dropped : list File) : Act Outcome :=
  if isRoleLoading s then ActM.ret (Refused PleaseWait)
  else
    let files := filter (fun f => Is_true (Js.testExt DuckDb.CSV_EXTENSIONS (name f))) dropped in
    if (length files =? 0)%nat then ActM.ret (Refused PleaseDropCsv)
    else importFiles files.

Definition handleBuildFileInput `{Platform} (s : HomeState) (files : list File) : Act Outcome :=
  if (length files =? 0)%nat then ActM.ret Returned
  else if isRoleLoading s then ActM.ret (Refused PleaseWait)
  else importFiles files.

Definition generateDbDisplayName (s : HomeState) : string :=
  if (length (tables s) =? 0)%nat then "database"
  else
    let combined := String.concat "" (map DuckDb.ti_name (tables s)) in
    let cleaned := Js.keepAlnum combined in
    let short := substring 0 20 cleaned in
    if String.eqb short "" then "database" else short.

(** The checks of [handlePushToRemote] that precede [pushToRemote]. *)
Definition pushChecks `{Platform} (s : HomeState) (storageTier : StorageTier) : Act Checked :=
  if bool_decide (userRole s = admin) then proceed
  else
    ActM.call EstimateDatabaseSize ;;
    parquetSizeBytes <-? ActM.engine DuckDb.estimateDatabaseSize ;;
    let parquetSizeMb := megabytes parquetSizeBytes in
    let estimatedDuckDbMb := (parquetSizeMb * 2)%Q in
    if Js.gt estimatedDuckDbMb 75
    then stop (Refused (DatabaseTooLarge estimatedDuckDbMb 75))
    else
      match persistentRequest s (keepPersistent s) storageTier with
      | Some email => persistentChecks email 0 estimatedDuckDbMb
      | None => proceed
      end.

Definition handlePushToRemote `{Platform} (s : HomeState) : Act Outcome :=
  let storageTier := getEffectiveStorageTier s (keepPersistent s) in
  checked <- pushChecks s storageTier ;;
  match checked with
  | inl e => ActM.ret (Caught (PushFailed (Some e)))
  | inr (Some o) => ActM.ret o
  | inr None =>
      let dbName := generateDbDisplayName s in
      r <- pushToRemote dbName storageTier ;;
      match r with
      | inl e => ActM.ret (Caught (PushFailed (Some e)))
      | inr result =>
          if success result
          then
            let fileSizeMb := match sizeBytes result with
                              | Some b => if (b =? 0)%N then 0%Q else megabytes b
                              | None => 0%Q
                              end in
            let record := recordFor s (keepPersistent s) result
                                    (generateDbDisplayName s) fileSizeMb "duckdb" in
            saveRecord record ;;
            ActM.ret (Published storageTier result record)
          else ActM.ret (TransferFailed storageTier (PushFailed (error result)))
      end
  end.

(** *** Quick Upload *)

Definition QUICK_EXTENSIONS : list string := ["parquet"; "duckdb"; "db"].

Definition handleQuickDrop (s : HomeState) (dropped : list File) : Outcome :=
  if isRoleLoading s then Refused PleaseWait
  else
    let files := filter (fun f => Is_true (Js.testExt QUICK_EXTENSIONS (name f))) dropped in
    match files with
    | [] => Refused PleaseDropQuick
    | file :: [] =>
        if negb (bool_decide (userRole s = admin))
        then
          let fileSizeMb := megabytes (size file) in
          let isParquet := Js.endsWith (Js.toLowerCase (name file)) ".parquet" in
          let isDuckDb := Js.endsWith (Js.toLowerCase (name file)) ".duckdb"
                          || Js.endsWith (Js.toLowerCase (name file)) ".db" in
          let maxSizeMb := (if isParquet then 75 else 150)%Q in
          if Js.gt fileSizeMb maxSizeMb
          then
            let fileType :=
              if isParquet then "Parquet" else if isDuckDb then "DuckDB" else "File" in
            Refused (FileTooLarge fileType fileSizeMb maxSizeMb)
          else Staged file
        else Staged file
    | _ :: _ :: _ => Refused OneFileQuick
    end.

Definition handleQuickFileInput (s : HomeState) (files : list File) : Outcome :=
  match files with
  | [] => Returned
  | file :: _ =>
      if isRoleLoading s then Refused PleaseWait
      else
        if negb (bool_decide (userRole s = admin))
        then
          let fileSizeMb := megabytes (size file) in
          if Js.gt fileSizeMb MAX_UPLOAD_SIZE_MB
          then Refused (FileTooLarge "File" fileSizeMb MAX_UPLOAD_SIZE_MB)
          else Staged file
        else Staged file
  end.

(** The checks of [handleQuickUpload] that precede [uploadDirectFile]. *)
Definition quickChecks (s : HomeState) (file : File) (storageTier : StorageTier)
  : Act Checked :=
  let fileSizeMb := megabytes (size file) in
  if bool_decide (userRole s = admin) then proceed
  else
    match persistentRequest s (keepPersistentQuick s) storageTier with
    | Some email =>
        let isParquet := Js.endsWith (Js.toLowerCase (name file)) ".parquet" in
        let estimatedFileSizeMb := if isParquet then (fileSizeMb * 2)%Q else fileSizeMb in
        persistentChecks email fileSizeMb estimatedFileSizeMb
    | None => proceed
    end.

Definition handleQuickUpload `{Platform} (s : HomeState) : Act Outcome :=
  match quickStagedFile s with
  | None => ActM.ret Returned
  | Some file =>
      let fileSizeMb := megabytes (size file) in
      let storageTier := getEffectiveStorageTier s (keepPersistentQuick s) in
      checked <- quickChecks s file storageTier ;;
      match checked with
      | inl e => ActM.ret (Caught (UploadFailed (Some e)))
      | inr (Some o) => ActM.ret o
      | inr None =>
          r <- uploadDirectFile file storageTier ;;
          match r with
          | inl e => ActM.ret (Caught (UploadFailed (Some e)))
          | inr result =>
              if success result
              then
                let fmt := if Js.endsWith (Js.toLowerCase (name file)) ".parquet"
                           then "parquet" else "duckdb" in
                let record := recordFor s (keepPersistentQuick s) result
                                        (Js.replaceExt QUICK_EXTENSIONS "" (name file))
                                        fileSizeMb fmt in
                saveRecord record ;;
                ActM.ret (Published storageTier result record)
              else ActM.ret (TransferFailed storageTier (UploadFailed (error result)))
          end
      end
  end.

(** *** CSV to Parquet *)

Definition convert `{Platform} (file : File) : Act Outcome :=
  r <- ActM.engine (DuckDb.convertCsvToParquet file) ;;
  ActM.ret match r with
           | inr (buffer, n) =>
               Converted {| rowCount := Some n; localBuffer := Some buffer;
                            pr_filename :=
                              Some (Js.replaceExt DuckDb.CSV_EXTENSIONS ".parquet" (name file)) |}
           | inl e => Caught (ConversionFailed e)
           end.

Definition handleParquetDrop `{Platform} (s : HomeState) (dropped : list File) : Act Outcome :=
  if isRoleLoading s then ActM.ret (Refused PleaseWait)
  else
    let files := filter (fun f => Is_true (Js.testExt DuckDb.CSV_EXTENSIONS (name f))) dropped in
    match files with
    | [] => ActM.ret (Refused PleaseDropDelimited)
    | file :: [] => convert file
    | _ :: _ :: _ => ActM.ret (Refused OneFileParquet)
    end.

Definition handleParquetFileInput `{Platform} (s : HomeState) (files : list File)
  : Act Outcome :=
  match files with
  | [] => ActM.ret Returned
  | file :: _ =>
      if isRoleLoading s then ActM.ret (Refused PleaseWait)
      else convert file
  end.

(** The checks of [handleParquetUploadToServer] that precede
    [uploadParquetBuffer]: the size ceiling comes first, outside the [try]. *)
Definition parquetChecks (s : HomeState) (buffer : string) (storageTier : StorageTier)
  : Act Checked :=
  let fileSizeMb := megabytes (DuckDb.byteLength buffer) in
  if negb (bool_decide (userRole s = admin)) && Js.gt fileSizeMb 75
  then stop (Refused (FileTooLarge "Parquet" fileSizeMb 75))
  else
    if bool_decide (userRole s = admin) then proceed
    else
      match persistentRequest s (keepPersistent s) storageTier with
      | Some email => persistentChecks email fileSizeMb (fileSizeMb * 2)%Q
      | None => proceed
      end.

Definition handleParquetUploadToServer `{Platform} (s : HomeState) : Act Outcome :=
  match parquetResult s with
  | Some {| localBuffer := Some buffer; pr_filename := Some fname |} =>
      if String.eqb fname "" then ActM.ret Returned
      else
        let fileSizeMb := megabytes (DuckDb.byteLength buffer) in
        let storageTier := getEffectiveStorageTier s (keepPersistent s) in
        checked <- parquetChecks s buffer storageTier ;;
        match checked with
        | inl e => ActM.ret (Caught (UploadFailed (Some e)))
        | inr (Some o) => ActM.ret o
        | inr None =>
            r <- uploadParquetBuffer buffer fname storageTier ;;
            match r with
            | inl e => ActM.ret (Caught (UploadFailed (Some e)))
            | inr result =>
                if success result
                then
                  let record := recordFor s (keepPersistent s) result
                                          (Js.replaceExt ["parquet"] "" fname)
                                          fileSizeMb "parquet" in
                  saveRecord record ;;
                  ActM.ret (Published storageTier result record)
                else ActM.ret (TransferFailed storageTier (UploadFailed (error result)))
            end
        end
  | _ => ActM.ret Returned
  end.

(** *** The admission decision a handler amounts to *)

Inductive Reason := ARTIFACT_TOO_LARGE | FILE_COUNT_LIMIT | STORAGE_FULL | ROLE_NOT_LOADED.

Inductive Decision :=
| ALLOW
| DENY (reason : Reason) (detail : list (string * Q)).

(** The decision behind an outcome, when there is one: a refusal that
    names a ceiling, a quota or the pending role is a denial; staging the
    file or attempting the transfer means the checks let it through. *)
Definition decision (o : Outcome) : option Decision :=
  match o with
  | Refused PleaseWait => Some (DENY ROLE_NOT_LOADED [])
  | Refused (FileTooLarge _ actual limit) =>
      Some (DENY ARTIFACT_TOO_LARGE [("limitMB", limit); ("actualMB", actual)])
  | Refused (DatabaseTooLarge actual limit) =>
      Some (DENY ARTIFACT_TOO_LARGE [("limitMB", limit); ("actualMB", actual)])
  | FileLimitModal count max =>
      Some (DENY FILE_COUNT_LIMIT [("currentCount", count); ("maxCount", max)])
  | StorageFullModal _ available estimated =>
      Some (DENY STORAGE_FULL [("availableMB", available); ("estimatedMB", estimated)])
  | Staged _ | Published _ _ _ | TransferFailed _ _ => Some ALLOW
  | _ => None
  end.

(** The decision of the checks alone. *)
Definition admission (c : Checked) : option Decision :=
  match c with
  | inr None => Some ALLOW
  | inr (Some o) => decision o
  | inl _ => None
  end.

(** *** The time shown after an upload *)

Definition formatTimerSimple (formatted : string) : string :=
  let parts := Js.split ":"%char (substring 0 5 formatted) in
  let mins := Js.parseIntAt parts 0 in
  let secs := Js.parseIntAt parts 1 in
  Js.showNumber mins ++ "m " ++ Js.showNumber secs ++ "s".

End Home.

(** ** hooks/useElapsedTimer.ts *)

Module ElapsedTimer.

Record ElapsedTime := {
  minutes : Z;
  seconds : Z;
  milliseconds : Z;
  formatted : string;
  totalMs : Z;
}.

Definition calculateElapsed (totalMs : Z) : ElapsedTime :=
  let totalSeconds := (totalMs / 1000)%Z in
  let minutes := (totalSeconds / 60)%Z in
  let seconds := Z.rem totalSeconds 60 in
  let milliseconds := Z.rem totalMs 1000 in
  let formatted :=
    Js.padStart0 2 (Js.integerToString minutes) ++ ":"
    ++ Js.padStart0 2 (Js.integerToString seconds) ++ "."
    ++ Js.padStart0 3 (Js.integerToString milliseconds) in
  {| minutes := minutes; seconds := seconds; milliseconds := milliseconds;
     formatted := formatted; totalMs := totalMs |}.

End ElapsedTimer.

(** ** contexts/AuthContext.tsx *)

Module AuthContext.

Record AuthState := {
  user : option Home.NeonUser;
  isLoading : bool;
  isAllowed : Js.Value;
  appUser : option NeonDb.AppUser;
  limits : Limits;
}.

(** The state at mount. *)
Definition initialState : AuthState :=
  {| user := None; isLoading := true; isAllowed := Js.VBool false; appUser := None;
     limits := ∅ |}.

(** [checkUserAccess] catches what its body throws, so the [catch] of
    [checkAccess] is never entered. *)
Definition checkAccess (w : World) (acc : Accounts) (email : string) (a : AuthState)
  : AuthState :=
  let access := NeonDb.checkUserAccess w acc email in
  {| user := user a; isLoading := isLoading a;
     isAllowed := NeonDb.ua_allowed access;
     appUser := NeonDb.ua_user access;
     limits := NeonDb.ua_limits access |}.

Definition refreshSession (w : World) (acc : Accounts) (a : AuthState) : AuthState :=
  let a' :=
    match auth_getSession acc with
    | ActiveSession id email =>
        let neonUser := {| Home.id := id; Home.email := email |} in
        checkAccess w acc (Home.email neonUser)
          {| user := Some neonUser; isLoading := isLoading a; isAllowed := isAllowed a;
             appUser := appUser a; limits := limits a |}
    | NoSession =>
        {| user := None; isLoading := isLoading a; isAllowed := Js.VBool false;
           appUser := None; limits := ∅ |}
    | SessionThrew =>
        {| user := None; isLoading := isLoading a; isAllowed := Js.VBool false;
           appUser := appUser a; limits := limits a |}
    end in
  {| user := user a'; isLoading := false; isAllowed := isAllowed a';
     appUser := appUser a'; limits := limits a' |}.

(** Whether [neonAuth.signOut()] rejects or not, the state is cleared. *)
Definition signOut (a : AuthState) : AuthState :=
  {| user := None; isLoading := isLoading a; isAllowed := Js.VBool false;
     appUser := None; limits := ∅ |}.

End AuthContext.

(** * Example data *)

(** ** A small platform on which the statements are exercised *)

Definition demoTable (bytes : string) : Table :=
  {| columns := [ {| col_name := "id"; col_type := "BIGINT" |};
                  {| col_name := "name"; col_type := "VARCHAR" |} ];
     rows := map (fun line => [line]) (tail (Js.split Js.LF bytes)) |}.

Definition demoPlatform : Platform :=
  {| read_csv := fun bytes _ => if String.eqb bytes "" then inl "empty input" else inr (demoTable bytes);
     to_parquet := fun t => "PAR1" ++ String.concat "," (map (String.concat ";") (rows t)) ++ "PAR1";
     zip_generate := fun members => String.concat "" (map (fun m => fst m ++ snd m) members);
     JSON_parse := fun text =>
       if String.eqb text "" then inl "Unexpected end of JSON input"
       else if String.eqb text "null" then inr Js.PNull
       else inr (Js.PObj (<["token" := Js.VStr "0123456789abcdef"]>
                          (<["full_upload_url" := Js.VStr "https://backend/upload"]>
                          (<["download_url" := Js.VStr "https://backend/d/1"]>
                          (<["filename" := Js.VStr "stored.zip"]>
                          (<["expires_in_hours" := Js.VNum 24]> ∅))))));
     js_String := fun _ => "[object Object]";
     toLocaleString := Js.numberToString |}.

(** A file whose first line ties pipe and comma. *)
Definition tiedFile : File := {| name := "report.csv"; content := "a|b,c" |}.

(** A file whose first line holds 3 pipes, 1 tab and no comma. *)
Definition threePipes : File :=
  {| name := "data.txt"; content := "a|b|c|d" ++ Js.TAB ++ "e" ++ Js.NL ++ "1,2,3,4" |}.

(** A session with one table [t] of two rows and no file. *)
Definition oneTable : Table := demoTable ("id,name" ++ Js.NL ++ "1,a" ++ Js.NL ++ "2,b").

Definition oneTableDb : Db := {| tables := {[ "t" := oneTable ]}; files := ∅ |}.

(** A three-row delimited file. *)
Definition threeRows : File :=
  {| name := "t.csv";
     content := "id,name" ++ Js.NL ++ "1,a" ++ Js.NL ++ "2,b" ++ Js.NL ++ "3,c" |}.

(** The bundle exported from [oneTableDb] on the demo platform. *)
Definition demoBundle : Js.JSZip :=
  Eval vm_compute in
    match fst (@PushToRemote.zipBundle demoPlatform oneTableDb) with
    | inr zip => zip
    | inl _ => []
    end.

(** A world in which the identity holds 2 files of 2 allowed, the
    persistent tier has 10 MB left, and every request goes through. *)
Definition demoWorld : World :=
  {| isNeonDataConfigured := true;
     user_limits := fun _ => Replied (Some {[ "max_files" := Some 2%Q ]});
     files_count := fun _ => Replied (Some 2%Q);
     api_status := fun _ =>
       StatusOk {| d_available_mb := Some 10%Q; d_usage_percent := Some 50%Q;
                   d_file_count := Some 7%Q; d_can_upload := Some true;
                   d_max_file_size_mb := Some 150%Q |};
     api_upload_token := fun _ _ _ => Http 200 "{token}";
     xhr_post := fun _ _ _ => XhrLoad 200 "{stored}" |}.

(** A session without tables, before any call. *)
Definition idleSys : Sys := {| db := emptyDb; calls := [] |}.

(** A session with one table, before any call. *)
Definition oneTableSys : Sys := {| db := oneTableDb; calls := [] |}.

(** A columnar file of 12 bytes. *)
Definition demoParquet : File := {| name := "Sales.Parquet"; content := "PAR1datePAR1" |}.

(** A buffer of [n] bytes. *)
Fixpoint padding (n : nat) : string :=
  match n with
  | O => EmptyString
  | S k => String "x"%char (padding k)
  end.

Definition bulk (n : N) : string := padding (N.to_nat n).

(** A platform whose columnar exports weigh 40 000 000 bytes each. *)
Definition bulkyPlatform : Platform :=
  {| read_csv := @read_csv demoPlatform;
     to_parquet := fun _ => bulk 40000000;
     zip_generate := @zip_generate demoPlatform;
     JSON_parse := @JSON_parse demoPlatform;
     js_String := @js_String demoPlatform;
     toLocaleString := @toLocaleString demoPlatform |}.

Definition proUser : Home.NeonUser :=
  {| Home.id := "user-1"; Home.email := "pro@example.com" |}.

(** A signed-in, allowed identity of role [pro] whose role is loaded, with
    both [Keep persistent] boxes checked, one table listed, a columnar file
    staged and a conversion result at hand. *)
Definition proState : Home.HomeState :=
  {| Home.user := Some proUser; Home.isAllowed := true;
     Home.userStorageTier := persistent; Home.userRole := pro;
     Home.isRoleLoading := false;
     Home.keepPersistent := true; Home.keepPersistentQuick := true;
     Home.tables := [ {| DuckDb.ti_name := "t"; DuckDb.ti_rowCount := 2;
                         DuckDb.ti_columns := columns oneTable |} ];
     Home.quickStagedFile := Some demoParquet;
     Home.parquetResult :=
       Some {| Home.rowCount := Some 2%N; Home.localBuffer := Some "PAR1datePAR1";
               Home.pr_filename := Some "sales.parquet" |} |}.

(** The same page for an administrator. *)
Definition adminState : Home.HomeState :=
  {| Home.user := Some proUser; Home.isAllowed := true;
     Home.userStorageTier := permanent; Home.userRole := admin;
     Home.isRoleLoading := false;
     Home.keepPersistent := true; Home.keepPersistentQuick := true;
     Home.tables := Home.tables proState;
     Home.quickStagedFile := Some demoParquet;
     Home.parquetResult := Home.parquetResult proState |}.

(** The page of [proState] holding a conversion result of 80 000 000 bytes. *)
Definition bulkyState : Home.HomeState :=
  {| Home.user := Some proUser; Home.isAllowed := true;
     Home.userStorageTier := persistent; Home.userRole := pro;
     Home.isRoleLoading := false;
     Home.keepPersistent := true; Home.keepPersistentQuick := true;
     Home.tables := Home.tables proState;
     Home.quickStagedFile := None;
     Home.parquetResult :=
       Some {| Home.rowCount := Some 2%N; Home.localBuffer := Some (bulk 80000000);
               Home.pr_filename := Some "sales.parquet" |} |}.

(** A world in which the identity holds 1 file of 2 allowed and the
    persistent tier has no room left. *)
Definition fullWorld : World :=
  {| isNeonDataConfigured := true;
     user_limits := fun _ => Replied (Some {[ "max_files" := Some 2%Q ]});
     files_count := fun _ => Replied (Some 1%Q);
     api_status := fun _ =>
       StatusOk {| d_available_mb := Some 0%Q; d_usage_percent := Some 100%Q;
                   d_file_count := Some 9%Q; d_can_upload := Some false;
                   d_max_file_size_mb := Some 150%Q |};
     api_upload_token := api_upload_token demoWorld;
     xhr_post := xhr_post demoWorld |}.

(** A world in which the limit of the identity is 0 files. *)
Definition zeroLimitWorld : World :=
  {| isNeonDataConfigured := true;
     user_limits := fun _ => Replied (Some {[ "max_files" := Some 0%Q ]});
     files_count := fun _ => Replied (Some 0%Q);
     api_status := api_status demoWorld;
     api_upload_token := api_upload_token demoWorld;
     xhr_post := xhr_post demoWorld |}.

(** The page while the role of an identity that just signed in is still
    loading: tables were imported before the sign-in, the session was then
    established, [loadUserRole] started, and the identity checked
    [Keep persistent]. *)
Definition signingIn : Home.HomeState :=
  Home.setKeepPersistent true
    (Home.loadUserRole_start
       (Home.authChanged (Some proUser) true
          (Home.setTables (Home.tables proState)
             (Home.loadUserRole_finish pro Home.initialState)))).

(** * Properties *)

(** ** Delimiter selection *)

Section Delimiter.
Import DuckDb.

Lemma detectDelimiter_cases (file : File) :
  detectDelimiter file =
    if ((0 <? pipeCount file) && (tabCount file <=? pipeCount file)
        && (commaCount file <=? pipeCount file))%nat then "|"
    else if ((0 <? tabCount file) && (commaCount file <=? tabCount file))%nat then Js.TAB
    else ",".
Proof. reflexivity. Qed.

Lemma delimiters_differ :
  "|" <> Js.TAB /\ "|" <> "," /\ Js.TAB <> "," /\ Js.TAB <> "|" /\ "," <> "|" /\ "," <> Js.TAB.
Proof. repeat split; discriminate. Qed.

Ltac by_counts file :=
  rewrite detectDelimiter_cases;
  destruct (Nat.ltb_spec 0 (pipeCount file));
  destruct (Nat.leb_spec (tabCount file) (pipeCount file));
  destruct (Nat.leb_spec (commaCount file) (pipeCount file));
  destruct (Nat.ltb_spec 0 (tabCount file));
  destruct (Nat.leb_spec (commaCount file) (tabCount file)); simpl;
  split; intros Hside;
  first [ reflexivity | lia | exfalso; lia
        | exfalso; revert Hside; apply delimiters_differ ].

(** The three outcomes of the inference, by the counts of the first line. *)
Lemma detectDelimiter_pipe (file : File) :
  detectDelimiter file = "|" <->
  (0 < pipeCount file /\ tabCount file <= pipeCount file
   /\ commaCount file <= pipeCount file)%nat.
Proof. by_counts file. Qed.

Lemma detectDelimiter_tab (file : File) :
  detectDelimiter file = Js.TAB <->
  (0 < tabCount file /\ pipeCount file < tabCount file
   /\ commaCount file <= tabCount file)%nat.
Proof. by_counts file. Qed.

Lemma detectDelimiter_comma (file : File) :
  detectDelimiter file = "," <->
  ((pipeCount file = 0 \/ pipeCount file < commaCount file)
   /\ (tabCount file = 0 \/ tabCount file < commaCount file))%nat.
Proof. by_counts file. Qed.

Lemma detectDelimiter_highest (file : File) :
  (pipeCount file <= countOf (detectDelimiter file) file
   /\ tabCount file <= countOf (detectDelimiter file) file
   /\ commaCount file <= countOf (detectDelimiter file) file)%nat.
Proof.
  rewrite detectDelimiter_cases. unfold countOf.
  destruct (Nat.ltb_spec 0 (pipeCount file));
    destruct (Nat.leb_spec (tabCount file) (pipeCount file));
    destruct (Nat.leb_spec (commaCount file) (pipeCount file));
    destruct (Nat.ltb_spec 0 (tabCount file));
    destruct (Nat.leb_spec (commaCount file) (tabCount file)); simpl; lia.
Qed.

Lemma delimiterFor_by_extension (file : File) :
  (fileExtension file = Some "pipe" \/ fileExtension file = Some "psv" ->
   delimiterFor file = "|")
  /\ (fileExtension file = Some "tsv" -> delimiterFor file = Js.TAB)
  /\ (fileExtension file <> Some "pipe" -> fileExtension file <> Some "psv" ->
      fileExtension file <> Some "tsv" -> delimiterFor file = detectDelimiter file).
Proof.
  unfold delimiterFor. repeat split.
  - intros [-> | ->]; reflexivity.
  - intros ->. reflexivity.
  - intros H1 H2 H3.
    rewrite !bool_decide_eq_false_2 by assumption. simpl.
    destruct (bool_decide _); reflexivity.
Qed.

End Delimiter.

(** C2, as stated, fails: with comma as the tie-break the delimiter would be
    comma whenever no other candidate occurs more often than comma; on a
    first line with one pipe and one comma the code selects pipe. *)
Lemma delimiter_comma_tie_counterexample :
  ~ (forall file : File,
       DuckDb.fileExtension file = Some "csv" ->
       (DuckDb.pipeCount file <= DuckDb.commaCount file)%nat ->
       (DuckDb.tabCount file <= DuckDb.commaCount file)%nat ->
       DuckDb.delimiterFor file = ",").
Proof.
  intros claim.
  specialize (claim tiedFile eq_refl).
  assert (DuckDb.delimiterFor tiedFile = "|") as Hpipe by (vm_compute; reflexivity).
  rewrite Hpipe in claim.
  assert (DuckDb.pipeCount tiedFile = 1%nat) as Hp by (vm_compute; reflexivity).
  assert (DuckDb.commaCount tiedFile = 1%nat) as Hc by (vm_compute; reflexivity).
  assert (DuckDb.tabCount tiedFile = 0%nat) as Ht by (vm_compute; reflexivity).
  rewrite Hp, Hc, Ht in claim.
  assert ("|" = ",") as Habsurd by (apply claim; lia).
  discriminate Habsurd.
Qed.

(** C2, amended: the extensions [pipe] and [psv] give pipe and [tsv] gives
    tab; every other extension is inferred from the counts of pipe, tab and
    comma on the first line of the first 8192 bytes.  The selected delimiter
    has the highest count; among equal counts pipe is preferred to tab and
    tab to comma, and comma is the answer when none of the three occurs.  In
    particular 3 pipes, 1 tab, 0 commas give pipe, and 0 of each give comma. *)
Theorem delimiter_selection (file : File) :
  let p := DuckDb.pipeCount file in
  let t := DuckDb.tabCount file in
  let c := DuckDb.commaCount file in
  let ext := DuckDb.fileExtension file in
  (ext = Some "pipe" \/ ext = Some "psv" -> DuckDb.delimiterFor file = "|")
  /\ (ext = Some "tsv" -> DuckDb.delimiterFor file = Js.TAB)
  /\ (ext <> Some "pipe" -> ext <> Some "psv" -> ext <> Some "tsv" ->
      DuckDb.delimiterFor file = DuckDb.detectDelimiter file)
  /\ (DuckDb.detectDelimiter file = "|" <-> (0 < p /\ t <= p /\ c <= p)%nat)
  /\ (DuckDb.detectDelimiter file = Js.TAB <-> (0 < t /\ p < t /\ c <= t)%nat)
  /\ (DuckDb.detectDelimiter file = "," <-> ((p = 0 \/ p < c) /\ (t = 0 \/ t < c))%nat)
  /\ (p <= DuckDb.countOf (DuckDb.detectDelimiter file) file
      /\ t <= DuckDb.countOf (DuckDb.detectDelimiter file) file
      /\ c <= DuckDb.countOf (DuckDb.detectDelimiter file) file)%nat
  /\ (p = 3%nat -> t = 1%nat -> c = 0%nat -> DuckDb.detectDelimiter file = "|")
  /\ (p = 0%nat -> t = 0%nat -> c = 0%nat -> DuckDb.detectDelimiter file = ",").
Proof.
  intros p t c ext.
  destruct (delimiterFor_by_extension file) as (Hpipe & Htab & Hother).
  split; [exact Hpipe |]. split; [exact Htab |]. split; [exact Hother |].
  split; [apply detectDelimiter_pipe |]. split; [apply detectDelimiter_tab |].
  split; [apply detectDelimiter_comma |]. split; [apply detectDelimiter_highest |].
  split.
  - intros Hp Ht Hc. apply detectDelimiter_pipe. unfold p, t, c in *. lia.
  - intros Hp Ht Hc. apply detectDelimiter_comma. unfold p, t, c in *. lia.
Qed.

Lemma delimiter_selection_witness :
  DuckDb.delimiterFor {| name := "Sales.PSV"; content := "a,b" |} = "|"
  /\ DuckDb.delimiterFor {| name := "sales.tsv"; content := "a,b" |} = Js.TAB
  /\ DuckDb.delimiterFor threePipes = DuckDb.detectDelimiter threePipes
  /\ DuckDb.detectDelimiter threePipes = "|"
  /\ DuckDb.detectDelimiter {| name := "empty.csv"; content := "abc" |} = ",".
Proof.
  split; [| split; [| split; [| split]]].
  - apply (proj1 (delimiter_selection {| name := "Sales.PSV"; content := "a,b" |})).
    right. vm_compute. reflexivity.
  - apply (proj1 (proj2 (delimiter_selection {| name := "sales.tsv"; content := "a,b" |}))).
    vm_compute. reflexivity.
  - apply (proj1 (proj2 (proj2 (delimiter_selection threePipes))));
      vm_compute; discriminate.
  - apply (proj1 (proj2 (proj2 (proj2 (proj2 (proj2 (proj2 (proj2
             (delimiter_selection threePipes)))))))));
      vm_compute; reflexivity.
  - apply (proj2 (proj2 (proj2 (proj2 (proj2 (proj2 (proj2 (proj2
             (delimiter_selection {| name := "empty.csv"; content := "abc" |})))))))));
      vm_compute; reflexivity.
Defined.

(** ** Ingestion *)

Section Ingestion.
Context `{Platform}.
Import DuckDb.

Lemma spliced_clean (quote : ascii) (s : string) (d : Db) :
  Js.contains quote s = false -> spliced quote s d = (inr tt, d).
Proof. intros Hc. unfold spliced. rewrite Hc. reflexivity. Qed.

Lemma spliced_inv (quote : ascii) (s : string) (d d' : Db) :
  spliced quote s d = (inr tt, d') -> Js.contains quote s = false /\ d' = d.
Proof.
  unfold spliced. destruct (Js.contains quote s); cbn; intros Heq.
  - discriminate Heq.
  - inversion Heq. split; reflexivity.
Qed.

Lemma sameName_refl (n : string) : sameName n n = true.
Proof. apply String.eqb_refl. Qed.

Lemma sameName_sym (a b : string) : sameName a b = sameName b a.
Proof. apply String.eqb_sym. Qed.

(** Names that resolve to the same table resolve alike against any other
    name. *)
Lemma sameName_congr (a b c : string) :
  sameName a b = true -> sameName a c = sameName b c.
Proof.
  unfold sameName. intros Hab. apply String.eqb_eq in Hab. rewrite Hab. reflexivity.
Qed.

Lemma lookup_withoutTable (tableName : string) (tbs : gmap string Table) (other : string) :
  withoutTable tableName tbs !! other
  = if sameName other tableName then None else tbs !! other.
Proof.
  unfold withoutTable. apply option_eq. intros t.
  rewrite map_lookup_filter_Some. cbn [fst].
  destruct (sameName other tableName); cbn; split.
  - intros [_ []].
  - discriminate.
  - intros [Ht _]. exact Ht.
  - intros Ht. split; [exact Ht | exact I].
Qed.

(** Creating a table twice under names that resolve alike leaves what the
    second creation alone leaves. *)
Lemma withoutTable_created (first second : string) (t : Table) (tbs : gmap string Table) :
  sameName first second = true ->
  withoutTable second (<[first := t]> (withoutTable first tbs)) = withoutTable second tbs.
Proof.
  intros Hsame. apply map_eq. intros other.
  rewrite !lookup_withoutTable.
  destruct (sameName other second) eqn:Hother; [reflexivity |].
  assert (sameName other first = false) as Hfirst.
  { rewrite sameName_sym, (sameName_congr first second other Hsame), sameName_sym.
    exact Hother. }
  rewrite lookup_insert_ne.
  - rewrite lookup_withoutTable, Hfirst. reflexivity.
  - intros ->. rewrite sameName_refl in Hfirst. discriminate.
Qed.

Lemma delimited_eq (tableName : string) (d : Db) :
  delimited tableName d
  = if String.eqb tableName ""
    then (inl ("Parser Error: zero-length delimited identifier at or near "
               ++ Js.DQ ++ Js.DQ ++ Js.DQ ++ Js.DQ), d)
    else (inr tt, d).
Proof. unfold delimited. destruct (String.eqb tableName ""); reflexivity. Qed.

(** What a successful [importCSV] did: it registered the file and bound
    the table name to what [read_csv] read from the file, in place of the
    table that the name resolved to. *)
Lemma importCSV_inv (file : File) (tableName : string) (d d1 : Db) :
  importCSV file tableName d = (inr tt, d1) ->
  exists t,
    read_csv (content file) (escapeDelim (delimiterFor file)) = inr t
    /\ tableName <> ""
    /\ Js.contains DQUOTE tableName = false
    /\ Js.contains SQUOTE (name file) = false
    /\ d1 = {| tables := <[tableName := t]> (withoutTable tableName (tables d));
               files := <[name file := content file]> (files d) |}.
Proof.
  unfold importCSV, createOrReplaceTableAsReadCsv, registerFileHandle, EngM.bind, spliced,
    delimited.
  destruct (String.eqb tableName "") eqn:Hempty; [cbn; discriminate |].
  apply String.eqb_neq in Hempty.
  destruct (Js.contains DQUOTE tableName); [cbn; discriminate |].
  destruct (Js.contains SQUOTE (name file)); [cbn; discriminate |].
  cbn. rewrite lookup_insert_eq.
  destruct (read_csv (content file) (escapeDelim (delimiterFor file))) as [e | t];
    [discriminate |].
  intros Heq. inversion Heq. exists t. repeat split; try reflexivity. exact Hempty.
Qed.

Lemma importCSV_run (file : File) (tableName : string) (d : Db) (t : Table) :
  read_csv (content file) (escapeDelim (delimiterFor file)) = inr t ->
  tableName <> "" ->
  Js.contains DQUOTE tableName = false ->
  Js.contains SQUOTE (name file) = false ->
  importCSV file tableName d =
    (inr tt, {| tables := <[tableName := t]> (withoutTable tableName (tables d));
                files := <[name file := content file]> (files d) |}).
Proof.
  intros Hread Hempty Hdq Hsq. apply String.eqb_neq in Hempty.
  unfold importCSV, createOrReplaceTableAsReadCsv, registerFileHandle, EngM.bind, spliced,
    delimited.
  rewrite Hempty, Hdq, Hsq. cbn. rewrite lookup_insert_eq, Hread. reflexivity.
Qed.

End Ingestion.

(** C7: re-ingesting the same file under the same table name replaces the
    table.  For a table name and a file name that hold no quote of the SQL
    text they are written into: when an ingestion succeeds, the table is
    exactly what was read from the file, whatever the name resolved to
    before, in any letter case (a table whose name differs from the name by
    the case of its letters is gone, every other table is as it was);
    ingesting the same file again under the same name succeeds and leaves
    the same session, so the table has the same number of rows and the same
    columns both times: nothing is appended and no column is added. *)
Theorem importCSV_replaces `{Platform}
    (file : File) (tableName : string) (d d1 : Db) :
  Js.contains DuckDb.DQUOTE tableName = false ->
  Js.contains DuckDb.SQUOTE (name file) = false ->
  DuckDb.importCSV file tableName d = (inr tt, d1) ->
  exists t,
    read_csv (content file) (DuckDb.escapeDelim (DuckDb.delimiterFor file)) = inr t
    /\ tables d1 !! tableName = Some t
    /\ (forall other, other <> tableName ->
          tables d1 !! other
          = if DuckDb.sameName other tableName then None else tables d !! other)
    /\ DuckDb.importCSV file tableName d1 = (inr tt, d1)
    /\ DuckDb.countRows tableName d1 = (inr (N.of_nat (length (rows t))), d1)
    /\ (Js.contains DuckDb.SQUOTE tableName = false ->
        DuckDb.columnsOf tableName d1 = (inr (columns t), d1)).
Proof.
  intros Hdq Hsq Himport.
  destruct (importCSV_inv file tableName d d1 Himport) as (t & Hread & Hempty & _ & _ & ->).
  exists t. split; [exact Hread |].
  split; [cbn; apply lookup_insert_eq |].
  split.
  { intros other Hne. cbn [tables]. rewrite lookup_insert_ne by congruence.
    apply lookup_withoutTable. }
  split; [| split].
  - rewrite (importCSV_run file tableName _ t Hread Hempty Hdq Hsq). cbn [tables files].
    rewrite withoutTable_created by apply sameName_refl.
    rewrite insert_insert_eq. reflexivity.
  - unfold DuckDb.countRows, EngM.bind, DuckDb.spliced. rewrite Hdq. cbn.
    rewrite lookup_insert_eq. reflexivity.
  - intros Hname. unfold DuckDb.columnsOf, EngM.bind, DuckDb.spliced. rewrite Hname. cbn.
    rewrite lookup_insert_eq. reflexivity.
Qed.

(** ** Reading the session: [getTables] *)

Section Strings.

Lemma length_append (a b : string) :
  String.length (a ++ b) = (String.length a + String.length b)%nat.
Proof. induction a as [| c a IH]; simpl; [reflexivity | rewrite IH; reflexivity]. Qed.

Lemma append_suffix_inj (suffix a b : string) : a ++ suffix = b ++ suffix -> a = b.
Proof.
  revert b. induction a as [| c a IH]; intros [| c' b] Heq; simpl in Heq.
  - reflexivity.
  - apply (f_equal String.length) in Heq.
    rewrite ?length_append in Heq. simpl in Heq. rewrite ?length_append in Heq. lia.
  - apply (f_equal String.length) in Heq.
    rewrite ?length_append in Heq. simpl in Heq. rewrite ?length_append in Heq. lia.
  - inversion Heq. f_equal. apply IH. assumption.
Qed.

Lemma contains_append (c : ascii) (a b : string) :
  Js.contains c (a ++ b) = Js.contains c a || Js.contains c b.
Proof.
  induction a as [| x a IH]; simpl; [reflexivity |].
  rewrite IH. destruct (Ascii.eqb x c); reflexivity.
Qed.

End Strings.

Section Catalog.
Import DuckDb.

(** [tableInfo] as a function of the tables alone. *)
Definition tableInfoOf (tbs : gmap string Table) (tableName : string) : Js.Settled TableInfo :=
  if Js.contains DQUOTE tableName
  then inl ("Parser Error: syntax error near " ++ tableName)
  else match tbs !! tableName with
       | None => inl ("Catalog Error: Table with name " ++ tableName ++ " does not exist!")
       | Some t =>
           if Js.contains SQUOTE tableName
           then inl ("Parser Error: syntax error near " ++ tableName)
           else inr {| ti_name := tableName;
                       ti_rowCount := N.of_nat (length (rows t));
                       ti_columns := columns t |}
       end.

Fixpoint collectInfo (tbs : gmap string Table) (names : list string) (acc : list TableInfo)
  : Js.Settled (list TableInfo) :=
  match names with
  | [] => inr acc
  | n :: rest =>
      match tableInfoOf tbs n with
      | inl e => inl e
      | inr info => collectInfo tbs rest (acc ++ [info])%list
      end
  end.

Lemma tableInfo_eq (tableName : string) (d : Db) :
  tableInfo tableName d = (tableInfoOf (tables d) tableName, d).
Proof.
  unfold tableInfo, tableInfoOf, countRows, columnsOf, EngM.bind, EngM.ret, spliced.
  destruct (Js.contains DQUOTE tableName); [reflexivity |]. cbn.
  destruct (tables d !! tableName) as [t |] eqn:Hlook; [| reflexivity].
  destruct (Js.contains SQUOTE tableName); [reflexivity |]. cbn.
  rewrite Hlook. reflexivity.
Qed.

Lemma getTables_loop (names : list string) (acc : list TableInfo) (d : Db) :
  forEach (fun acc tableName =>
             EngM.bind (tableInfo tableName) (fun info => EngM.ret (acc ++ [info])%list))
          names acc d
  = (collectInfo (tables d) names acc, d).
Proof.
  revert acc. induction names as [| n rest IH]; intros acc; [reflexivity |].
  cbn [forEach collectInfo]. unfold EngM.bind at 1 2. rewrite tableInfo_eq.
  destruct (tableInfoOf (tables d) n) as [e | info]; [reflexivity |].
  unfold EngM.ret at 1. apply IH.
Qed.

(** [getTables] reads the tables and leaves the session as it was. *)
Lemma getTables_eq (d : Db) :
  getTables d = (collectInfo (tables d) (tableNames d) [], d).
Proof. unfold getTables. apply getTables_loop. Qed.

Lemma tableNames_spec (d : Db) (n : string) :
  n ∈ tableNames d <-> is_Some (tables d !! n).
Proof.
  unfold tableNames. rewrite merge_sort_Permutation, list_elem_of_fmap. split.
  - intros ([k t] & -> & Hin). apply elem_of_map_to_list in Hin. exists t. exact Hin.
  - intros [t Ht]. exists (n, t). split; [reflexivity |].
    apply elem_of_map_to_list. exact Ht.
Qed.

Lemma tableNames_empty (d : Db) : tables d = ∅ -> tableNames d = [].
Proof.
  intros Hempty. unfold tableNames. rewrite Hempty, map_to_list_empty. reflexivity.
Qed.

(** The names are free of the quotes of the SQL text they are spliced in. *)
Definition cleanName (n : string) : Prop :=
  Js.contains DQUOTE n = false /\ Js.contains SQUOTE n = false.

Definition cleanNames (d : Db) : Prop :=
  forall n, is_Some (tables d !! n) -> cleanName n.

(** The metadata of a table of the session. *)
Definition infoOf (tbs : gmap string Table) (n : string) : TableInfo :=
  {| ti_name := n;
     ti_rowCount := match tbs !! n with
                    | Some t => N.of_nat (length (rows t))
                    | None => 0%N
                    end;
     ti_columns := match tbs !! n with
                   | Some t => columns t
                   | None => []
                   end |}.

Lemma collectInfo_clean (tbs : gmap string Table) (names : list string) (acc : list TableInfo) :
  (forall n, n ∈ names -> is_Some (tbs !! n) /\ cleanName n) ->
  collectInfo tbs names acc = inr (acc ++ map (infoOf tbs) names)%list.
Proof.
  revert acc. induction names as [| n rest IH]; intros acc Hall; cbn [collectInfo map].
  - rewrite app_nil_r. reflexivity.
  - destruct (Hall n) as ([t Ht] & Hdq & Hsq); [left |].
    unfold tableInfoOf. rewrite Hdq, Ht, Hsq.
    rewrite IH by (intros m Hm; apply Hall; right; exact Hm).
    rewrite <- app_assoc. unfold infoOf at 2. rewrite Ht. reflexivity.
Qed.

(** With clean names [getTables] answers the metadata of every table, in
    the order of the names. *)
Lemma getTables_clean (d : Db) :
  cleanNames d ->
  getTables d = (inr (map (infoOf (tables d)) (tableNames d)), d).
Proof.
  intros Hclean. rewrite getTables_eq.
  rewrite collectInfo_clean; [reflexivity |].
  intros n Hn. apply tableNames_spec in Hn. split; [exact Hn | apply Hclean; exact Hn].
Qed.

End Catalog.

(** ** Size estimation *)

Section Estimate.
Context `{Platform}.
Import DuckDb.

(** The file that [estimateDatabaseSize] writes for a table. *)
Definition estimateFile (n : string) : string := "_estimate_" ++ n ++ ".parquet".

Lemma estimateFile_inj (n m : string) : estimateFile n = estimateFile m -> n = m.
Proof.
  unfold estimateFile. intros Heq.
  apply (String.app_inj "_estimate_") in Heq.
  apply (append_suffix_inj ".parquet"). exact Heq.
Qed.

Lemma estimateFile_clean (n : string) :
  Js.contains SQUOTE n = false -> Js.contains SQUOTE (estimateFile n) = false.
Proof.
  intros Hn. unfold estimateFile. rewrite !contains_append, Hn. reflexivity.
Qed.

(** What [COPY n TO f] followed by [copyFileToBuffer(f)] reads, as a
    function of the tables. *)
Definition exportOf (tbs : gmap string Table) (n f : string) : Js.Settled string :=
  if Js.contains DQUOTE n then inl ("Parser Error: syntax error near " ++ n)
  else if Js.contains SQUOTE f then inl ("Parser Error: syntax error near " ++ f)
  else match tbs !! n with
       | None => inl ("Catalog Error: Table with name " ++ n ++ " does not exist!")
       | Some t => inr (to_parquet t)
       end.

Lemma copy_then_read {A} (n f : string) (k : string -> Eng A) (d : Db) :
  EngM.bind (copyToParquet n f) (fun _ => EngM.bind (copyFileToBuffer f) k) d
  = match exportOf (tables d) n f with
    | inl e => (inl e, d)
    | inr bytes => k bytes {| tables := tables d; files := <[f := bytes]> (files d) |}
    end.
Proof.
  unfold copyToParquet, copyFileToBuffer, exportOf, EngM.bind, spliced.
  destruct (Js.contains DQUOTE n); [reflexivity |]. cbn.
  destruct (Js.contains SQUOTE f); [reflexivity |]. cbn.
  destruct (tables d !! n) as [t |]; [| reflexivity].
  cbn. rewrite lookup_insert_eq. reflexivity.
Qed.

(** The body of the loop of [estimateDatabaseSize]. *)
Definition estimateStep (totalSize : N) (table : TableInfo) : Eng N :=
  EngM.bind (copyToParquet (ti_name table) (estimateFile (ti_name table)))
    (fun _ => EngM.bind (copyFileToBuffer (estimateFile (ti_name table)))
                (fun buffer => EngM.ret (totalSize + byteLength buffer)%N)).

Fixpoint estimateOf (tbs : gmap string Table) (l : list TableInfo) (total : N) : Js.Settled N :=
  match l with
  | [] => inr total
  | t :: rest =>
      match exportOf tbs (ti_name t) (estimateFile (ti_name t)) with
      | inl e => inl e
      | inr bytes => estimateOf tbs rest (total + byteLength bytes)
      end
  end.

Lemma estimateDatabaseSize_eq (d : Db) :
  estimateDatabaseSize d =
    match collectInfo (tables d) (tableNames d) [] with
    | inl e => (inl e, d)
    | inr ts => if (length ts =? 0)%nat then (inr 0%N, d) else forEach estimateStep ts 0%N d
    end.
Proof.
  unfold estimateDatabaseSize, EngM.bind at 1. rewrite getTables_eq.
  destruct (collectInfo (tables d) (tableNames d) []) as [e | ts]; [reflexivity |].
  destruct (length ts =? 0)%nat; reflexivity.
Qed.

Lemma estimate_loop_cons (t : TableInfo) (rest : list TableInfo) (total : N) (d : Db) :
  forEach estimateStep (t :: rest) total d
  = match exportOf (tables d) (ti_name t) (estimateFile (ti_name t)) with
    | inl e => (inl e, d)
    | inr bytes =>
        forEach estimateStep rest (total + byteLength bytes)%N
                {| tables := tables d;
                   files := <[estimateFile (ti_name t) := bytes]> (files d) |}
    end.
Proof.
  cbn [forEach]. unfold EngM.bind at 1. unfold estimateStep at 1.
  rewrite copy_then_read.
  destruct (exportOf (tables d) (ti_name t) (estimateFile (ti_name t))); reflexivity.
Qed.

(** The loop computes a function of the tables, keeps the tables, and
    writes nothing but estimate files. *)
Lemma estimate_loop (l : list TableInfo) (total : N) (d : Db) :
  fst (forEach estimateStep l total d) = estimateOf (tables d) l total
  /\ tables (snd (forEach estimateStep l total d)) = tables d
  /\ (forall f, (forall n, f <> estimateFile n) ->
                files (snd (forEach estimateStep l total d)) !! f = files d !! f).
Proof.
  revert total d. induction l as [| t rest IH]; intros total d.
  - cbn. repeat split.
  - rewrite estimate_loop_cons. cbn [estimateOf].
    destruct (exportOf (tables d) (ti_name t) (estimateFile (ti_name t))) as [e | bytes].
    + cbn. repeat split.
    + destruct (IH (total + byteLength bytes)%N
                   {| tables := tables d;
                      files := <[estimateFile (ti_name t) := bytes]> (files d) |})
        as (Hfst & Htables & Hfiles).
      split; [exact Hfst |]. split; [exact Htables |].
      intros f Hf. rewrite Hfiles by exact Hf. cbn.
      apply lookup_insert_ne. intros Heq. apply (Hf (ti_name t)). symmetry. exact Heq.
Qed.

(** Whether a settled operation was fulfilled. *)
Definition fulfilled {A} (r : Js.Settled A) : Prop :=
  match r with
  | inr _ => True
  | inl _ => False
  end.

(** After a loop that succeeded every table it went through has its export
    in the virtual file system. *)
Lemma estimate_loop_keeps (l : list TableInfo) (total : N) (d : Db) (n : string) (t : Table) :
  fulfilled (fst (forEach estimateStep l total d)) ->
  tables d !! n = Some t ->
  (exists info, info ∈ l /\ ti_name info = n)
  \/ files d !! estimateFile n = Some (to_parquet t) ->
  files (snd (forEach estimateStep l total d)) !! estimateFile n = Some (to_parquet t).
Proof.
  revert total d. induction l as [| info0 rest IH]; intros total d Hok Hn Hcase.
  - cbn. destruct Hcase as [(info & Hin & _) | Hfile]; [| exact Hfile].
    apply elem_of_nil in Hin. contradiction.
  - revert Hok. rewrite estimate_loop_cons. unfold exportOf.
    destruct (Js.contains DQUOTE (ti_name info0)); [cbn; contradiction |].
    destruct (Js.contains SQUOTE (estimateFile (ti_name info0))); [cbn; contradiction |].
    destruct (tables d !! ti_name info0) as [t0 |] eqn:Hlook0; [| cbn; contradiction].
    intros Hok.
    apply IH; [exact Hok | exact Hn |].
    destruct (decide (ti_name info0 = n)) as [Hsame | Hdiff].
    + right. cbn. rewrite Hsame in Hlook0. rewrite Hsame. rewrite lookup_insert_eq. congruence.
    + destruct Hcase as [(info & Hin & Hname) | Hfile].
      * apply elem_of_cons in Hin. destruct Hin as [-> | Hin]; [contradiction |].
        left. exists info. split; assumption.
      * right. cbn. rewrite lookup_insert_ne; [exact Hfile |].
        intros Heq. apply Hdiff. apply estimateFile_inj. exact Heq.
Qed.

(** The bytes a table exports to. *)
Definition exportedSize (tbs : gmap string Table) (n : string) : N :=
  match tbs !! n with
  | Some t => byteLength (to_parquet t)
  | None => 0%N
  end.

Lemma estimateOf_clean (tbs : gmap string Table) (names : list string) (total : N) :
  (forall n, n ∈ names -> is_Some (tbs !! n) /\ cleanName n) ->
  estimateOf tbs (map (infoOf tbs) names) total
  = inr (fold_left N.add (map (exportedSize tbs) names) total).
Proof.
  revert total. induction names as [| n rest IH]; intros total Hall; [reflexivity |].
  destruct (Hall n) as ([t Ht] & Hdq & Hsq); [left |].
  cbn [map estimateOf fold_left]. unfold exportOf. cbn [infoOf ti_name].
  rewrite Hdq, (estimateFile_clean n Hsq), Ht.
  unfold exportedSize at 2. rewrite Ht.
  apply IH. intros m Hm. apply Hall. right. exact Hm.
Qed.

Lemma estimate_tables (d : Db) : tables (snd (estimateDatabaseSize d)) = tables d.
Proof.
  rewrite estimateDatabaseSize_eq.
  destruct (collectInfo (tables d) (tableNames d) []) as [e | ts]; [reflexivity |].
  destruct (length ts =? 0)%nat; [reflexivity |]. apply estimate_loop.
Qed.

Lemma estimate_result_of_tables (d d' : Db) :
  tables d = tables d' ->
  fst (estimateDatabaseSize d) = fst (estimateDatabaseSize d').
Proof.
  intros Heq. rewrite !estimateDatabaseSize_eq. unfold tableNames. rewrite Heq.
  destruct (collectInfo (tables d') _ []) as [e | ts]; [reflexivity |].
  destruct (length ts =? 0)%nat; [reflexivity |].
  rewrite (proj1 (estimate_loop ts 0%N d)), (proj1 (estimate_loop ts 0%N d')), Heq.
  reflexivity.
Qed.

Lemma estimate_other_files (d : Db) (f : string) :
  (forall n, f <> estimateFile n) ->
  files (snd (estimateDatabaseSize d)) !! f = files d !! f.
Proof.
  intros Hf. rewrite estimateDatabaseSize_eq.
  destruct (collectInfo (tables d) (tableNames d) []) as [e | ts]; [reflexivity |].
  destruct (length ts =? 0)%nat; [reflexivity |]. apply estimate_loop. exact Hf.
Qed.

Lemma estimate_empty (d : Db) : tables d = ∅ -> estimateDatabaseSize d = (inr 0%N, d).
Proof.
  intros Hempty. rewrite estimateDatabaseSize_eq, (tableNames_empty d Hempty). reflexivity.
Qed.

Lemma estimate_clean (d : Db) :
  cleanNames d ->
  fst (estimateDatabaseSize d)
  = inr (fold_left N.add (map (exportedSize (tables d)) (tableNames d)) 0%N)
  /\ forall n t, tables d !! n = Some t ->
                 files (snd (estimateDatabaseSize d)) !! estimateFile n = Some (to_parquet t).
Proof.
  intros Hclean.
  assert (forall n, n ∈ tableNames d -> is_Some (tables d !! n) /\ cleanName n) as Hall.
  { intros n Hn. apply tableNames_spec in Hn. split; [exact Hn | apply Hclean; exact Hn]. }
  rewrite estimateDatabaseSize_eq, (collectInfo_clean _ _ _ Hall). cbn [app].
  destruct (length (map (infoOf (tables d)) (tableNames d)) =? 0)%nat eqn:Hlen.
  - apply Nat.eqb_eq in Hlen. rewrite length_map in Hlen.
    apply nil_length_inv in Hlen. rewrite Hlen. split; [reflexivity |].
    intros n t Hn. exfalso.
    assert (n ∈ tableNames d) as Hin by (apply tableNames_spec; eexists; exact Hn).
    rewrite Hlen in Hin. apply elem_of_nil in Hin. exact Hin.
  - pose proof (proj1 (estimate_loop (map (infoOf (tables d)) (tableNames d)) 0%N d)) as Hfst.
    rewrite (estimateOf_clean _ _ _ Hall) in Hfst.
    split; [exact Hfst |].
    intros n t Hn. apply estimate_loop_keeps; [rewrite Hfst; exact I | exact Hn |].
    left. exists (infoOf (tables d) n). split; [| reflexivity].
    apply list_elem_of_fmap. exists n. split; [reflexivity |].
    apply tableNames_spec. eexists. exact Hn.
Qed.

End Estimate.

(** C8, as stated, fails on the exported bytes: after the call the virtual
    file system of the engine holds the columnar export of every table. *)
Lemma estimate_retains_export_counterexample :
  ~ (forall (P : Platform) (d : Db),
       files (snd (@DuckDb.estimateDatabaseSize P d)) = files d).
Proof.
  intros claim. specialize (claim demoPlatform oneTableDb).
  apply (f_equal (fun fs : gmap string string => fs !! "_estimate_t.parquet")) in claim.
  vm_compute in claim. discriminate claim.
Qed.

(** C8, amended: [estimateDatabaseSize] does not change the tables; a second
    call on the session it leaves answers as the first; on a session without
    tables it answers zero and leaves the session as it was.  It returns the
    byte count only, the sum of the sizes of the columnar exports when the
    table names are clean, but the exports themselves stay in the virtual
    file system of the engine, one file [_estimate_<table>.parquet] per
    table; no other file is written. *)
Theorem estimateDatabaseSize_frame `{Platform} (d : Db) :
  tables (snd (DuckDb.estimateDatabaseSize d)) = tables d
  /\ fst (DuckDb.estimateDatabaseSize (snd (DuckDb.estimateDatabaseSize d)))
     = fst (DuckDb.estimateDatabaseSize d)
  /\ (tables d = ∅ -> DuckDb.estimateDatabaseSize d = (inr 0%N, d))
  /\ (cleanNames d ->
      fst (DuckDb.estimateDatabaseSize d)
      = inr (fold_left N.add (map (exportedSize (tables d)) (DuckDb.tableNames d)) 0%N)
      /\ forall n t, tables d !! n = Some t ->
           files (snd (DuckDb.estimateDatabaseSize d)) !! estimateFile n
           = Some (to_parquet t))
  /\ (forall f, (forall n, f <> estimateFile n) ->
        files (snd (DuckDb.estimateDatabaseSize d)) !! f = files d !! f).
Proof.
  split; [apply estimate_tables |].
  split; [apply estimate_result_of_tables, estimate_tables |].
  split; [apply estimate_empty |].
  split; [apply estimate_clean |].
  apply estimate_other_files.
Qed.

Lemma oneTableDb_clean : cleanNames oneTableDb.
Proof.
  intros n [t Ht]. unfold oneTableDb in Ht. cbn [tables] in Ht.
  apply lookup_singleton_Some in Ht. destruct Ht as [<- _].
  split; vm_compute; reflexivity.
Defined.

Lemma estimateDatabaseSize_frame_witness :
  @DuckDb.estimateDatabaseSize demoPlatform emptyDb = (inr 0%N, emptyDb)
  /\ fst (@DuckDb.estimateDatabaseSize demoPlatform oneTableDb) = inr 15%N
  /\ files (snd (@DuckDb.estimateDatabaseSize demoPlatform oneTableDb))
       !! "_estimate_t.parquet" = Some "PAR11,a,2,bPAR1"
  /\ files (snd (@DuckDb.estimateDatabaseSize demoPlatform oneTableDb)) !! "t.csv" = None.
Proof.
  destruct (@estimateDatabaseSize_frame demoPlatform emptyDb) as (_ & _ & Hempty & _).
  destruct (@estimateDatabaseSize_frame demoPlatform oneTableDb)
    as (_ & _ & _ & Hclean & Hother).
  destruct (Hclean oneTableDb_clean) as (Hsum & Hkeeps).
  split; [apply Hempty; reflexivity |].
  split; [rewrite Hsum; vm_compute; reflexivity |].
  split.
  - refine (Hkeeps "t" oneTable _). vm_compute. reflexivity.
  - rewrite (Hother "t.csv"); [reflexivity |].
    intros n Heq. vm_compute in Heq. discriminate Heq.
Defined.

Lemma importCSV_replaces_witness :
  exists t,
    @read_csv demoPlatform (content threeRows)
      (DuckDb.escapeDelim (DuckDb.delimiterFor threeRows)) = inr t
    /\ tables (snd (@DuckDb.importCSV demoPlatform threeRows "T" oneTableDb)) !! "T" = Some t
    /\ tables (snd (@DuckDb.importCSV demoPlatform threeRows "T" oneTableDb)) !! "t" = None
    /\ length (rows t) = 3%nat.
Proof.
  destruct (@importCSV_replaces demoPlatform threeRows "T" oneTableDb
              (snd (@DuckDb.importCSV demoPlatform threeRows "T" oneTableDb))
              eq_refl eq_refl)
    as (t & Hread & Htable & Hothers & _).
  - vm_compute. reflexivity.
  - exists t. split; [exact Hread |]. split; [exact Htable |].
    split; [rewrite (Hothers "t") by discriminate; reflexivity |].
    vm_compute in Hread. inversion Hread. reflexivity.
Defined.

(** ** The text members of a bundle *)

Section Bundle.
Context `{Platform}.
Import DuckDb.

Lemma zipMember_zipFile_eq (member data : string) (zip : Js.JSZip) :
  Js.zipMember member (Js.zipFile member data zip) = Some data.
Proof.
  induction zip as [| [m d] rest IH]; cbn.
  - rewrite String.eqb_refl. reflexivity.
  - destruct (String.eqb m member) eqn:Heq; cbn.
    + rewrite String.eqb_refl. reflexivity.
    + rewrite Heq. exact IH.
Qed.

Lemma zipMember_zipFile_ne (member other data : string) (zip : Js.JSZip) :
  other <> member ->
  Js.zipMember member (Js.zipFile other data zip) = Js.zipMember member zip.
Proof.
  intros Hne. induction zip as [| [m d] rest IH]; cbn.
  - apply String.eqb_neq in Hne. rewrite Hne. reflexivity.
  - destruct (String.eqb m other) eqn:Heq; cbn.
    + apply String.eqb_eq in Heq. subst m.
      apply String.eqb_neq in Hne. rewrite Hne. reflexivity.
    + destruct (String.eqb m member); [reflexivity | exact IH].
Qed.

(** Statements pushed one by one are the statements mapped. *)
Lemma pushed_statements (l : list TableInfo) (acc : list string) :
  fold_left (fun acc table => (acc ++ [createTableStatement table])%list) l acc
  = (acc ++ map createTableStatement l)%list.
Proof.
  revert acc. induction l as [| t rest IH]; intros acc; cbn.
  - rewrite app_nil_r. reflexivity.
  - rewrite IH, <- app_assoc. reflexivity.
Qed.

(** The body of the loop of [exportAsZipBundle]. *)
Definition bundleStep (zm : Js.JSZip * list Js.Json) (table : TableInfo)
  : Eng (Js.JSZip * list Js.Json) :=
  EngM.bind (copyToParquet (ti_name table) (ti_name table ++ ".parquet"))
    (fun _ => EngM.bind (copyFileToBuffer (ti_name table ++ ".parquet"))
                (fun buffer =>
                   EngM.ret (Js.zipFile (ti_name table ++ ".parquet") buffer (fst zm),
                             (snd zm ++ [manifestEntry table])%list))).

Fixpoint bundleOf (tbs : gmap string Table) (l : list TableInfo)
    (zm : Js.JSZip * list Js.Json) : Js.Settled (Js.JSZip * list Js.Json) :=
  match l with
  | [] => inr zm
  | t :: rest =>
      match exportOf tbs (ti_name t) (ti_name t ++ ".parquet") with
      | inl e => inl e
      | inr bytes =>
          bundleOf tbs rest (Js.zipFile (ti_name t ++ ".parquet") bytes (fst zm),
                             (snd zm ++ [manifestEntry t])%list)
      end
  end.

Lemma bundle_loop (l : list TableInfo) (zm : Js.JSZip * list Js.Json) (d : Db) :
  fst (forEach bundleStep l zm d) = bundleOf (tables d) l zm
  /\ tables (snd (forEach bundleStep l zm d)) = tables d.
Proof.
  revert zm d. induction l as [| t rest IH]; intros zm d; [split; reflexivity |].
  assert (forEach bundleStep (t :: rest) zm d
          = match exportOf (tables d) (ti_name t) (ti_name t ++ ".parquet") with
            | inl e => (inl e, d)
            | inr bytes =>
                forEach bundleStep rest
                  (Js.zipFile (ti_name t ++ ".parquet") bytes (fst zm),
                   (snd zm ++ [manifestEntry t])%list)
                  {| tables := tables d;
                     files := <[ti_name t ++ ".parquet" := bytes]> (files d) |}
            end) as Hcons.
  { cbn [forEach]. unfold EngM.bind at 1. unfold bundleStep at 1.
    rewrite copy_then_read.
    destruct (exportOf (tables d) (ti_name t) (ti_name t ++ ".parquet")); reflexivity. }
  rewrite Hcons. cbn [bundleOf].
  destruct (exportOf (tables d) (ti_name t) (ti_name t ++ ".parquet")) as [e | bytes];
    [split; reflexivity |].
  destruct (IH (Js.zipFile (ti_name t ++ ".parquet") bytes (fst zm),
                (snd zm ++ [manifestEntry t])%list)
               {| tables := tables d;
                  files := <[ti_name t ++ ".parquet" := bytes]> (files d) |})
    as (Hfst & Htables).
  split; [exact Hfst | exact Htables].
Qed.

(** The manifest entries pushed by a loop that succeeded are the entries of
    the tables, in the order of the tables. *)
Lemma bundleOf_entries (tbs : gmap string Table) (l : list TableInfo)
    (zm zm' : Js.JSZip * list Js.Json) :
  bundleOf tbs l zm = inr zm' -> snd zm' = (snd zm ++ map manifestEntry l)%list.
Proof.
  revert zm. induction l as [| t rest IH]; intros zm; cbn [bundleOf map].
  - intros Heq. inversion Heq. rewrite app_nil_r. reflexivity.
  - destruct (exportOf tbs (ti_name t) (ti_name t ++ ".parquet")) as [e | bytes];
      [discriminate |].
    intros Heq. rewrite (IH _ Heq). cbn [snd]. rewrite <- app_assoc. reflexivity.
Qed.

(** The two text members written for a list of tables. *)
Definition manifestText (ts : list TableInfo) : string :=
  Js.stringify (manifestJson (map manifestEntry ts)).

Definition schemaText (ts : list TableInfo) : string :=
  joinStatements (map createTableStatement ts).

Lemma zipBundle_eq (d : Db) :
  PushToRemote.zipBundle d =
    match collectInfo (tables d) (tableNames d) [] with
    | inl e => (inl e, d)
    | inr ts =>
        if (length ts =? 0)%nat then (inl "No tables to export", d)
        else match forEach bundleStep ts ([], []) d with
             | (inl e, d') => (inl e, d')
             | (inr zm, d') =>
                 (inr (Js.zipFile "README.md" (PushToRemote.readme ts)
                         (Js.zipFile "schema.sql"
                            (joinStatements
                               (fold_left (fun acc table =>
                                             (acc ++ [createTableStatement table])%list)
                                          ts []))
                            (Js.zipFile "manifest.json"
                               (Js.stringify (manifestJson (snd zm))) (fst zm)))), d')
             end
    end.
Proof.
  unfold PushToRemote.zipBundle, EngM.bind at 1. rewrite getTables_eq.
  destruct (collectInfo (tables d) (tableNames d) []) as [e | ts]; [reflexivity |].
  destruct (length ts =? 0)%nat; [reflexivity |].
  unfold EngM.bind at 1. fold bundleStep.
  destruct (forEach bundleStep ts ([], []) d) as [[e | zm] d']; reflexivity.
Qed.

(** A bundle that was exported: its tables, and its two text members. *)
Lemma zipBundle_members (d d1 : Db) (zip : Js.JSZip) :
  PushToRemote.zipBundle d = (inr zip, d1) ->
  exists ts,
    getTables d = (inr ts, d)
    /\ tables d1 = tables d
    /\ Js.zipMember "manifest.json" zip = Some (manifestText ts)
    /\ Js.zipMember "schema.sql" zip = Some (schemaText ts).
Proof.
  rewrite zipBundle_eq, getTables_eq.
  destruct (collectInfo (tables d) (tableNames d) []) as [e | ts]; [discriminate |].
  destruct (length ts =? 0)%nat; [discriminate |].
  destruct (bundle_loop ts ([], []) d) as (Hfst & Htables).
  destruct (forEach bundleStep ts ([], []) d) as [[e | zm] d'] eqn:Hloop; [discriminate |].
  cbn [fst snd] in Hfst, Htables.
  intros Heq. inversion Heq. subst zip d1. clear Heq.
  exists ts. split; [reflexivity |]. split; [exact Htables |].
  symmetry in Hfst. apply bundleOf_entries in Hfst. cbn [snd app] in Hfst.
  rewrite pushed_statements, Hfst. cbn [app].
  split.
  - rewrite zipMember_zipFile_ne by discriminate.
    rewrite zipMember_zipFile_ne by discriminate.
    apply zipMember_zipFile_eq.
  - rewrite zipMember_zipFile_ne by discriminate.
    apply zipMember_zipFile_eq.
Qed.

(** The bundle is a function of the tables of the session. *)
Lemma zipBundle_of_tables (d d' : Db) :
  tables d = tables d' ->
  fst (PushToRemote.zipBundle d) = fst (PushToRemote.zipBundle d').
Proof.
  intros Heq. rewrite !zipBundle_eq. unfold tableNames. rewrite Heq.
  destruct (collectInfo (tables d') _ []) as [e | ts]; [reflexivity |].
  destruct (length ts =? 0)%nat; [reflexivity |].
  pose proof (proj1 (bundle_loop ts ([], []) d)) as H1.
  pose proof (proj1 (bundle_loop ts ([], []) d')) as H2.
  rewrite Heq in H1.
  destruct (forEach bundleStep ts ([], []) d) as [[e1 | zm1] d1];
    destruct (forEach bundleStep ts ([], []) d') as [[e2 | zm2] d2];
    cbn [fst] in *; congruence.
Qed.

End Bundle.

Section ExportDuckDb.
Context `{Platform}.
Import DuckDb.

(** The zip of [exportToDuckDB] carries the same two text members. *)
Lemma duckDbZip_members (d d1 : Db) (zip : Js.JSZip) :
  duckDbZip d = (inr zip, d1) ->
  exists ts,
    getTables d = (inr ts, d)
    /\ Js.zipMember "manifest.json" zip = Some (manifestText ts)
    /\ Js.zipMember "schema.sql" zip = Some (schemaText ts).
Proof.
  unfold duckDbZip, EngM.bind at 1. rewrite getTables_eq.
  destruct (collectInfo (tables d) (tableNames d) []) as [e | ts]; [discriminate |].
  destruct (length ts =? 0)%nat; [discriminate |].
  unfold EngM.bind at 1.
  match goal with
  | |- context [forEach ?f ts [] d] => destruct (forEach f ts [] d) as [[e | z] d']
  end; [discriminate |].
  unfold EngM.ret. intros Heq. inversion Heq. subst zip d1. clear Heq.
  exists ts. split; [reflexivity |]. split.
  - rewrite zipMember_zipFile_ne by discriminate. apply zipMember_zipFile_eq.
  - apply zipMember_zipFile_eq.
Qed.

End ExportDuckDb.

(** C6: the manifest and the DDL of a bundle are functions of the metadata
    of the tables ([getTables]: names, columns, types, row counts, in the
    order of the names).  When an export succeeds, [manifest.json] is the
    serialisation of one entry per table and [schema.sql] one statement per
    table, entry and statement number [i] being those of table number [i];
    exporting again from the session the export left gives the same bundle,
    hence the same two texts; any other export, on any session and platform
    whose tables have the same metadata, and the zip of [exportToDuckDB],
    carry the same two texts byte for byte. *)
Theorem manifest_and_schema_deterministic `{Platform} (d d1 : Db) (zip : Js.JSZip) :
  PushToRemote.zipBundle d = (inr zip, d1) ->
  exists ts,
    DuckDb.getTables d = (inr ts, d)
    /\ Js.zipMember "manifest.json" zip
       = Some (Js.stringify (DuckDb.manifestJson (map DuckDb.manifestEntry ts)))
    /\ Js.zipMember "schema.sql" zip
       = Some (DuckDb.joinStatements (map DuckDb.createTableStatement ts))
    /\ (forall i t, ts !! i = Some t ->
          map DuckDb.manifestEntry ts !! i = Some (DuckDb.manifestEntry t)
          /\ map DuckDb.createTableStatement ts !! i = Some (DuckDb.createTableStatement t))
    /\ (exists d2, PushToRemote.zipBundle d1 = (inr zip, d2))
    /\ (forall (P' : Platform) (d' d1' : Db) (zip' : Js.JSZip),
          DuckDb.getTables d' = (inr ts, d') ->
          @PushToRemote.zipBundle P' d' = (inr zip', d1') ->
          Js.zipMember "manifest.json" zip' = Js.zipMember "manifest.json" zip
          /\ Js.zipMember "schema.sql" zip' = Js.zipMember "schema.sql" zip)
    /\ (forall (zipD : Js.JSZip) (dD : Db),
          DuckDb.duckDbZip d = (inr zipD, dD) ->
          Js.zipMember "manifest.json" zipD = Js.zipMember "manifest.json" zip
          /\ Js.zipMember "schema.sql" zipD = Js.zipMember "schema.sql" zip).
Proof.
  intros Hexport.
  destruct (zipBundle_members d d1 zip Hexport) as (ts & Htables & Hkept & Hmanifest & Hschema).
  exists ts. split; [exact Htables |]. split; [exact Hmanifest |]. split; [exact Hschema |].
  split.
  { intros i t Hi. rewrite !list_lookup_fmap, Hi. split; reflexivity. }
  split.
  { pose proof (zipBundle_of_tables d1 d Hkept) as Hagain. rewrite Hexport in Hagain.
    destruct (PushToRemote.zipBundle d1) as [r d2]. cbn [fst] in Hagain. subst r.
    exists d2. reflexivity. }
  split.
  - intros P' d' d1' zip' Htables' Hexport'.
    destruct (@zipBundle_members P' d' d1' zip' Hexport')
      as (ts' & Hts' & _ & Hmanifest' & Hschema').
    rewrite Htables' in Hts'. inversion Hts'. subst ts'.
    rewrite Hmanifest, Hschema, Hmanifest', Hschema'. split; reflexivity.
  - intros zipD dD HexportD.
    destruct (duckDbZip_members d dD zipD HexportD) as (ts' & Hts' & HmanifestD & HschemaD).
    rewrite Htables in Hts'. inversion Hts'. subst ts'.
    rewrite Hmanifest, Hschema, HmanifestD, HschemaD. split; reflexivity.
Qed.

Lemma manifest_and_schema_deterministic_witness :
  exists ts,
    DuckDb.getTables oneTableDb = (inr ts, oneTableDb)
    /\ Js.zipMember "schema.sql" demoBundle
       = Some (DuckDb.joinStatements (map DuckDb.createTableStatement ts))
    /\ exists d2,
         @PushToRemote.zipBundle demoPlatform
           (snd (@PushToRemote.zipBundle demoPlatform oneTableDb))
         = (inr demoBundle, d2).
Proof.
  destruct (@manifest_and_schema_deterministic demoPlatform oneTableDb
              (snd (@PushToRemote.zipBundle demoPlatform oneTableDb)) demoBundle)
    as (ts & Htables & _ & Hschema & _ & Hagain & _).
  - vm_compute. reflexivity.
  - exists ts. split; [exact Htables |]. split; [exact Hschema | exact Hagain].
Defined.

Example demoBundle_schema :
  Js.zipMember "schema.sql" demoBundle
  = Some ("CREATE TABLE " ++ Js.DQ ++ "t" ++ Js.DQ ++ " (" ++ Js.NL
          ++ "  " ++ Js.DQ ++ "id" ++ Js.DQ ++ " BIGINT," ++ Js.NL
          ++ "  " ++ Js.DQ ++ "name" ++ Js.DQ ++ " VARCHAR" ++ Js.NL ++ ");").
Proof. vm_compute. reflexivity. Qed.

(** ** The transfer client *)

Section Transfer.
Context `{Platform}.
Import PushToRemote.

(** The steps the three uploads share: the token, the transfer, the result. *)
Definition transfer (bytes filename : string) (len : N) (storageTier : StorageTier)
  : Act (Js.Settled PushToRemoteResult) :=
  ActM.andThen (getUploadToken filename len storageTier) (fun tokenResponse =>
  ActM.andThen (logToken tokenResponse) (fun _ =>
  ActM.andThen (uploadWithToken bytes filename tokenResponse) (fun result =>
  ActM.ret (completed result len)))).

(** What the token proxy answers, as [getUploadToken] reads it. *)
Definition tokenOf (w : World) (filename : string) (len : N) (storageTier : StorageTier)
  : Js.Settled Js.Parsed :=
  match api_upload_token w filename len storageTier with
  | NetworkError e => inl e
  | Http status errorText =>
      if negb (ok status)
      then inl ("Failed to get upload token: " ++ Js.numberToString status
                ++ " - " ++ errorText)
      else JSON_parse errorText
  end.

(** How the request ends, as [uploadWithToken] settles it. *)
Definition uploadOf (w : World) (bytes filename : string) (tokenResponse : Js.Parsed)
  : Js.Settled Js.Parsed :=
  match Js.prop tokenResponse "full_upload_url" with
  | inl e => inl e
  | inr url =>
      match xhr_post w url filename bytes with
      | XhrLoad status responseText =>
          if ((200 <=? status) && (status <? 300))%N
          then match JSON_parse responseText with
               | inr body => inr body
               | inl _ => inl "Invalid response from server"
               end
          else match JSON_parse responseText with
               | inr (Js.PObj fields) =>
                   inl (messageOf
                          (orElse (orElse (default Js.VUndefined (fields !! "detail"))
                                          (default Js.VUndefined (fields !! "error")))
                                  (Js.VStr ("HTTP " ++ Js.numberToString status))))
               | inr Js.PNull | inl _ =>
                   inl ("Upload failed: HTTP " ++ Js.numberToString status)
               end
      | XhrError => inl "Network error during upload"
      | XhrAbort => inl "Upload cancelled"
      end
  end.

Definition transferOf (w : World) (bytes filename : string) (len : N)
    (storageTier : StorageTier) : Js.Settled PushToRemoteResult :=
  match tokenOf w filename len storageTier with
  | inl e => inl e
  | inr tokenResponse =>
      match fst (logToken tokenResponse w {| db := emptyDb; calls := [] |}) with
      | inl e => inl e
      | inr _ =>
          match uploadOf w bytes filename tokenResponse with
          | inl e => inl e
          | inr result => completed result len
          end
      end
  end.

Lemma transfer_fst (bytes filename : string) (len : N) (storageTier : StorageTier)
    (w : World) (sys : Sys) :
  fst (transfer bytes filename len storageTier w sys)
  = transferOf w bytes filename len storageTier.
Proof.
  unfold transfer, transferOf, tokenOf, uploadOf, ActM.andThen, ActM.bind, ActM.ret,
    getUploadToken, logToken, uploadWithToken, ActM.call, ActM.ask.
  cbn.
  destruct (api_upload_token w filename len storageTier) as [e | status text];
    [reflexivity |].
  destruct (negb (ok status)); [reflexivity |].
  destruct (JSON_parse text) as [e | tok]; [reflexivity |].
  destruct (Js.prop tok "token") as [e | [| | | | |]]; try reflexivity.
  destruct (Js.prop tok "full_upload_url") as [e | url]; [reflexivity |].
  cbn.
  destruct (xhr_post w url filename bytes) as [status' text' | |]; try reflexivity.
  destruct ((200 <=? status') && (status' <? 300))%N.
  - destruct (JSON_parse text') as [e | body]; reflexivity.
  - destruct (JSON_parse text') as [e | [| fields]]; reflexivity.
Qed.

(** What a [try] block that is caught returns. *)
Definition settle (s : Js.Settled PushToRemoteResult) : PushToRemoteResult :=
  match s with
  | inl e => failure e
  | inr r => r
  end.

Lemma tryCatch_failure (body : Act (Js.Settled PushToRemoteResult)) (w : World) (sys : Sys) :
  fst (ActM.tryCatch body (fun e => ActM.ret (inr (failure e))) w sys)
  = inr (settle (fst (body w sys))).
Proof.
  unfold ActM.tryCatch, ActM.bind, ActM.ret.
  destruct (body w sys) as [[e | r] sys']; reflexivity.
Qed.

(** The extension test of [uploadDirectFile]. *)
Definition directlyUploadable (file : File) : bool :=
  let fileExtension := option_map Js.toLowerCase (last (Js.split "."%char (name file))) in
  bool_decide (fileExtension = Some "parquet")
  || bool_decide (fileExtension = Some "duckdb")
  || bool_decide (fileExtension = Some "db").

Lemma uploadDirectFile_fst (file : File) (storageTier : StorageTier) (w : World) (sys : Sys) :
  fst (uploadDirectFile file storageTier w sys)
  = inr (settle (if directlyUploadable file
                 then transferOf w (content file) (name file) (size file) storageTier
                 else inl "Only .parquet and .duckdb files are supported for direct upload")).
Proof.
  unfold uploadDirectFile. rewrite tryCatch_failure. f_equal. f_equal.
  unfold directlyUploadable.
  destruct (bool_decide (_ = Some "parquet")); cbn [negb andb orb].
  - apply (transfer_fst (content file) (name file) (size file) storageTier w sys).
  - destruct (bool_decide (_ = Some "duckdb") || bool_decide (_ = Some "db"));
      cbn [negb andb orb].
    + apply (transfer_fst (content file) (name file) (size file) storageTier w sys).
    + reflexivity.
Qed.

Lemma uploadParquetBuffer_fst (buffer filename : string) (storageTier : StorageTier)
    (w : World) (sys : Sys) :
  fst (uploadParquetBuffer buffer filename storageTier w sys)
  = inr (settle (transferOf w buffer
                   (Js.replaceExt DuckDb.CSV_EXTENSIONS ".parquet" filename)
                   (DuckDb.byteLength buffer) storageTier)).
Proof.
  unfold uploadParquetBuffer. rewrite tryCatch_failure. f_equal. f_equal.
  apply (transfer_fst buffer _ (DuckDb.byteLength buffer) storageTier w sys).
Qed.

Lemma pushToRemote_fst (databaseName : string) (storageTier : StorageTier)
    (w : World) (sys : Sys) :
  fst (pushToRemote databaseName storageTier w sys)
  = inr (settle (match fst (exportAsZipBundle w sys) with
                 | inl e => inl e
                 | inr exportResult =>
                     transferOf w (fst exportResult) (databaseName ++ ".zip")
                                (snd exportResult) storageTier
                 end)).
Proof.
  unfold pushToRemote. rewrite tryCatch_failure. f_equal. f_equal.
  unfold ActM.andThen at 1. unfold ActM.bind at 1.
  destruct (exportAsZipBundle w sys) as [[e | exportResult] sys']; [reflexivity |].
  cbn [fst].
  apply (transfer_fst (fst exportResult) (databaseName ++ ".zip") (snd exportResult)
           storageTier w sys').
Qed.

(** A transfer that went through: the token proxy answered a status that is
    ok with a body that parses and holds a string token, the request loaded
    with a status from 200 to 299 and a body that parses to a value other
    than [null]; the result carries the properties of that body. *)
Definition delivered (w : World) (bytes filename : string) (len : N)
    (storageTier : StorageTier) (r : PushToRemoteResult) : Prop :=
  exists status text tok token url status' text' fields,
    api_upload_token w filename len storageTier = Http status text
    /\ ok status = true
    /\ JSON_parse text = inr tok
    /\ Js.prop tok "token" = inr (Js.VStr token)
    /\ Js.prop tok "full_upload_url" = inr url
    /\ xhr_post w url filename bytes = XhrLoad status' text'
    /\ (200 <= status' < 300)%N
    /\ JSON_parse text' = inr (Js.PObj fields)
    /\ r = {| success := true;
              downloadUrl := default Js.VUndefined (fields !! "download_url");
              filename := default Js.VUndefined (fields !! "filename");
              sizeBytes := Some len;
              expiresInHours := default Js.VUndefined (fields !! "expires_in_hours");
              error := None |}.

Lemma transferOf_delivered (w : World) (bytes filename : string) (len : N)
    (storageTier : StorageTier) (r : PushToRemoteResult) :
  transferOf w bytes filename len storageTier = inr r
  <-> delivered w bytes filename len storageTier r.
Proof.
  unfold transferOf, tokenOf, uploadOf, logToken, ActM.ret, delivered. split.
  - destruct (api_upload_token w filename len storageTier) as [e | status text] eqn:Hreply;
      [discriminate |].
    destruct (ok status) eqn:Hok; [| discriminate]. cbn [negb].
    destruct (JSON_parse text) as [e | tok] eqn:Hparse; [discriminate |]. cbn [fst].
    destruct (Js.prop tok "token") as [e | [| | | | token |]] eqn:Htoken; try discriminate.
    destruct (Js.prop tok "full_upload_url") as [e | url] eqn:Hurl; [discriminate |].
    destruct (xhr_post w url filename bytes) as [status' text' | |] eqn:Hxhr;
      try discriminate.
    destruct ((200 <=? status') && (status' <? 300))%N eqn:Hrange.
    + destruct (JSON_parse text') as [e | [| fields]] eqn:Hbody; try discriminate.
      cbn. intros Heq. inversion Heq.
      exists status, text, tok, token, url, status', text', fields.
      apply andb_prop in Hrange. destruct Hrange as [Hlo Hhi].
      apply N.leb_le in Hlo. apply N.ltb_lt in Hhi.
      repeat split; try reflexivity; assumption.
    + destruct (JSON_parse text') as [e | [| fields]]; discriminate.
  - intros (status & text & tok & token & url & status' & text' & fields
            & Hreply & Hok & Hparse & Htoken & Hurl & Hxhr & [Hlo Hhi] & Hbody & ->).
    rewrite Hreply, Hok. cbn [negb]. rewrite Hparse. cbn [fst]. rewrite Htoken, Hurl, Hxhr.
    apply N.leb_le in Hlo. apply N.ltb_lt in Hhi. rewrite Hlo, Hhi. cbn [andb].
    rewrite Hbody. reflexivity.
Qed.

(** What an upload settles to: a promise that is fulfilled, with a failure
    that carries the message of what went wrong or with the result of a
    transfer that went through. *)
Definition settlesTo (out : Js.Settled PushToRemoteResult) (ok : PushToRemoteResult -> Prop)
  : Prop :=
  exists r, out = inr r
            /\ ((success r = false /\ exists e, r = failure e)
                \/ (success r = true /\ ok r)).

Lemma settle_settlesTo (s : Js.Settled PushToRemoteResult) (ok : PushToRemoteResult -> Prop) :
  (forall r, s = inr r -> success r = true /\ ok r) ->
  settlesTo (inr (settle s)) ok.
Proof.
  intros Hok. exists (settle s). split; [reflexivity |].
  destruct s as [e | r]; cbn.
  - left. split; [reflexivity | exists e; reflexivity].
  - right. apply Hok. reflexivity.
Qed.

Lemma delivered_success (w : World) (bytes filename : string) (len : N)
    (storageTier : StorageTier) (r : PushToRemoteResult) :
  delivered w bytes filename len storageTier r ->
  success r = true /\ error r = None /\ sizeBytes r = Some len.
Proof.
  intros (? & ? & ? & ? & ? & ? & ? & ? & _ & _ & _ & _ & _ & _ & _ & _ & ->).
  repeat split.
Qed.

End Transfer.

Section TransferModes.
Context `{Platform}.
Import PushToRemote.

(** The failure modes of the shared steps, one by one. *)
Lemma transfer_failure_modes (w : World) (bytes fname : string) (len : N)
    (storageTier : StorageTier) :
  (forall e, api_upload_token w fname len storageTier = NetworkError e ->
             transferOf w bytes fname len storageTier = inl e)
  /\ (forall status text,
        api_upload_token w fname len storageTier = Http status text -> ok status = false ->
        transferOf w bytes fname len storageTier
        = inl ("Failed to get upload token: " ++ Js.numberToString status ++ " - " ++ text))
  /\ (forall status text e,
        api_upload_token w fname len storageTier = Http status text -> ok status = true ->
        JSON_parse text = inl e ->
        transferOf w bytes fname len storageTier = inl e)
  /\ (forall status text tok token url,
        api_upload_token w fname len storageTier = Http status text -> ok status = true ->
        JSON_parse text = inr tok ->
        Js.prop tok "token" = inr (Js.VStr token) ->
        Js.prop tok "full_upload_url" = inr url ->
        (xhr_post w url fname bytes = XhrError ->
         transferOf w bytes fname len storageTier = inl "Network error during upload")
        /\ (xhr_post w url fname bytes = XhrAbort ->
            transferOf w bytes fname len storageTier = inl "Upload cancelled")
        /\ (forall status' text',
              xhr_post w url fname bytes = XhrLoad status' text' ->
              ((200 <=? status') && (status' <? 300))%N = false ->
              exists e, transferOf w bytes fname len storageTier = inl e)
        /\ (forall status' text' e,
              xhr_post w url fname bytes = XhrLoad status' text' ->
              ((200 <=? status') && (status' <? 300))%N = true ->
              JSON_parse text' = inl e ->
              transferOf w bytes fname len storageTier = inl "Invalid response from server")).
Proof.
  unfold transferOf, tokenOf, uploadOf, logToken, ActM.ret.
  split; [intros e ->; reflexivity |].
  split; [intros status text -> ->; reflexivity |].
  split; [intros status text e -> -> ->; reflexivity |].
  intros status text tok token url -> -> -> Htoken Hurl. cbn [negb fst].
  rewrite Htoken, Hurl.
  split; [intros ->; reflexivity |].
  split; [intros ->; reflexivity |].
  split.
  - intros status' text' -> ->.
    destruct (JSON_parse text') as [e | [| fields]]; eexists; reflexivity.
  - intros status' text' e -> -> ->. reflexivity.
Qed.

End TransferModes.

(** ** What an upload resolves to *)

Section Resolution.
Context `{Platform}.
Import PushToRemote.















End Resolution.






Example direct_upload_rejects_csv :
  fst (@PushToRemote.uploadDirectFile demoPlatform threeRows temp demoWorld idleSys)
  = inr (PushToRemote.failure
           "Only .parquet and .duckdb files are supported for direct upload").
Proof. vm_compute. reflexivity. Qed.

(** ** Admission *)

Section Admission.
Context `{Platform}.
Import Home.

Lemma gt_spec (x y : Q) : Js.gt x y = true <-> (y < x)%Q.
Proof.
  unfold Js.gt. rewrite negb_true_iff. split.
  - intros Hle. apply Qnot_le_lt. intros Hxy.
    apply Qle_bool_iff in Hxy. congruence.
  - intros Hlt. destruct (Qle_bool x y) eqn:Hle; [| reflexivity].
    apply Qle_bool_iff in Hle. exfalso. exact (Qlt_not_le _ _ Hlt Hle).
Qed.

Lemma gt_false (x y : Q) : Js.gt x y = false <-> (x <= y)%Q.
Proof.
  unfold Js.gt. rewrite negb_false_iff. apply Qle_bool_iff.
Qed.

(** The session after one more call. *)
Definition logged (c : Call) (sys : Sys) : Sys :=
  {| db := db sys; calls := (calls sys ++ [c])%list |}.

(** What the services answer, as the libraries read it. *)
Definition limitsOf (w : World) (email : string) : Limits :=
  match user_limits w email with
  | Replied (Some limits) => limits
  | Replied None => ∅
  | Threw _ => ∅
  end.

Definition fileCountOf (w : World) (email : string) : Q :=
  if negb (isNeonDataConfigured w) then 0%Q
  else match files_count w email with
       | Replied (Some count) => Js.orNum count 0
       | Replied None => 0%Q
       | Threw _ => 0%Q
       end.

Definition statusOf (w : World) (tier : StorageTier) : option PushToRemote.StorageStatus :=
  match api_status w tier with
  | StatusThrew => None
  | StatusNotOk _ => None
  | StatusOk data =>
      Some {| PushToRemote.available_mb := Js.orNum (default 0%Q (d_available_mb data)) 0;
              PushToRemote.usage_percent := Js.orNum (default 0%Q (d_usage_percent data)) 0;
              PushToRemote.file_count := Js.orNum (default 0%Q (d_file_count data)) 0;
              PushToRemote.can_upload := default true (d_can_upload data);
              PushToRemote.max_file_size_mb :=
                Js.orNum (default 0%Q (d_max_file_size_mb data)) 150 |}
  end.

(** [validateUpload] for a given count. *)
Definition validationOf (count fileSizeMb : Q) (limits : Limits) : NeonDb.UploadValidation :=
  if NeonDb.reaches count (NeonDb.limit limits "max_files")
  then {| NeonDb.allowed := false;
          NeonDb.reason := Some (NeonDb.FileLimitReached (NeonDb.limit limits "max_files"));
          NeonDb.userFileCount := count;
          NeonDb.maxFiles := NeonDb.limit limits "max_files" |}
  else if NeonDb.exceeds fileSizeMb (NeonDb.limit limits "max_file_size_mb")
  then {| NeonDb.allowed := false;
          NeonDb.reason := Some (NeonDb.FileSizeExceeds fileSizeMb
                                   (NeonDb.limit limits "max_file_size_mb"));
          NeonDb.userFileCount := count;
          NeonDb.maxFiles := NeonDb.limit limits "max_files" |}
  else {| NeonDb.allowed := true; NeonDb.reason := None;
          NeonDb.userFileCount := count;
          NeonDb.maxFiles := NeonDb.limit limits "max_files" |}.

(** The session after [getUserFileCount]. *)
Definition counted (w : World) (email : string) (sys : Sys) : Sys :=
  if negb (isNeonDataConfigured w) then sys else logged (GetUserFileCount email) sys.

Lemma getEffectiveLimits_eq (email : string) (w : World) (sys : Sys) :
  NeonDb.getEffectiveLimits email w sys
  = (limitsOf w email, logged (GetEffectiveLimits email) sys).
Proof. reflexivity. Qed.

Lemma getUserFileCount_eq (email : string) (w : World) (sys : Sys) :
  NeonDb.getUserFileCount email w sys = (fileCountOf w email, counted w email sys).
Proof.
  unfold NeonDb.getUserFileCount, fileCountOf, counted, ActM.bind, ActM.ask, ActM.ret.
  destruct (negb (isNeonDataConfigured w)); reflexivity.
Qed.

Lemma validateUpload_eq (email : string) (fileSizeMb : Q) (limits : Limits)
    (w : World) (sys : Sys) :
  NeonDb.validateUpload email fileSizeMb limits w sys
  = (validationOf (fileCountOf w email) fileSizeMb limits, counted w email sys).
Proof.
  unfold NeonDb.validateUpload, validationOf, ActM.bind at 1.
  rewrite getUserFileCount_eq.
  destruct (NeonDb.reaches _ _); [reflexivity |].
  destruct (NeonDb.exceeds _ _); reflexivity.
Qed.

Lemma getStorageStatus_eq (tier : StorageTier) (w : World) (sys : Sys) :
  PushToRemote.getStorageStatus tier w sys
  = (statusOf w tier, logged (GetStorageStatus tier) sys).
Proof. reflexivity. Qed.

(** The verdict of the block for a persistent request. *)
Definition persistentVerdict (w : World) (email : string) (fileSizeMb estimatedMb : Q)
  : Checked :=
  let validation := validationOf (fileCountOf w email) fileSizeMb (limitsOf w email) in
  if negb (NeonDb.allowed validation)
  then inr (Some (FileLimitModal (Js.orNum (NeonDb.userFileCount validation) 0)
                                 (maxFilesOr2 validation)))
  else match statusOf w persistent with
       | Some st =>
           if Js.gt estimatedMb (PushToRemote.available_mb st)
              || negb (PushToRemote.can_upload st)
           then inr (Some (StorageFullModal 0 (PushToRemote.available_mb st) estimatedMb))
           else inr None
       | None => inr None
       end.

(** The session after the block: the limits and the count are queried, the
    capacity only when the validation passed. *)
Definition persistentQueried (w : World) (email : string) (fileSizeMb : Q) (sys : Sys) : Sys :=
  let sys1 := counted w email (logged (GetEffectiveLimits email) sys) in
  if NeonDb.allowed (validationOf (fileCountOf w email) fileSizeMb (limitsOf w email))
  then logged (GetStorageStatus persistent) sys1
  else sys1.

Lemma persistentChecks_eq (email : string) (fileSizeMb estimatedMb : Q)
    (w : World) (sys : Sys) :
  persistentChecks email fileSizeMb estimatedMb w sys
  = (persistentVerdict w email fileSizeMb estimatedMb,
     persistentQueried w email fileSizeMb sys).
Proof.
  unfold persistentChecks, persistentVerdict, persistentQueried.
  unfold ActM.bind at 1. rewrite getEffectiveLimits_eq.
  unfold ActM.bind at 1. rewrite validateUpload_eq.
  destruct (NeonDb.allowed (validationOf (fileCountOf w email) fileSizeMb (limitsOf w email)));
    cbn [negb]; [| reflexivity].
  unfold ActM.bind at 1. rewrite getStorageStatus_eq.
  destruct (statusOf w persistent) as [st |]; [| reflexivity].
  destruct (Js.gt estimatedMb (PushToRemote.available_mb st)
            || negb (PushToRemote.can_upload st)); reflexivity.
Qed.

(** A handler ends with the outcome its checks stopped on. *)
Lemma engine_eq {A} (m : Eng A) (w : World) (sys : Sys) :
  ActM.engine m w sys = (fst (m (db sys)), {| db := snd (m (db sys)); calls := calls sys |}).
Proof. unfold ActM.engine. destruct (m (db sys)); reflexivity. Qed.

(** The checks of [handlePushToRemote] for a caller that is not an
    administrator, by the outcome of the estimate. *)
Lemma pushChecks_eq (s : HomeState) (storageTier : StorageTier) (w : World) (sys : Sys) :
  userRole s <> admin ->
  pushChecks s storageTier w sys
  = match DuckDb.estimateDatabaseSize (db sys) with
    | (inl e, d') => (inl e, {| db := d'; calls := (calls sys ++ [EstimateDatabaseSize])%list |})
    | (inr bytes, d') =>
        let sys' := {| db := d'; calls := (calls sys ++ [EstimateDatabaseSize])%list |} in
        if Js.gt (megabytes bytes * 2)%Q 75
        then (inr (Some (Refused (DatabaseTooLarge (megabytes bytes * 2)%Q 75))), sys')
        else match persistentRequest s (keepPersistent s) storageTier with
             | Some email => persistentChecks email 0 (megabytes bytes * 2)%Q w sys'
             | None => (inr None, sys')
             end
    end.
Proof.
  intros Hrole. unfold pushChecks.
  rewrite bool_decide_eq_false_2 by exact Hrole.
  unfold ActM.bind at 1. unfold ActM.call at 1.
  unfold ActM.andThen, ActM.bind at 1. rewrite engine_eq. cbn [db calls].
  destruct (DuckDb.estimateDatabaseSize (db sys)) as [[e | bytes] d']; cbn [fst snd];
    [reflexivity |].
  destruct (Js.gt (megabytes bytes * 2) 75); [reflexivity |].
  destruct (persistentRequest s (keepPersistent s) storageTier); reflexivity.
Qed.

Lemma quickChecks_eq (s : HomeState) (file : File) (storageTier : StorageTier)
    (w : World) (sys : Sys) :
  userRole s <> admin ->
  quickChecks s file storageTier w sys
  = match persistentRequest s (keepPersistentQuick s) storageTier with
    | Some email =>
        persistentChecks email (megabytes (size file))
          (if Js.endsWith (Js.toLowerCase (name file)) ".parquet"
           then (megabytes (size file) * 2)%Q else megabytes (size file)) w sys
    | None => (inr None, sys)
    end.
Proof.
  intros Hrole. unfold quickChecks.
  rewrite bool_decide_eq_false_2 by exact Hrole.
  destruct (persistentRequest s (keepPersistentQuick s) storageTier); reflexivity.
Qed.

Lemma parquetChecks_eq (s : HomeState) (buffer : string) (storageTier : StorageTier)
    (w : World) (sys : Sys) :
  userRole s <> admin ->
  parquetChecks s buffer storageTier w sys
  = if Js.gt (megabytes (DuckDb.byteLength buffer)) 75
    then (inr (Some (Refused (FileTooLarge "Parquet"
                                (megabytes (DuckDb.byteLength buffer)) 75))), sys)
    else match persistentRequest s (keepPersistent s) storageTier with
         | Some email =>
             persistentChecks email (megabytes (DuckDb.byteLength buffer))
               (megabytes (DuckDb.byteLength buffer) * 2)%Q w sys
         | None => (inr None, sys)
         end.
Proof.
  intros Hrole. unfold parquetChecks.
  rewrite bool_decide_eq_false_2 by exact Hrole. cbn [negb andb].
  destruct (Js.gt (megabytes (DuckDb.byteLength buffer)) 75); [reflexivity |].
  destruct (persistentRequest s (keepPersistent s) storageTier); reflexivity.
Qed.

(** When the checks stop, the handler ends with their outcome. *)
Lemma handlePushToRemote_stopped (s : HomeState) (w : World) (sys sys' : Sys) (o : Outcome) :
  pushChecks s (getEffectiveStorageTier s (keepPersistent s)) w sys = (inr (Some o), sys') ->
  handlePushToRemote s w sys = (o, sys').
Proof.
  intros Hchecks. unfold handlePushToRemote, ActM.bind at 1. rewrite Hchecks. reflexivity.
Qed.

Lemma handleQuickUpload_stopped (s : HomeState) (file : File) (w : World) (sys sys' : Sys)
    (o : Outcome) :
  quickStagedFile s = Some file ->
  quickChecks s file (getEffectiveStorageTier s (keepPersistentQuick s)) w sys
  = (inr (Some o), sys') ->
  handleQuickUpload s w sys = (o, sys').
Proof.
  intros Hfile Hchecks. unfold handleQuickUpload. rewrite Hfile.
  unfold ActM.bind at 1. rewrite Hchecks. reflexivity.
Qed.

Lemma handleParquetUploadToServer_stopped (s : HomeState) (rc : option N)
    (buffer fname : string) (w : World) (sys sys' : Sys) (o : Outcome) :
  parquetResult s = Some {| rowCount := rc; localBuffer := Some buffer;
                            pr_filename := Some fname |} ->
  fname <> "" ->
  parquetChecks s buffer (getEffectiveStorageTier s (keepPersistent s)) w sys
  = (inr (Some o), sys') ->
  handleParquetUploadToServer s w sys = (o, sys').
Proof.
  intros Hresult Hname Hchecks. unfold handleParquetUploadToServer. rewrite Hresult.
  apply String.eqb_neq in Hname. rewrite Hname.
  unfold ActM.bind at 1. rewrite Hchecks. reflexivity.
Qed.

End Admission.

Section Ceiling.
Context `{Platform}.
Import Home.

Lemma estimate_pairing (d : Db) :
  DuckDb.estimateDatabaseSize d
  = (fst (DuckDb.estimateDatabaseSize d), snd (DuckDb.estimateDatabaseSize d)).
Proof. destruct (DuckDb.estimateDatabaseSize d); reflexivity. Qed.

Lemma pushChecks_too_large (s : HomeState) (storageTier : StorageTier) (w : World) (sys : Sys)
    (bytes : N) :
  userRole s <> admin ->
  fst (DuckDb.estimateDatabaseSize (db sys)) = inr bytes ->
  (75 < megabytes bytes * 2)%Q ->
  pushChecks s storageTier w sys
  = (inr (Some (Refused (DatabaseTooLarge (megabytes bytes * 2)%Q 75))),
     {| db := snd (DuckDb.estimateDatabaseSize (db sys));
        calls := (calls sys ++ [EstimateDatabaseSize])%list |}).
Proof.
  intros Hrole Hbytes Hlarge. rewrite (pushChecks_eq s storageTier w sys Hrole).
  rewrite (estimate_pairing (db sys)), Hbytes. cbn zeta.
  apply gt_spec in Hlarge. rewrite Hlarge. reflexivity.
Qed.

Lemma parquetChecks_too_large (s : HomeState) (storageTier : StorageTier) (w : World)
    (sys : Sys) (buffer : string) :
  userRole s <> admin ->
  (75 < megabytes (DuckDb.byteLength buffer))%Q ->
  parquetChecks s buffer storageTier w sys
  = (inr (Some (Refused (FileTooLarge "Parquet" (megabytes (DuckDb.byteLength buffer)) 75))),
     sys).
Proof.
  intros Hrole Hlarge. rewrite (parquetChecks_eq s buffer storageTier w sys Hrole).
  apply gt_spec in Hlarge. rewrite Hlarge. reflexivity.
Qed.

End Ceiling.

(** The ceiling in the build and the convert workflows: for a caller that
    is not an administrator, whatever the tier, an artifact above the
    ceiling is refused before any quota is looked at.  In the build workflow
    the estimate, doubled, is compared with 75 MB right after
    [estimateDatabaseSize]; in the convert workflow the size of the columnar
    buffer is compared with 75 MB before anything else.  The refusal
    names the limit and the actual size, it is the same in every world (so
    whatever the file count and the capacity are), and the only call made
    before it is the estimate: neither the limits, nor the file count, nor
    the capacity were queried. *)
Theorem size_ceiling_precedes_quotas `{Platform}
    (s : Home.HomeState) (w : World) (sys : Sys) :
  Home.userRole s <> admin ->
  (forall bytes,
     fst (DuckDb.estimateDatabaseSize (db sys)) = inr bytes ->
     (75 < megabytes bytes * 2)%Q ->
     Home.handlePushToRemote s w sys
     = (Home.Refused (Home.DatabaseTooLarge (megabytes bytes * 2)%Q 75),
        {| db := snd (DuckDb.estimateDatabaseSize (db sys));
           calls := (calls sys ++ [EstimateDatabaseSize])%list |})
     /\ Home.decision (fst (Home.handlePushToRemote s w sys))
        = Some (Home.DENY Home.ARTIFACT_TOO_LARGE
                  [("limitMB", 75%Q); ("actualMB", (megabytes bytes * 2)%Q)]))
  /\ (forall rc buffer fname,
        Home.parquetResult s
        = Some {| Home.rowCount := rc; Home.localBuffer := Some buffer;
                  Home.pr_filename := Some fname |} ->
        fname <> "" ->
        (75 < megabytes (DuckDb.byteLength buffer))%Q ->
        Home.handleParquetUploadToServer s w sys
        = (Home.Refused (Home.FileTooLarge "Parquet"
                           (megabytes (DuckDb.byteLength buffer)) 75), sys)
        /\ Home.decision (fst (Home.handleParquetUploadToServer s w sys))
           = Some (Home.DENY Home.ARTIFACT_TOO_LARGE
                     [("limitMB", 75%Q);
                      ("actualMB", megabytes (DuckDb.byteLength buffer))])).
Proof.
  intros Hrole. split.
  - intros bytes Hbytes Hlarge.
    assert (Home.handlePushToRemote s w sys
            = (Home.Refused (Home.DatabaseTooLarge (megabytes bytes * 2)%Q 75),
               {| db := snd (DuckDb.estimateDatabaseSize (db sys));
                  calls := (calls sys ++ [EstimateDatabaseSize])%list |})) as Hout.
    { apply handlePushToRemote_stopped.
      apply pushChecks_too_large; assumption. }
    split; [exact Hout | rewrite Hout; reflexivity].
  - intros rc buffer fname Hresult Hname Hlarge.
    assert (Home.handleParquetUploadToServer s w sys
            = (Home.Refused (Home.FileTooLarge "Parquet"
                               (megabytes (DuckDb.byteLength buffer)) 75), sys)) as Hout.
    { apply (handleParquetUploadToServer_stopped s rc buffer fname); try assumption.
      apply parquetChecks_too_large; assumption. }
    split; [exact Hout | rewrite Hout; reflexivity].
Qed.

Lemma bulk_length (n : N) : DuckDb.byteLength (bulk n) = n.
Proof.
  unfold DuckDb.byteLength, bulk.
  assert (forall k, String.length (padding k) = k) as Hpad.
  { induction k as [| k IH]; [reflexivity | cbn; rewrite IH; reflexivity]. }
  rewrite Hpad. apply N2Nat.id.
Qed.

Lemma bulky_estimate : fst (@DuckDb.estimateDatabaseSize bulkyPlatform oneTableDb) = inr 40000000%N.
Proof.
  rewrite (proj1 (@estimate_clean bulkyPlatform oneTableDb oneTableDb_clean)).
  assert (DuckDb.tableNames oneTableDb = ["t"]) as -> by (vm_compute; reflexivity).
  cbn [map fold_left]. unfold exportedSize, oneTableDb. cbn [tables].
  rewrite lookup_singleton_eq.
  change (@to_parquet bulkyPlatform oneTable) with (bulk 40000000).
  rewrite bulk_length. reflexivity.
Qed.

Lemma size_ceiling_precedes_quotas_witness :
  Home.decision (fst (@Home.handlePushToRemote bulkyPlatform proState demoWorld oneTableSys))
  = Some (Home.DENY Home.ARTIFACT_TOO_LARGE
            [("limitMB", 75%Q); ("actualMB", (megabytes 40000000 * 2)%Q)])
  /\ @Home.handleParquetUploadToServer demoPlatform bulkyState demoWorld idleSys
     = (Home.Refused (Home.FileTooLarge "Parquet"
                        (megabytes (DuckDb.byteLength (bulk 80000000))) 75), idleSys).
Proof.
  split.
  - refine (proj2 (proj1 (@size_ceiling_precedes_quotas bulkyPlatform proState demoWorld
                            oneTableSys _) 40000000%N bulky_estimate _)).
    + discriminate.
    + reflexivity.
  - refine (proj1 (proj2 (@size_ceiling_precedes_quotas demoPlatform bulkyState demoWorld
                            idleSys _) (Some 2%N) (bulk 80000000) "sales.parquet" _ _ _)).
    + discriminate.
    + reflexivity.
    + discriminate.
    + rewrite bulk_length. reflexivity.
Defined.

(** ** The administrator *)

Section Bypass.
Context `{Platform}.
Import Home.

Lemma saved_then (record : option FileRecordInput) (o : Outcome) (w : World) (sys : Sys) :
  fst (ActM.bind (saveRecord record) (fun _ => ActM.ret o) w sys) = o.
Proof.
  unfold ActM.bind. destruct (saveRecord record w sys). reflexivity.
Qed.

(** Once the checks let it through, a handler attempts the transfer. *)
Lemma handlePushToRemote_proceeds (s : HomeState) (w : World) (sys sys' : Sys) :
  pushChecks s (getEffectiveStorageTier s (keepPersistent s)) w sys = (inr None, sys') ->
  decision (fst (handlePushToRemote s w sys)) = Some ALLOW.
Proof.
  intros Hchecks. unfold handlePushToRemote, ActM.bind at 1. rewrite Hchecks.
  unfold ActM.bind at 1.
  pose proof (pushToRemote_fst (generateDbDisplayName s)
                (getEffectiveStorageTier s (keepPersistent s)) w sys') as Hresolves.
  destruct (PushToRemote.pushToRemote _ _ w sys') as [[e | result] sys''];
    [discriminate Hresolves |].
  destruct (PushToRemote.success result); [| reflexivity].
  rewrite saved_then. reflexivity.
Qed.

Lemma handleQuickUpload_proceeds (s : HomeState) (file : File) (w : World) (sys sys' : Sys) :
  quickStagedFile s = Some file ->
  quickChecks s file (getEffectiveStorageTier s (keepPersistentQuick s)) w sys
  = (inr None, sys') ->
  decision (fst (handleQuickUpload s w sys)) = Some ALLOW.
Proof.
  intros Hfile Hchecks. unfold handleQuickUpload. rewrite Hfile.
  unfold ActM.bind at 1. rewrite Hchecks. unfold ActM.bind at 1.
  pose proof (uploadDirectFile_fst file
                (getEffectiveStorageTier s (keepPersistentQuick s)) w sys') as Hresolves.
  destruct (PushToRemote.uploadDirectFile _ _ w sys') as [[e | result] sys''];
    [discriminate Hresolves |].
  destruct (PushToRemote.success result); [| reflexivity].
  rewrite saved_then. reflexivity.
Qed.

Lemma handleParquetUploadToServer_proceeds (s : HomeState) (rc : option N)
    (buffer fname : string) (w : World) (sys sys' : Sys) :
  parquetResult s = Some {| rowCount := rc; localBuffer := Some buffer;
                            pr_filename := Some fname |} ->
  fname <> "" ->
  parquetChecks s buffer (getEffectiveStorageTier s (keepPersistent s)) w sys
  = (inr None, sys') ->
  decision (fst (handleParquetUploadToServer s w sys)) = Some ALLOW.
Proof.
  intros Hresult Hname Hchecks. unfold handleParquetUploadToServer. rewrite Hresult.
  apply String.eqb_neq in Hname. rewrite Hname.
  unfold ActM.bind at 1. rewrite Hchecks. unfold ActM.bind at 1.
  pose proof (uploadParquetBuffer_fst buffer fname
                (getEffectiveStorageTier s (keepPersistent s)) w sys') as Hresolves.
  destruct (PushToRemote.uploadParquetBuffer _ _ _ w sys') as [[e | result] sys''];
    [discriminate Hresolves |].
  destruct (PushToRemote.success result); [| reflexivity].
  rewrite saved_then. reflexivity.
Qed.

Lemma admin_checks (s : HomeState) (w : World) (sys : Sys) :
  userRole s = admin ->
  (forall storageTier, pushChecks s storageTier w sys = (inr None, sys))
  /\ (forall file storageTier, quickChecks s file storageTier w sys = (inr None, sys))
  /\ (forall buffer storageTier, parquetChecks s buffer storageTier w sys = (inr None, sys)).
Proof.
  intros Hrole. unfold pushChecks, quickChecks, parquetChecks. rewrite Hrole.
  repeat split.
Qed.

End Bypass.

(** C3: for an administrator every admission decision is ALLOW and no check
    is run.  The checks that precede the three uploads let the upload
    through without a single call (no estimate, no limits, no file count, no
    capacity), whatever the tier, the artifact and the world; staging a file
    for Quick Upload ignores its size; and each upload handler goes on to the
    transfer. *)
Theorem admin_bypass `{Platform} (s : Home.HomeState) (w : World) (sys : Sys) :
  Home.userRole s = admin ->
  (forall storageTier, Home.pushChecks s storageTier w sys = (inr None, sys))
  /\ (forall file storageTier, Home.quickChecks s file storageTier w sys = (inr None, sys))
  /\ (forall buffer storageTier,
        Home.parquetChecks s buffer storageTier w sys = (inr None, sys))
  /\ (forall file,
        Home.isRoleLoading s = false ->
        Js.testExt Home.QUICK_EXTENSIONS (name file) = true ->
        Home.handleQuickDrop s [file] = Home.Staged file)
  /\ (forall file rest,
        Home.isRoleLoading s = false ->
        Home.handleQuickFileInput s (file :: rest) = Home.Staged file)
  /\ Home.decision (fst (Home.handlePushToRemote s w sys)) = Some Home.ALLOW
  /\ (forall file,
        Home.quickStagedFile s = Some file ->
        Home.decision (fst (Home.handleQuickUpload s w sys)) = Some Home.ALLOW)
  /\ (forall rc buffer fname,
        Home.parquetResult s
        = Some {| Home.rowCount := rc; Home.localBuffer := Some buffer;
                  Home.pr_filename := Some fname |} ->
        fname <> "" ->
        Home.decision (fst (Home.handleParquetUploadToServer s w sys)) = Some Home.ALLOW).
Proof.
  intros Hrole.
  destruct (admin_checks s w sys Hrole) as (Hpush & Hquick & Hparquet).
  split; [exact Hpush |]. split; [exact Hquick |]. split; [exact Hparquet |].
  split.
  { intros file Hloaded Hext. unfold Home.handleQuickDrop. rewrite Hloaded.
    rewrite filter_cons, filter_nil, decide_True by (rewrite Hext; exact I).
    rewrite Hrole. reflexivity. }
  split.
  { intros file rest Hloaded. unfold Home.handleQuickFileInput.
    rewrite Hloaded, Hrole. reflexivity. }
  split; [apply (handlePushToRemote_proceeds s w sys sys), Hpush |].
  split.
  - intros file Hfile. apply (handleQuickUpload_proceeds s file w sys sys Hfile), Hquick.
  - intros rc buffer fname Hresult Hname.
    apply (handleParquetUploadToServer_proceeds s rc buffer fname w sys sys Hresult Hname),
      Hparquet.
Qed.

Lemma admin_bypass_witness :
  @Home.pushChecks bulkyPlatform adminState persistent fullWorld oneTableSys
  = (inr None, oneTableSys)
  /\ Home.handleQuickDrop adminState [demoParquet] = Home.Staged demoParquet
  /\ Home.decision (fst (@Home.handleQuickUpload demoPlatform adminState fullWorld idleSys))
     = Some Home.ALLOW.
Proof.
  split; [| split].
  - apply (@admin_bypass bulkyPlatform adminState fullWorld oneTableSys). reflexivity.
  - apply (@admin_bypass demoPlatform adminState fullWorld idleSys);
      vm_compute; reflexivity.
  - apply (proj1 (proj2 (proj2 (proj2 (proj2 (proj2 (proj2
             (@admin_bypass demoPlatform adminState fullWorld idleSys eq_refl))))))))
      with (file := demoParquet).
    reflexivity.
Defined.

(** ** The quotas of the persistent tier *)

Section Quotas.
Context `{Platform}.
Import Home.

(** The capacity check of the block, when the validation passed and the
    status proxy answered. *)
Lemma persistentChecks_capacity (email : string) (fileSizeMb estimatedMb : Q)
    (w : World) (sys : Sys) (st : PushToRemote.StorageStatus) :
  NeonDb.allowed (validationOf (fileCountOf w email) fileSizeMb (limitsOf w email)) = true ->
  statusOf w persistent = Some st ->
  persistentChecks email fileSizeMb estimatedMb w sys
  = (if Js.gt estimatedMb (PushToRemote.available_mb st)
        || negb (PushToRemote.can_upload st)
     then inr (Some (StorageFullModal 0 (PushToRemote.available_mb st) estimatedMb))
     else inr None,
     logged (GetStorageStatus persistent)
       (counted w email (logged (GetEffectiveLimits email) sys))).
Proof.
  intros Hallowed Hstatus. rewrite persistentChecks_eq.
  unfold persistentVerdict, persistentQueried. rewrite Hallowed, Hstatus. cbn [negb].
  destruct (Js.gt estimatedMb (PushToRemote.available_mb st)
            || negb (PushToRemote.can_upload st)); reflexivity.
Qed.

Lemma storage_full_test (estimatedMb : Q) (st : PushToRemote.StorageStatus) :
  (PushToRemote.available_mb st < estimatedMb)%Q \/ PushToRemote.can_upload st = false ->
  Js.gt estimatedMb (PushToRemote.available_mb st) || negb (PushToRemote.can_upload st) = true.
Proof.
  intros [Hless | Hclosed].
  - apply gt_spec in Hless. rewrite Hless. reflexivity.
  - rewrite Hclosed. apply orb_true_r.
Qed.

Lemma capacity_queried (c : Call) (sys : Sys) : In c (calls (logged c sys)).
Proof. cbn. apply in_or_app. right. left. reflexivity. Qed.

(** The file-count check of the block: a count at or above the maximum
    stops the upload with the file-limit modal, before the capacity is
    queried. *)
Lemma persistentChecks_file_count (email : string) (fileSizeMb estimatedMb : Q)
    (w : World) (sys : Sys) (maxFiles : Q) :
  NeonDb.limit (limitsOf w email) "max_files" = Some maxFiles ->
  (maxFiles <= fileCountOf w email)%Q ->
  persistentChecks email fileSizeMb estimatedMb w sys
  = (inr (Some (FileLimitModal (Js.orNum (fileCountOf w email) 0) (Js.orNum maxFiles 2))),
     counted w email (logged (GetEffectiveLimits email) sys)).
Proof.
  intros Hmax Hcount. rewrite persistentChecks_eq.
  unfold persistentVerdict, persistentQueried, validationOf. rewrite Hmax.
  unfold NeonDb.reaches, Js.ge.
  apply Qle_bool_iff in Hcount. rewrite Hcount. reflexivity.
Qed.

(** In the build workflow: an identity at or above its maximum is stopped
    by the file-limit modal, after the limits and the count were queried and
    before the capacity is; the modal shows [count || 0] and [maximum || 2],
    which are the count and the maximum unless the maximum is zero. *)
Lemma file_count_denial (s : HomeState) (w : World) (sys : Sys) (email : string)
    (bytes : N) (maxFiles : Q) :
  userRole s <> admin ->
  persistentRequest s (keepPersistent s) (getEffectiveStorageTier s (keepPersistent s))
  = Some email ->
  fst (DuckDb.estimateDatabaseSize (db sys)) = inr bytes ->
  (megabytes bytes * 2 <= 75)%Q ->
  NeonDb.limit (limitsOf w email) "max_files" = Some maxFiles ->
  (maxFiles <= fileCountOf w email)%Q ->
  handlePushToRemote s w sys
  = (FileLimitModal (Js.orNum (fileCountOf w email) 0) (Js.orNum maxFiles 2),
     counted w email
       (logged (GetEffectiveLimits email)
          {| db := snd (DuckDb.estimateDatabaseSize (db sys));
             calls := (calls sys ++ [EstimateDatabaseSize])%list |}))
  /\ (~ (maxFiles == 0)%Q -> Js.orNum maxFiles 2 = maxFiles).
Proof.
  intros Hrole Hrequest Hbytes Hfits Hmax Hcount. split.
  - apply handlePushToRemote_stopped.
    rewrite (pushChecks_eq s _ w sys Hrole), (estimate_pairing (db sys)), Hbytes.
    cbn zeta. apply gt_false in Hfits. rewrite Hfits, Hrequest.
    apply persistentChecks_file_count; assumption.
  - intros Hnonzero. unfold Js.orNum.
    destruct (Qeq_bool maxFiles 0) eqn:Hzero; [| reflexivity].
    apply Qeq_bool_iff in Hzero. contradiction.
Qed.

(** Below the maximum, or without a maximum, the file-count check passes:
    the validation goes on to the size limit of the identity. *)
Lemma validation_below_maximum (count fileSizeMb : Q) (limits : Limits) :
  NeonDb.reaches count (NeonDb.limit limits "max_files") = false ->
  NeonDb.allowed (validationOf count fileSizeMb limits)
  = negb (NeonDb.exceeds fileSizeMb (NeonDb.limit limits "max_file_size_mb")).
Proof.
  intros Hbelow. unfold validationOf. rewrite Hbelow.
  destruct (NeonDb.exceeds _ _); reflexivity.
Qed.

End Quotas.

(** C4: for a caller that is not an administrator and asks for the
    persistent tier, once the size ceiling and the validation of the
    identity pass, the capacity of the persistent tier is queried and the
    estimate is compared with what is left: a columnar size is doubled (the
    build estimate, a converted buffer, a staged [.parquet] file), a database
    file counts as it is.  When the status proxy answers, and the estimate
    exceeds the available megabytes or [can_upload] is false, the upload
    stops with the storage-full modal, which carries the available and the
    estimated megabytes. *)
Theorem capacity_rule `{Platform}
    (s : Home.HomeState) (w : World) (sys : Sys) (email : string)
    (st : PushToRemote.StorageStatus) :
  Home.userRole s <> admin ->
  statusOf w persistent = Some st ->
  (forall bytes,
     Home.persistentRequest s (Home.keepPersistent s)
       (Home.getEffectiveStorageTier s (Home.keepPersistent s)) = Some email ->
     fst (DuckDb.estimateDatabaseSize (db sys)) = inr bytes ->
     (megabytes bytes * 2 <= 75)%Q ->
     NeonDb.allowed (validationOf (fileCountOf w email) 0 (limitsOf w email)) = true ->
     (PushToRemote.available_mb st < megabytes bytes * 2)%Q
     \/ PushToRemote.can_upload st = false ->
     Home.decision (fst (Home.handlePushToRemote s w sys))
     = Some (Home.DENY Home.STORAGE_FULL
               [("availableMB", PushToRemote.available_mb st);
                ("estimatedMB", (megabytes bytes * 2)%Q)])
     /\ In (GetStorageStatus persistent) (calls (snd (Home.handlePushToRemote s w sys))))
  /\ (forall file,
        Home.quickStagedFile s = Some file ->
        Home.persistentRequest s (Home.keepPersistentQuick s)
          (Home.getEffectiveStorageTier s (Home.keepPersistentQuick s)) = Some email ->
        NeonDb.allowed (validationOf (fileCountOf w email) (megabytes (size file))
                          (limitsOf w email)) = true ->
        let estimatedMb :=
          if Js.endsWith (Js.toLowerCase (name file)) ".parquet"
          then (megabytes (size file) * 2)%Q else megabytes (size file) in
        (PushToRemote.available_mb st < estimatedMb)%Q
        \/ PushToRemote.can_upload st = false ->
        Home.decision (fst (Home.handleQuickUpload s w sys))
        = Some (Home.DENY Home.STORAGE_FULL
                  [("availableMB", PushToRemote.available_mb st);
                   ("estimatedMB", estimatedMb)])
        /\ In (GetStorageStatus persistent) (calls (snd (Home.handleQuickUpload s w sys))))
  /\ (forall rc buffer fname,
        Home.parquetResult s
        = Some {| Home.rowCount := rc; Home.localBuffer := Some buffer;
                  Home.pr_filename := Some fname |} ->
        fname <> "" ->
        Home.persistentRequest s (Home.keepPersistent s)
          (Home.getEffectiveStorageTier s (Home.keepPersistent s)) = Some email ->
        (megabytes (DuckDb.byteLength buffer) <= 75)%Q ->
        NeonDb.allowed (validationOf (fileCountOf w email)
                          (megabytes (DuckDb.byteLength buffer)) (limitsOf w email)) = true ->
        (PushToRemote.available_mb st < megabytes (DuckDb.byteLength buffer) * 2)%Q
        \/ PushToRemote.can_upload st = false ->
        Home.decision (fst (Home.handleParquetUploadToServer s w sys))
        = Some (Home.DENY Home.STORAGE_FULL
                  [("availableMB", PushToRemote.available_mb st);
                   ("estimatedMB", (megabytes (DuckDb.byteLength buffer) * 2)%Q)])
        /\ In (GetStorageStatus persistent)
              (calls (snd (Home.handleParquetUploadToServer s w sys)))).
Proof.
  intros Hrole Hstatus. split; [| split].
  - intros bytes Hrequest Hbytes Hfits Hallowed Hfull.
    assert (Home.handlePushToRemote s w sys
            = (Home.StorageFullModal 0 (PushToRemote.available_mb st)
                 (megabytes bytes * 2)%Q,
               logged (GetStorageStatus persistent)
                 (counted w email
                    (logged (GetEffectiveLimits email)
                       {| db := snd (DuckDb.estimateDatabaseSize (db sys));
                          calls := (calls sys ++ [EstimateDatabaseSize])%list |})))) as Hout.
    { apply handlePushToRemote_stopped.
      rewrite (pushChecks_eq s _ w sys Hrole), (estimate_pairing (db sys)), Hbytes.
      cbn zeta. apply gt_false in Hfits. rewrite Hfits, Hrequest.
      rewrite (persistentChecks_capacity email _ _ w _ st Hallowed Hstatus).
      rewrite (storage_full_test _ st Hfull). reflexivity. }
    rewrite Hout. split; [reflexivity | apply capacity_queried].
  - intros file Hfile Hrequest Hallowed estimatedMb Hfull.
    assert (Home.handleQuickUpload s w sys
            = (Home.StorageFullModal 0 (PushToRemote.available_mb st) estimatedMb,
               logged (GetStorageStatus persistent)
                 (counted w email (logged (GetEffectiveLimits email) sys)))) as Hout.
    { apply (handleQuickUpload_stopped s file w sys _ _ Hfile).
      rewrite (quickChecks_eq s file _ w sys Hrole), Hrequest.
      rewrite (persistentChecks_capacity email _ _ w _ st Hallowed Hstatus).
      fold estimatedMb. rewrite (storage_full_test _ st Hfull). reflexivity. }
    rewrite Hout. split; [reflexivity | apply capacity_queried].
  - intros rc buffer fname Hresult Hname Hrequest Hfits Hallowed Hfull.
    assert (Home.handleParquetUploadToServer s w sys
            = (Home.StorageFullModal 0 (PushToRemote.available_mb st)
                 (megabytes (DuckDb.byteLength buffer) * 2)%Q,
               logged (GetStorageStatus persistent)
                 (counted w email (logged (GetEffectiveLimits email) sys)))) as Hout.
    { apply (handleParquetUploadToServer_stopped s rc buffer fname w sys _ _ Hresult Hname).
      rewrite (parquetChecks_eq s buffer _ w sys Hrole).
      apply gt_false in Hfits. rewrite Hfits, Hrequest.
      rewrite (persistentChecks_capacity email _ _ w _ st Hallowed Hstatus).
      rewrite (storage_full_test _ st Hfull). reflexivity. }
    rewrite Hout. split; [reflexivity | apply capacity_queried].
Qed.

Lemma capacity_rule_witness :
  Home.decision (fst (@Home.handleQuickUpload demoPlatform proState fullWorld idleSys))
  = Some (Home.DENY Home.STORAGE_FULL
            [("availableMB", 0%Q); ("estimatedMB", (megabytes 12 * 2)%Q)])
  /\ In (GetStorageStatus persistent)
        (calls (snd (@Home.handleQuickUpload demoPlatform proState fullWorld idleSys))).
Proof.
  refine (proj1 (proj2 (@capacity_rule demoPlatform proState fullWorld idleSys
                          "pro@example.com"
                          {| PushToRemote.available_mb := 0; PushToRemote.usage_percent := 100;
                             PushToRemote.file_count := 9; PushToRemote.can_upload := false;
                             PushToRemote.max_file_size_mb := 150 |} _ _))
                demoParquet _ _ _ _).
  - discriminate.
  - vm_compute. reflexivity.
  - reflexivity.
  - vm_compute. reflexivity.
  - vm_compute. reflexivity.
  - right. reflexivity.
Defined.

(** Scenario C of the specification: 10 MB available, a 12.5 MB columnar
    export estimated at 25 MB. *)
Example scenario_C (sys : Sys) :
  let w := {| isNeonDataConfigured := true;
              user_limits := fun _ => Replied (Some {[ "max_files" := Some 2%Q ]});
              files_count := fun _ => Replied (Some 1%Q);
              api_status := api_status demoWorld;
              api_upload_token := api_upload_token demoWorld;
              xhr_post := xhr_post demoWorld |} in
  Home.admission (fst (Home.persistentChecks "pro@example.com" (25 # 2) 25 w sys))
  = Some (Home.DENY Home.STORAGE_FULL [("availableMB", 10%Q); ("estimatedMB", 25%Q)]).
Proof. intros w. rewrite persistentChecks_eq. vm_compute. reflexivity. Qed.

(** Scenario B of the specification: 2 files of 2 allowed. *)
Example scenario_B (sys : Sys) :
  Home.admission (fst (Home.persistentChecks "pro@example.com" 0 1 demoWorld sys))
  = Some (Home.DENY Home.FILE_COUNT_LIMIT [("currentCount", 2%Q); ("maxCount", 2%Q)]).
Proof. rewrite persistentChecks_eq. vm_compute. reflexivity. Qed.

(** ** The role that is still loading *)

Section RoleLoading.
Context `{Platform}.
Import Home.

(** The six handlers that take files in refuse while the role loads. *)
Lemma intake_guarded (s : HomeState) (w : World) (sys : Sys) (file : File)
    (files : list File) :
  isRoleLoading s = true ->
  handleBuildDrop s files w sys = (Refused PleaseWait, sys)
  /\ handleBuildFileInput s (file :: files) w sys = (Refused PleaseWait, sys)
  /\ handleQuickDrop s files = Refused PleaseWait
  /\ handleQuickFileInput s (file :: files) = Refused PleaseWait
  /\ handleParquetDrop s files w sys = (Refused PleaseWait, sys)
  /\ handleParquetFileInput s (file :: files) w sys = (Refused PleaseWait, sys).
Proof.
  intros Hloading.
  unfold handleBuildDrop, handleBuildFileInput, handleQuickDrop, handleQuickFileInput,
    handleParquetDrop, handleParquetFileInput.
  rewrite Hloading. repeat split.
Qed.

(** The three handlers that upload do not read [isRoleLoading]. *)
Lemma uploads_ignore_role_loading (s : HomeState) (w : World) (sys : Sys) :
  handlePushToRemote (loadUserRole_start s) w sys = handlePushToRemote s w sys
  /\ handleQuickUpload (loadUserRole_start s) w sys = handleQuickUpload s w sys
  /\ handleParquetUploadToServer (loadUserRole_start s) w sys
     = handleParquetUploadToServer s w sys.
Proof. repeat split. Qed.

End RoleLoading.

(** C9 at the page of an identity whose role is still loading: the build
    upload is not refused.  [handlePushToRemote] runs, takes the tier that
    is in the state before the role arrives ([temp]) and publishes with it,
    while the drop of a file is refused on the same page; once the role is
    loaded the same click uses the persistent tier. *)
Lemma push_runs_while_role_loads :
  Home.isRoleLoading signingIn = true
  /\ fst (@Home.handleBuildDrop demoPlatform signingIn [threeRows] demoWorld oneTableSys)
     = Home.Refused Home.PleaseWait
  /\ (exists result record,
        fst (@Home.handlePushToRemote demoPlatform signingIn demoWorld oneTableSys)
        = Home.Published temp result record)
  /\ Home.decision (fst (@Home.handlePushToRemote demoPlatform signingIn demoWorld oneTableSys))
     = Some Home.ALLOW
  /\ Home.getEffectiveStorageTier (Home.loadUserRole_finish pro signingIn) true = persistent.
Proof.
  split; [reflexivity |]. split; [reflexivity |]. split.
  - eexists. eexists. vm_compute. reflexivity.
  - split; vm_compute; reflexivity.
Qed.

(** C5 at a limit of zero files: the validation refuses with the count and
    the maximum (0 and 0), and the modal of the handler shows a maximum
    of 2. *)
Lemma file_limit_of_zero_shown_as_two :
  fst (NeonDb.validateUpload "pro@example.com" 0
         (limitsOf zeroLimitWorld "pro@example.com") zeroLimitWorld idleSys)
  = {| NeonDb.allowed := false;
       NeonDb.reason := Some (NeonDb.FileLimitReached (Some 0%Q));
       NeonDb.userFileCount := 0%Q;
       NeonDb.maxFiles := Some 0%Q |}
  /\ fst (@Home.handlePushToRemote demoPlatform proState zeroLimitWorld oneTableSys)
     = Home.FileLimitModal 0 2
  /\ Home.decision (fst (@Home.handlePushToRemote demoPlatform proState zeroLimitWorld
                           oneTableSys))
     = Some (Home.DENY Home.FILE_COUNT_LIMIT [("currentCount", 0%Q); ("maxCount", 2%Q)]).
Proof. repeat split; vm_compute; reflexivity. Qed.

(** ** Staging a file for Quick Upload *)

Section Staging.
Import Home.

(** The ceiling of Quick Upload is checked when the file is staged, before
    the upload handler can run: a dropped [.parquet] file above 75 MB or any
    other dropped file above 150 MB is refused, and so is a file above
    150 MB chosen through the file input. *)
Lemma quick_staging_ceiling (s : HomeState) (file : File) (rest : list File) :
  userRole s <> admin ->
  isRoleLoading s = false ->
  (Js.testExt QUICK_EXTENSIONS (name file) = true ->
   let isParquet := Js.endsWith (Js.toLowerCase (name file)) ".parquet" in
   let maxSizeMb := (if isParquet then 75 else 150)%Q in
   (maxSizeMb < megabytes (size file))%Q ->
   decision (handleQuickDrop s [file])
   = Some (DENY ARTIFACT_TOO_LARGE
             [("limitMB", maxSizeMb); ("actualMB", megabytes (size file))]))
  /\ ((150 < megabytes (size file))%Q ->
      decision (handleQuickFileInput s (file :: rest))
      = Some (DENY ARTIFACT_TOO_LARGE
                [("limitMB", 150%Q); ("actualMB", megabytes (size file))])).
Proof.
  intros Hrole Hloaded. split.
  - intros Hext isParquet maxSizeMb Hlarge. unfold handleQuickDrop. rewrite Hloaded.
    rewrite filter_cons, filter_nil, decide_True by (rewrite Hext; exact I).
    rewrite bool_decide_eq_false_2 by exact Hrole. cbn [negb].
    fold isParquet. fold maxSizeMb. apply gt_spec in Hlarge. rewrite Hlarge. reflexivity.
  - intros Hlarge. unfold handleQuickFileInput. rewrite Hloaded.
    rewrite bool_decide_eq_false_2 by exact Hrole. cbn [negb].
    apply gt_spec in Hlarge. unfold MAX_UPLOAD_SIZE_MB. rewrite Hlarge. reflexivity.
Qed.

End Staging.

(** ** Worked examples *)

(** The manifest of one table of three rows, as [JSON.stringify(manifest,
    null, 2)] lays it out. *)
Example manifest_of_one_table :
  Js.stringify (DuckDb.manifestJson
                  [DuckDb.manifestEntry
                     {| DuckDb.ti_name := "t"; DuckDb.ti_rowCount := 3;
                        DuckDb.ti_columns := [] |}])
  = "{" ++ Js.NL ++
    "  " ++ Js.DQ ++ "tables" ++ Js.DQ ++ ": [" ++ Js.NL ++
    "    {" ++ Js.NL ++
    "      " ++ Js.DQ ++ "name" ++ Js.DQ ++ ": " ++ Js.DQ ++ "t" ++ Js.DQ ++ "," ++ Js.NL ++
    "      " ++ Js.DQ ++ "files" ++ Js.DQ ++ ": [" ++ Js.NL ++
    "        " ++ Js.DQ ++ "t.parquet" ++ Js.DQ ++ Js.NL ++
    "      ]," ++ Js.NL ++
    "      " ++ Js.DQ ++ "rowCount" ++ Js.DQ ++ ": 3" ++ Js.NL ++
    "    }" ++ Js.NL ++
    "  ]," ++ Js.NL ++
    "  " ++ Js.DQ ++ "chunked" ++ Js.DQ ++ ": false" ++ Js.NL ++
    "}".
Proof. vm_compute. reflexivity. Qed.

(** Scenario A of the specification: a three-row file is ingested as [t] by
    a visitor who is not signed in; the estimate is positive and the build
    upload is admitted on the temporary tier. *)
Example scenario_A :
  let visitor := Home.loadUserRole_finish pro Home.initialState in
  let d := snd (@DuckDb.importCSV demoPlatform threeRows "t" emptyDb) in
  tables d !! "t" = Some (demoTable (content threeRows))
  /\ fst (@DuckDb.estimateDatabaseSize demoPlatform d) = inr 19%N
  /\ Home.getEffectiveStorageTier visitor (Home.keepPersistent visitor) = temp
  /\ Home.decision (fst (@Home.handlePushToRemote demoPlatform visitor demoWorld
                           {| db := d; calls := [] |}))
     = Some Home.ALLOW.
Proof. repeat split; vm_compute; reflexivity. Qed.

(** * Further properties of the code *)

(** ** Strings *)

Section MoreStrings.

Lemma append_cons (c : ascii) (a b : string) : String c a ++ b = String c (a ++ b).
Proof. reflexivity. Qed.

Lemma append_nil_r (s : string) : s ++ "" = s.
Proof. induction s as [| c s IH]; [reflexivity | rewrite append_cons, IH; reflexivity]. Qed.

Lemma append_assoc (a b c : string) : (a ++ b) ++ c = a ++ (b ++ c).
Proof.
  induction a as [| x a IH]; [reflexivity | rewrite !append_cons, IH; reflexivity].
Qed.

Lemma substring_all (s : string) : substring 0 (String.length s) s = s.
Proof. induction s as [| c s IH]; simpl; [reflexivity | rewrite IH; reflexivity]. Qed.

Lemma substring_prefix (p q : string) : substring 0 (String.length p) (p ++ q) = p.
Proof.
  induction p as [| c p IH].
  - destruct q; reflexivity.
  - rewrite append_cons. simpl. rewrite IH. reflexivity.
Qed.

Lemma substring_suffix (p q : string) :
  substring (String.length p) (String.length q) (p ++ q) = q.
Proof.
  induction p as [| c p IH]; [apply substring_all | rewrite append_cons; simpl; exact IH].
Qed.

(** A string is its first [n] characters followed by the rest. *)
Lemma substring_split (n : nat) (s : string) :
  (n <= String.length s)%nat ->
  s = substring 0 n s ++ substring n (String.length s - n) s.
Proof.
  revert s. induction n as [| n IH]; intros s Hn.
  - rewrite Nat.sub_0_r, substring_all. destruct s; reflexivity.
  - destruct s as [| c s]; simpl in Hn; [lia |].
    simpl. rewrite append_cons, <- IH by lia. reflexivity.
Qed.

Lemma length_substring (n m : nat) (s : string) :
  (n + m <= String.length s)%nat -> String.length (substring n m s) = m.
Proof.
  revert m s. induction n as [| n IH]; intros m s Hlen.
  - revert s Hlen. induction m as [| m IHm]; intros s Hlen.
    + destruct s; reflexivity.
    + destruct s as [| c s]; simpl in Hlen; [lia |]. simpl. rewrite IHm by lia. reflexivity.
  - destruct s as [| c s]; simpl in Hlen; [lia |]. simpl. apply IH. lia.
Qed.

Lemma length_substring_le (n m : nat) (s : string) :
  (String.length (substring n m s) <= m)%nat.
Proof.
  revert m s. induction n as [| n IH]; intros m s.
  - revert s. induction m as [| m IHm]; intros s.
    + destruct s; simpl; lia.
    + destruct s as [| c s]; simpl; [lia |]. specialize (IHm s). lia.
  - destruct s as [| c s]; simpl; [lia | apply IH].
Qed.

(** [endsWith] finds the suffix exactly when the string ends with it. *)
Lemma endsWith_spec (s suffix : string) :
  Js.endsWith s suffix = true <-> exists p, s = p ++ suffix.
Proof.
  unfold Js.endsWith. split.
  - intros Hends. apply andb_prop in Hends. destruct Hends as [Hle Heq].
    apply Nat.leb_le in Hle. apply String.eqb_eq in Heq.
    exists (substring 0 (String.length s - String.length suffix) s).
    pose proof (substring_split (String.length s - String.length suffix) s) as Hsplit.
    replace (String.length s - (String.length s - String.length suffix))%nat
      with (String.length suffix) in Hsplit by lia.
    rewrite Heq in Hsplit. apply Hsplit. lia.
  - intros [p ->]. rewrite length_append.
    replace (String.length p + String.length suffix - String.length suffix)%nat
      with (String.length p) by lia.
    rewrite substring_suffix, String.eqb_refl.
    apply andb_true_intro. split; [apply Nat.leb_le; lia | reflexivity].
Qed.

Lemma endsWith_false (s suffix : string) :
  Js.endsWith s suffix = false <-> ~ exists p, s = p ++ suffix.
Proof.
  rewrite <- endsWith_spec. destruct (Js.endsWith s suffix); split; intros; congruence.
Qed.

Lemma toLowerCase_append (a b : string) :
  Js.toLowerCase (a ++ b) = Js.toLowerCase a ++ Js.toLowerCase b.
Proof.
  induction a as [| c a IH]; [reflexivity |].
  rewrite append_cons. simpl. rewrite append_cons, IH. reflexivity.
Qed.

Lemma length_toLowerCase (s : string) : String.length (Js.toLowerCase s) = String.length s.
Proof. induction s as [| c s IH]; simpl; [reflexivity | rewrite IH; reflexivity]. Qed.

(** Lower-casing a string splits like the string: if the lower-cased string
    is [a ++ b], the string is [a' ++ b'] with [a'] and [b'] lower-casing to
    [a] and [b]. *)
Lemma toLowerCase_split (s a b : string) :
  Js.toLowerCase s = a ++ b ->
  exists a' b', s = a' ++ b' /\ Js.toLowerCase a' = a /\ Js.toLowerCase b' = b.
Proof.
  revert s. induction a as [| c a IH]; intros s Heq.
  - exists "", s. repeat split. exact Heq.
  - rewrite append_cons in Heq.
    destruct s as [| x s]; [discriminate |]. simpl in Heq. inversion Heq as [[Hc Hrest]].
    destruct (IH s Hrest) as (a' & b' & -> & Ha & Hb).
    exists (String x a'), b'. simpl. rewrite Ha. repeat split. exact Hb.
Qed.

Lemma contains_substring (c : ascii) (n m : nat) (s : string) :
  Js.contains c s = false -> Js.contains c (substring n m s) = false.
Proof.
  revert m s. induction n as [| n IH]; intros m s Hs.
  - revert s Hs. induction m as [| m IHm]; intros s Hs.
    + destruct s; reflexivity.
    + destruct s as [| x s]; [reflexivity |]. simpl in *.
      apply orb_false_elim in Hs. destruct Hs as [Hx Hs]. rewrite Hx. simpl. apply IHm, Hs.
  - destruct s as [| x s]; [reflexivity |]. simpl in *.
    apply orb_false_elim in Hs. destruct Hs as [_ Hs]. apply IH, Hs.
Qed.

End MoreStrings.

(** ** File extensions *)

Section Extensions.

(** Only the dot lower-cases to the dot. *)
Lemma toLowerCase_char_dot (c : ascii) : Js.toLowerCase_char c = "."%char -> c = "."%char.
Proof.
  unfold Js.toLowerCase_char.
  destruct ((65 <=? N_of_ascii c) && (N_of_ascii c <=? 90))%N eqn:Hupper; [| tauto].
  intros Heq. exfalso.
  apply andb_prop in Hupper. destruct Hupper as [Hlo Hhi].
  apply N.leb_le in Hlo. apply N.leb_le in Hhi.
  apply (f_equal N_of_ascii) in Heq. rewrite N_ascii_embedding in Heq by lia.
  cbn in Heq. lia.
Qed.

Lemma contains_toLowerCase_dot (s : string) :
  Js.contains "."%char (Js.toLowerCase s) = false -> Js.contains "."%char s = false.
Proof.
  induction s as [| c s IH]; [reflexivity |]. simpl. intros Hc.
  apply orb_false_elim in Hc. destruct Hc as [Hhead Hrest].
  rewrite (IH Hrest), orb_false_r.
  destruct (Ascii.eqb c ".") eqn:Heq; [| reflexivity].
  apply Ascii.eqb_eq in Heq. subst c. discriminate Hhead.
Qed.

(** A suffix that lower-cases to a dot and an extension is a dot and a
    spelling of the extension. *)
Lemma dotted_suffix (sfx e : string) :
  Js.toLowerCase sfx = "." ++ e ->
  exists e', sfx = "." ++ e' /\ Js.toLowerCase e' = e.
Proof.
  destruct sfx as [| c r]; [discriminate |]. simpl. intros Heq.
  inversion Heq as [[Hc Hr]]. apply toLowerCase_char_dot in Hc. subst c.
  exists r. split; [reflexivity | exact Hr].
Qed.

(** What a match of [/\.(e1|e2|...)$/i] is: the name is a base followed by
    a suffix that spells a dot and one of the extensions. *)
Definition extensionOf (exts : list string) (s base sfx e : string) : Prop :=
  s = base ++ sfx /\ In e exts /\ Js.toLowerCase sfx = "." ++ e.

Lemma endsWith_lower (s e : string) :
  Js.endsWith (Js.toLowerCase s) ("." ++ e) = true ->
  exists base sfx, s = base ++ sfx /\ Js.toLowerCase sfx = "." ++ e
                   /\ substring 0 (String.length s - String.length e - 1) s = base.
Proof.
  intros Hends. apply endsWith_spec in Hends. destruct Hends as [p Hp].
  apply toLowerCase_split in Hp. destruct Hp as (base & sfx & -> & _ & Hsfx).
  exists base, sfx. split; [reflexivity |]. split; [exact Hsfx |].
  assert (String.length sfx = S (String.length e)) as Hlen.
  { rewrite <- (length_toLowerCase sfx), Hsfx. reflexivity. }
  rewrite length_append, Hlen.
  replace (String.length base + S (String.length e) - String.length e - 1)%nat
    with (String.length base) by lia.
  apply substring_prefix.
Qed.

Lemma testExt_hit (exts : list string) (s : string) :
  Js.testExt exts s = true ->
  exists base sfx e,
    extensionOf exts s base sfx e /\ forall repl, Js.replaceExt exts repl s = base ++ repl.
Proof.
  unfold Js.testExt. induction exts as [| e rest IH]; [discriminate |].
  cbn [existsb Js.replaceExt].
  destruct (Js.endsWith (Js.toLowerCase s) ("." ++ e)) eqn:Hends.
  - intros _. destruct (endsWith_lower s e Hends) as (base & sfx & Hs & Hsfx & Hsub).
    exists base, sfx, e. split; [split; [exact Hs | split; [left; reflexivity | exact Hsfx]] |].
    intros repl. rewrite Hsub. reflexivity.
  - cbn [orb]. intros Hrest. destruct (IH Hrest) as (base & sfx & e' & (Hs & Hin & Hsfx) & Hrepl).
    exists base, sfx, e'. split; [split; [exact Hs | split; [right; exact Hin | exact Hsfx]] |].
    exact Hrepl.
Qed.

Lemma testExt_miss (exts : list string) (repl s : string) :
  Js.testExt exts s = false -> Js.replaceExt exts repl s = s.
Proof.
  unfold Js.testExt. induction exts as [| e rest IH]; [reflexivity |].
  cbn [existsb Js.replaceExt]. intros Hnone.
  apply orb_false_elim in Hnone. destruct Hnone as [Hhead Hrest].
  rewrite Hhead. apply IH, Hrest.
Qed.

Lemma substring_skip (a b : string) (j k : nat) :
  substring (String.length a + j) k (a ++ b) = substring j k b.
Proof. induction a as [| c a IH]; [reflexivity | rewrite append_cons; simpl; exact IH]. Qed.

(** A suffix no longer than the end of a string is looked for in that end. *)
Lemma endsWith_append (a b suffix : string) :
  (String.length suffix <= String.length b)%nat ->
  Js.endsWith (a ++ b) suffix = Js.endsWith b suffix.
Proof.
  intros Hlen. unfold Js.endsWith. rewrite length_append.
  replace (String.length a + String.length b - String.length suffix)%nat
    with (String.length a + (String.length b - String.length suffix))%nat by lia.
  rewrite substring_skip.
  replace (String.length suffix <=? String.length a + String.length b)%nat with true
    by (symmetry; apply Nat.leb_le; lia).
  replace (String.length suffix <=? String.length b)%nat with true
    by (symmetry; apply Nat.leb_le; lia).
  reflexivity.
Qed.

End Extensions.

(** ** Names derived from file and table names *)

Section Names.

(** Whether every character of a string passes a test. *)
Fixpoint allChars (p : ascii -> bool) (s : string) : bool :=
  match s with
  | EmptyString => true
  | String c r => p c && allChars p r
  end.

Lemma allChars_substring (p : ascii -> bool) (n m : nat) (s : string) :
  allChars p s = true -> allChars p (substring n m s) = true.
Proof.
  revert m s. induction n as [| n IH]; intros m s Hs.
  - revert s Hs. induction m as [| m IHm]; intros s Hs.
    + destruct s; reflexivity.
    + destruct s as [| c s]; [reflexivity |]. simpl in *.
      apply andb_prop in Hs. destruct Hs as [Hc Hs]. rewrite Hc. apply IHm, Hs.
  - destruct s as [| c s]; [reflexivity |]. simpl in *.
    apply andb_prop in Hs. apply IH, Hs.
Qed.

Lemma allChars_append (p : ascii -> bool) (a b : string) :
  allChars p (a ++ b) = allChars p a && allChars p b.
Proof.
  induction a as [| c a IH]; [reflexivity |].
  rewrite append_cons. simpl. rewrite IH. apply andb_assoc.
Qed.

Lemma allChars_keepAlnum (s : string) : allChars Js.isAlnum (Js.keepAlnum s) = true.
Proof.
  induction s as [| c s IH]; [reflexivity |]. simpl.
  destruct (Js.isAlnum c) eqn:Hc; [simpl; rewrite Hc; exact IH | exact IH].
Qed.

Lemma allChars_underscores (n : nat) : allChars Js.isWordChar (Js.underscores n) = true.
Proof. induction n as [| n IH]; [reflexivity | exact IH]. Qed.

Lemma allChars_sanitize (s : string) : allChars Js.isWordChar (Js.sanitize s) = true.
Proof.
  induction s as [| c s IH]; [reflexivity |]. cbn [Js.sanitize].
  destruct (Js.isWordChar c) eqn:Hc.
  - cbn [allChars]. rewrite Hc. exact IH.
  - rewrite allChars_append, allChars_underscores, IH. reflexivity.
Qed.

(** A string of characters that pass a test holds no character that fails
    it. *)
Lemma allChars_contains (p : ascii -> bool) (c : ascii) (s : string) :
  allChars p s = true -> p c = false -> Js.contains c s = false.
Proof.
  intros Hs Hc. induction s as [| x s IH]; [reflexivity |]. simpl in *.
  apply andb_prop in Hs. destruct Hs as [Hx Hs]. rewrite (IH Hs), orb_false_r.
  destruct (Ascii.eqb x c) eqn:Heq; [| reflexivity].
  apply Ascii.eqb_eq in Heq. congruence.
Qed.

Lemma tableNameFor_clean (file : File) : cleanName (Home.tableNameFor file).
Proof.
  unfold Home.tableNameFor.
  split; apply (allChars_contains Js.isWordChar); try apply allChars_sanitize; reflexivity.
Qed.

End Names.

(** X1: the display name that [generateDbDisplayName] gives an upload is
    never empty, has at most 20 characters, all of them ASCII letters or
    digits, and is either [database] or the first 20 characters of the table
    names joined and stripped of every other character. *)
Theorem generateDbDisplayName_shape (s : Home.HomeState) :
  let dbName := Home.generateDbDisplayName s in
  dbName <> ""
  /\ (String.length dbName <= 20)%nat
  /\ allChars Js.isAlnum dbName = true
  /\ (dbName = "database"
      \/ dbName = substring 0 20 (Js.keepAlnum (String.concat "" (map DuckDb.ti_name (Home.tables s))))).
Proof.
  unfold Home.generateDbDisplayName.
  destruct (length (Home.tables s) =? 0)%nat.
  { cbn. repeat split; [discriminate | lia | left; reflexivity]. }
  set (cleaned := Js.keepAlnum _).
  destruct (String.eqb (substring 0 20 cleaned) "") eqn:Hshort.
  { cbn. repeat split; [discriminate | lia | left; reflexivity]. }
  cbn zeta. apply String.eqb_neq in Hshort.
  split; [exact Hshort |]. split; [apply length_substring_le |].
  split; [apply allChars_substring, allChars_keepAlnum | right; reflexivity].
Qed.

(** ** Conversion and import *)

Section Conversion.
Context `{Platform}.
Import DuckDb.

Definition TEMP_TABLE : string := "_temp_csv_to_parquet_".

(** The file that [convertCsvToParquet] writes. *)
Definition outputFile (file : File) : string :=
  Js.replaceExt CSV_EXTENSIONS "" (name file) ++ ".parquet".

Lemma contains_replaceExt (c : ascii) (exts : list string) (repl s : string) :
  Js.contains c s = false -> Js.contains c repl = false ->
  Js.contains c (Js.replaceExt exts repl s) = false.
Proof.
  intros Hs Hrepl. induction exts as [| e rest IH]; [exact Hs |].
  cbn [Js.replaceExt]. destruct (Js.endsWith _ _); [| exact IH].
  rewrite contains_append, Hrepl, orb_false_r. apply contains_substring, Hs.
Qed.

Lemma outputFile_clean (file : File) :
  Js.contains SQUOTE (name file) = false -> Js.contains SQUOTE (outputFile file) = false.
Proof.
  intros Hname. unfold outputFile.
  rewrite contains_append, contains_replaceExt by (exact Hname || reflexivity). reflexivity.
Qed.

Lemma bind_step {A B} (m : Eng A) (k : A -> Eng B) (d d' : Db) (a : A) :
  m d = (inr a, d') -> EngM.bind m k d = k a d'.
Proof. intros Hm. unfold EngM.bind. rewrite Hm. reflexivity. Qed.

Lemma bind_fail {A B} (m : Eng A) (k : A -> Eng B) (d d' : Db) (e : Js.Error) :
  m d = (inl e, d') -> EngM.bind m k d = (inl e, d').
Proof. intros Hm. unfold EngM.bind. rewrite Hm. reflexivity. Qed.

Lemma createOrReplaceTableAsReadCsv_eq (tableName fileName delim : string) (d : Db) :
  createOrReplaceTableAsReadCsv tableName fileName delim d =
    if String.eqb tableName ""
    then (inl ("Parser Error: zero-length delimited identifier at or near "
               ++ Js.DQ ++ Js.DQ ++ Js.DQ ++ Js.DQ), d)
    else if Js.contains DQUOTE tableName
    then (inl ("Parser Error: syntax error near " ++ tableName), d)
    else if Js.contains SQUOTE fileName
    then (inl ("Parser Error: syntax error near " ++ fileName), d)
    else match files d !! fileName with
         | None => (inl ("IO Error: No files found that match the pattern " ++ fileName), d)
         | Some bytes =>
             match read_csv bytes delim with
             | inl e => (inl e, d)
             | inr t => (inr tt, {| tables := <[tableName := t]> (withoutTable tableName (tables d));
                                    files := files d |})
             end
         end.
Proof.
  unfold createOrReplaceTableAsReadCsv, EngM.bind, spliced, delimited.
  destruct (String.eqb tableName ""); [reflexivity |]. cbn.
  destruct (Js.contains DQUOTE tableName); [reflexivity |]. cbn.
  destruct (Js.contains SQUOTE fileName); reflexivity.
Qed.

Lemma countRows_eq (tableName : string) (d : Db) :
  countRows tableName d =
    if Js.contains DQUOTE tableName
    then (inl ("Parser Error: syntax error near " ++ tableName), d)
    else match tables d !! tableName with
         | None => (inl ("Catalog Error: Table with name " ++ tableName
                         ++ " does not exist!"), d)
         | Some t => (inr (N.of_nat (length (rows t))), d)
         end.
Proof.
  unfold countRows, EngM.bind, spliced.
  destruct (Js.contains DQUOTE tableName); reflexivity.
Qed.

Lemma dropTableIfExists_eq (tableName : string) (d : Db) :
  dropTableIfExists tableName d =
    if Js.contains DQUOTE tableName
    then (inl ("Parser Error: syntax error near " ++ tableName), d)
    else (inr tt, {| tables := withoutTable tableName (tables d); files := files d |}).
Proof.
  unfold dropTableIfExists, EngM.bind, spliced.
  destruct (Js.contains DQUOTE tableName); reflexivity.
Qed.

(** [convertCsvToParquet], step by step. *)
Lemma convertCsvToParquet_eq (file : File) (d : Db) :
  convertCsvToParquet file d =
    let registered := <[name file := content file]> (files d) in
    if Js.contains SQUOTE (name file)
    then (inl ("Parser Error: syntax error near " ++ name file),
          {| tables := tables d; files := registered |})
    else match read_csv (content file) (escapeDelim (delimiterFor file)) with
         | inl e => (inl e, {| tables := tables d; files := registered |})
         | inr t =>
             (inr (to_parquet t, N.of_nat (length (rows t))),
              {| tables := withoutTable TEMP_TABLE (tables d);
                 files := <[outputFile file := to_parquet t]> registered |})
         end.
Proof.
  assert (Hcreate : forall d0,
             createOrReplaceTableAsReadCsv TEMP_TABLE (name file)
               (escapeDelim (delimiterFor file)) d0
             = if Js.contains SQUOTE (name file)
               then (inl ("Parser Error: syntax error near " ++ name file), d0)
               else match files d0 !! name file with
                    | None => (inl ("IO Error: No files found that match the pattern "
                                    ++ name file), d0)
                    | Some bytes =>
                        match read_csv bytes (escapeDelim (delimiterFor file)) with
                        | inl e => (inl e, d0)
                        | inr t => (inr tt,
                                    {| tables := <[TEMP_TABLE := t]>
                                                   (withoutTable TEMP_TABLE (tables d0));
                                       files := files d0 |})
                        end
                    end).
  { intros d0. rewrite createOrReplaceTableAsReadCsv_eq. reflexivity. }
  unfold convertCsvToParquet. fold TEMP_TABLE. fold (outputFile file). cbn zeta.
  rewrite (bind_step (registerFileHandle (name file) (content file)) _ d
             {| tables := tables d; files := <[name file := content file]> (files d) |}
             tt eq_refl).
  destruct (Js.contains SQUOTE (name file)) eqn:Hquote.
  { apply bind_fail. rewrite Hcreate. reflexivity. }
  destruct (read_csv (content file) (escapeDelim (delimiterFor file))) as [e | t] eqn:Hread.
  { apply bind_fail. rewrite Hcreate. cbn [files].
    rewrite lookup_insert_eq, Hread. reflexivity. }
  erewrite bind_step; cycle 1.
  { rewrite Hcreate. cbn [files].
    rewrite lookup_insert_eq, Hread. reflexivity. }
  erewrite bind_step; cycle 1.
  { rewrite countRows_eq. cbn [tables]. rewrite lookup_insert_eq. reflexivity. }
  rewrite copy_then_read. unfold exportOf. cbn [tables files].
  rewrite (outputFile_clean file Hquote), lookup_insert_eq.
  change (Js.contains DQUOTE TEMP_TABLE) with false. cbn iota.
  erewrite bind_step; cycle 1.
  { rewrite dropTableIfExists_eq. reflexivity. }
  unfold EngM.ret. cbn [tables files].
  rewrite withoutTable_created by apply sameName_refl. reflexivity.
Qed.

End Conversion.

(** A session that holds a table named like the temporary table of a
    conversion, in capitals. *)
Definition shadowDb : Db :=
  {| tables := {[ "_TEMP_CSV_TO_PARQUET_" := oneTable; "t" := oneTable ]}; files := ∅ |}.

(** X2: for a file whose name holds no apostrophe: when
    [convertCsvToParquet] succeeds it returns the columnar bytes and the row
    count of the table read from the file; the session has then lost every
    table whose name is [_temp_csv_to_parquet_] in any letter case (a table
    [_TEMP_CSV_TO_PARQUET_] of the session is dropped with the temporary
    one) and holds every other table as before, and its files hold the
    source under its name and the columnar bytes under the name with the
    extension replaced by [.parquet].  When it fails the tables are
    unchanged and only the source was registered.  It succeeds whenever the
    bytes are read as a table. *)
Theorem convertCsvToParquet_outcome `{Platform} (file : File) (d : Db) :
  Js.contains DuckDb.SQUOTE (name file) = false ->
  (forall buffer n d1,
     DuckDb.convertCsvToParquet file d = (inr (buffer, n), d1) ->
     exists t,
       read_csv (content file) (DuckDb.escapeDelim (DuckDb.delimiterFor file)) = inr t
       /\ buffer = to_parquet t
       /\ n = N.of_nat (length (rows t))
       /\ (forall other,
             tables d1 !! other
             = if DuckDb.sameName other TEMP_TABLE then None else tables d !! other)
       /\ files d1 = <[outputFile file := buffer]> (<[name file := content file]> (files d)))
  /\ (forall e d1,
        DuckDb.convertCsvToParquet file d = (inl e, d1) ->
        tables d1 = tables d
        /\ files d1 = <[name file := content file]> (files d))
  /\ (forall t,
        read_csv (content file) (DuckDb.escapeDelim (DuckDb.delimiterFor file)) = inr t ->
        fst (DuckDb.convertCsvToParquet file d) = inr (to_parquet t, N.of_nat (length (rows t)))).
Proof.
  intros Hquote. rewrite convertCsvToParquet_eq. cbn zeta. rewrite Hquote.
  split; [| split].
  - intros buffer n d1.
    destruct (read_csv _ _) as [e | t]; [discriminate |].
    intros Heq. inversion Heq. exists t. cbn [tables files].
    repeat split. intros other. apply lookup_withoutTable.
  - intros e d1.
    destruct (read_csv _ _) as [e' | t]; [| discriminate].
    intros Heq. inversion Heq. split; reflexivity.
  - intros t Hread. rewrite Hread. reflexivity.
Qed.

Lemma convertCsvToParquet_outcome_witness :
  fst (@DuckDb.convertCsvToParquet demoPlatform threeRows shadowDb)
  = inr ("PAR11,a,2,b,3,cPAR1", 3%N)
  /\ tables (snd (@DuckDb.convertCsvToParquet demoPlatform threeRows shadowDb))
       !! "_TEMP_CSV_TO_PARQUET_" = None
  /\ tables (snd (@DuckDb.convertCsvToParquet demoPlatform threeRows shadowDb)) !! "t"
     = Some oneTable.
Proof.
  destruct (@convertCsvToParquet_outcome demoPlatform threeRows shadowDb eq_refl)
    as (Hdone & _ & Hruns).
  pose proof (Hruns (demoTable (content threeRows)) eq_refl) as Hfst.
  split; [exact Hfst |].
  destruct (@DuckDb.convertCsvToParquet demoPlatform threeRows shadowDb)
    as [[e | [buffer n]] d1] eqn:Hrun; [discriminate Hfst |].
  destruct (Hdone buffer n d1 eq_refl) as (t & _ & _ & _ & Htables & _).
  cbn [snd]. rewrite !Htables. split; reflexivity.
Defined.

Section ImportedFiles.
Context `{Platform}.
Import DuckDb.

Lemma importCSV_eq (file : File) (tableName : string) (d : Db) :
  importCSV file tableName d =
    let registered := <[name file := content file]> (files d) in
    if String.eqb tableName ""
    then (inl ("Parser Error: zero-length delimited identifier at or near "
               ++ Js.DQ ++ Js.DQ ++ Js.DQ ++ Js.DQ),
          {| tables := tables d; files := registered |})
    else if Js.contains DQUOTE tableName
    then (inl ("Parser Error: syntax error near " ++ tableName),
          {| tables := tables d; files := registered |})
    else if Js.contains SQUOTE (name file)
    then (inl ("Parser Error: syntax error near " ++ name file),
          {| tables := tables d; files := registered |})
    else match read_csv (content file) (escapeDelim (delimiterFor file)) with
         | inl e => (inl e, {| tables := tables d; files := registered |})
         | inr t => (inr tt, {| tables := <[tableName := t]> (withoutTable tableName (tables d));
                                files := registered |})
         end.
Proof.
  unfold importCSV. cbn zeta.
  rewrite (bind_step (registerFileHandle (name file) (content file)) _ d
             {| tables := tables d; files := <[name file := content file]> (files d) |}
             tt eq_refl).
  rewrite createOrReplaceTableAsReadCsv_eq. cbn [files tables].
  rewrite lookup_insert_eq. reflexivity.
Qed.

(** An ingestion that fails changes no table. *)
Lemma importCSV_failed (file : File) (tableName : string) (d d' : Db) (e : Js.Error) :
  importCSV file tableName d = (inl e, d') -> tables d' = tables d.
Proof.
  rewrite importCSV_eq. cbn zeta.
  destruct (String.eqb tableName ""); [intros Heq; inversion Heq; reflexivity |].
  destruct (Js.contains DQUOTE tableName); [intros Heq; inversion Heq; reflexivity |].
  destruct (Js.contains SQUOTE (name file)); [intros Heq; inversion Heq; reflexivity |].
  destruct (read_csv _ _); [intros Heq; inversion Heq; reflexivity | discriminate].
Qed.

Lemma importAll_cons (file : File) (rest : list File) (d : Db) :
  Home.importAll (file :: rest) d =
    match importCSV file (Home.tableNameFor file) d with
    | (inl e, d') => (inl e, d')
    | (inr _, d') => Home.importAll rest d'
    end.
Proof.
  unfold Home.importAll. cbn [forEach]. unfold EngM.bind at 1.
  destruct (importCSV file (Home.tableNameFor file) d) as [[e | []] d']; reflexivity.
Qed.

Lemma importAll_app (done rest : list File) (d : Db) :
  Home.importAll (done ++ rest) d =
    match Home.importAll done d with
    | (inl e, d') => (inl e, d')
    | (inr _, d') => Home.importAll rest d'
    end.
Proof.
  revert d. induction done as [| f done IH]; intros d; [reflexivity |].
  rewrite <- app_comm_cons, !importAll_cons.
  destruct (importCSV f (Home.tableNameFor f) d) as [[e | []] d']; [reflexivity | apply IH].
Qed.

(** A session has a table for a name when the name resolves to one of its
    tables. *)
Definition resolves (tbs : gmap string Table) (n : string) : Prop :=
  exists k, sameName k n = true /\ is_Some (tbs !! k).

(** An ingestion keeps a table for every name that had one. *)
Lemma importCSV_resolves (file : File) (tableName n : string) (d d1 : Db) :
  importCSV file tableName d = (inr tt, d1) ->
  resolves (tables d) n -> resolves (tables d1) n.
Proof.
  intros Hf (k & Hk & Hsome).
  destruct (importCSV_inv file _ d d1 Hf) as (t & _ & _ & _ & _ & ->). cbn [tables].
  destruct (sameName k tableName) eqn:Hsame.
  - exists tableName. split.
    + rewrite <- (sameName_congr k tableName n Hsame). exact Hk.
    + rewrite lookup_insert_eq. eexists. reflexivity.
  - exists k. split; [exact Hk |].
    rewrite lookup_insert_ne.
    + rewrite lookup_withoutTable, Hsame. exact Hsome.
    + intros ->. rewrite sameName_refl in Hsame. discriminate.
Qed.

(** Ingestions that succeeded leave a table for the name of each of their
    files, and for every name that had one. *)
Lemma importAll_tables (files : list File) (d d1 : Db) :
  Home.importAll files d = (inr tt, d1) ->
  (forall f, In f files -> resolves (tables d1) (Home.tableNameFor f))
  /\ (forall n, resolves (tables d) n -> resolves (tables d1) n).
Proof.
  revert d. induction files as [| f rest IH]; intros d.
  - intros Heq. inversion Heq. split; [intros f [] | tauto].
  - rewrite importAll_cons.
    destruct (importCSV f (Home.tableNameFor f) d) as [[e | []] d'] eqn:Hf; [discriminate |].
    intros Hrest. destruct (IH d' Hrest) as [Hfiles Hkept].
    split.
    + intros g [<- | Hg]; [| apply Hfiles, Hg].
      apply Hkept.
      destruct (importCSV_inv f _ d d' Hf) as (t & _ & _ & _ & _ & ->). cbn [tables].
      exists (Home.tableNameFor f). split; [apply sameName_refl |].
      rewrite lookup_insert_eq. eexists. reflexivity.
    + intros n Hn. apply Hkept. apply (importCSV_resolves f _ n d d' Hf Hn).
Qed.

(** Ingestions keep a table under its name when none of them creates a
    table whose name differs from that name by the case of its letters. *)
Lemma importAll_keeps (files : list File) (d d1 : Db) (k : string) :
  Home.importAll files d = (inr tt, d1) ->
  is_Some (tables d !! k) ->
  (forall g, In g files ->
     sameName (Home.tableNameFor g) k = true -> Home.tableNameFor g = k) ->
  is_Some (tables d1 !! k).
Proof.
  revert d. induction files as [| f rest IH]; intros d.
  - intros Heq Hsome _. inversion Heq. subst. exact Hsome.
  - rewrite importAll_cons.
    destruct (importCSV f (Home.tableNameFor f) d) as [[e | []] d'] eqn:Hf; [discriminate |].
    intros Hrest Hsome Hexact.
    apply (IH d' Hrest); [| intros g Hg; apply Hexact; right; exact Hg].
    destruct (importCSV_inv f _ d d' Hf) as (t & _ & _ & _ & _ & ->). cbn [tables].
    destruct (decide (Home.tableNameFor f = k)) as [<- | Hne].
    + rewrite lookup_insert_eq. eexists. reflexivity.
    + rewrite lookup_insert_ne by exact Hne. rewrite lookup_withoutTable.
      destruct (sameName k (Home.tableNameFor f)) eqn:Hsame; [| exact Hsome].
      exfalso. apply Hne. apply Hexact; [left; reflexivity |].
      rewrite sameName_sym. exact Hsame.
Qed.

(** The names the page gives to tables keep the session clean. *)
Lemma importCSV_cleanNames (file : File) (d : Db) :
  cleanNames d -> cleanNames (snd (importCSV file (Home.tableNameFor file) d)).
Proof.
  intros Hclean. rewrite importCSV_eq. cbn zeta.
  destruct (String.eqb _ ""); [exact Hclean |].
  destruct (Js.contains DQUOTE _); [exact Hclean |].
  destruct (Js.contains SQUOTE _); [exact Hclean |].
  destruct (read_csv _ _) as [e | t]; [exact Hclean |].
  intros n. cbn. destruct (decide (Home.tableNameFor file = n)) as [<- | Hne].
  - intros _. apply tableNameFor_clean.
  - rewrite lookup_insert_ne by exact Hne. rewrite lookup_withoutTable.
    destruct (sameName n _); [intros [t' Habsurd]; discriminate Habsurd |].
    apply Hclean.
Qed.

Lemma importAll_cleanNames (files : list File) (d : Db) :
  cleanNames d -> cleanNames (snd (Home.importAll files d)).
Proof.
  revert d. induction files as [| f rest IH]; intros d Hclean; [exact Hclean |].
  rewrite importAll_cons.
  pose proof (importCSV_cleanNames f d Hclean) as Hstep.
  destruct (importCSV f (Home.tableNameFor f) d) as [[e | []] d']; [exact Hstep |].
  apply IH. exact Hstep.
Qed.

Lemma importFiles_eq (files : list File) (w : World) (sys : Sys) :
  Home.importFiles files w sys =
    match Home.importAll files (db sys) with
    | (inl e, d') => (Home.Caught (Home.ImportFailed e), {| db := d'; calls := calls sys |})
    | (inr _, d') =>
        (Home.Imported match fst (getTables d') with
                  | inr tableList => Some tableList
                  | inl _ => None
                  end,
         {| db := d'; calls := calls sys |})
    end.
Proof.
  unfold Home.importFiles, ActM.bind at 1. rewrite engine_eq.
  destruct (Home.importAll files (db sys)) as [[e | []] d']; cbn [fst snd]; [reflexivity |].
  unfold Home.refreshTables, ActM.bind, ActM.ret. rewrite engine_eq. cbn [db calls].
  rewrite getTables_eq. reflexivity.
Qed.

End ImportedFiles.

(** X3: the file input of the build panel imports the chosen files in order
    and stops at the first one that fails: the outcome is the failure of that
    file, the failed import leaves the tables as the files before it made
    them, those files stay imported, and the files after it are not read.
    The session has a table that the table name of each imported file
    resolves to, names being resolved without regard to the case of their
    letters; it is a table of that very name unless a later one of these
    files has a table name that differs from it by the case of its
    letters. *)
Theorem import_stops_at_first_failure `{Platform}
    (s : Home.HomeState) (done rest : list File) (bad : File) (e : Js.Error)
    (d1 d2 : Db) (w : World) (sys : Sys) :
  Home.isRoleLoading s = false ->
  Home.importAll done (db sys) = (inr tt, d1) ->
  DuckDb.importCSV bad (Home.tableNameFor bad) d1 = (inl e, d2) ->
  Home.handleBuildFileInput s (done ++ bad :: rest) w sys
  = (Home.Caught (Home.ImportFailed e), {| db := d2; calls := calls sys |})
  /\ tables d2 = tables d1
  /\ (forall f, In f done ->
        exists n, DuckDb.sameName n (Home.tableNameFor f) = true
                  /\ is_Some (tables d2 !! n))
  /\ (forall before f later,
        done = (before ++ f :: later)%list ->
        (forall g, In g later ->
           DuckDb.sameName (Home.tableNameFor g) (Home.tableNameFor f) = true ->
           Home.tableNameFor g = Home.tableNameFor f) ->
        is_Some (tables d2 !! Home.tableNameFor f)).
Proof.
  intros Hloaded Hdone Hbad.
  pose proof (importCSV_failed bad _ d1 d2 e Hbad) as Hsame.
  split; [| split; [exact Hsame | split]].
  - unfold Home.handleBuildFileInput. rewrite Hloaded.
    destruct (done ++ bad :: rest)%list as [| f l] eqn:Hlist.
    { apply app_eq_nil in Hlist. destruct Hlist as [_ Habsurd]. discriminate Habsurd. }
    cbn [length Nat.eqb]. rewrite <- Hlist.
    rewrite importFiles_eq, importAll_app, Hdone, importAll_cons, Hbad. reflexivity.
  - intros f Hf. rewrite Hsame. apply (proj1 (importAll_tables done (db sys) d1 Hdone) f Hf).
  - intros before f later -> Hexact. rewrite Hsame.
    rewrite importAll_app in Hdone.
    destruct (Home.importAll before (db sys)) as [[e0 | []] d0] eqn:Hbefore;
      [discriminate Hdone |].
    rewrite importAll_cons in Hdone.
    destruct (DuckDb.importCSV f (Home.tableNameFor f) d0) as [[e0 | []] d0'] eqn:Hf;
      [discriminate Hdone |].
    apply (importAll_keeps later d0' d1 _ Hdone); [| exact Hexact].
    destruct (importCSV_inv f _ d0 d0' Hf) as (t & _ & _ & _ & _ & ->). cbn [tables].
    rewrite lookup_insert_eq. eexists. reflexivity.
Qed.

Lemma import_stops_at_first_failure_witness :
  fst (@Home.handleBuildFileInput demoPlatform proState
         [threeRows; {| name := "empty.csv"; content := "" |}; tiedFile] demoWorld idleSys)
  = Home.Caught (Home.ImportFailed "empty input")
  /\ is_Some (tables (db (snd (@Home.handleBuildFileInput demoPlatform proState
                 [threeRows; {| name := "empty.csv"; content := "" |}; tiedFile]
                 demoWorld idleSys))) !! "t").
Proof.
  destruct (@import_stops_at_first_failure demoPlatform proState [threeRows] [tiedFile]
              {| name := "empty.csv"; content := "" |} "empty input"
              (snd (@Home.importAll demoPlatform [threeRows] emptyDb))
              (snd (@DuckDb.importCSV demoPlatform {| name := "empty.csv"; content := "" |}
                      "empty" (snd (@Home.importAll demoPlatform [threeRows] emptyDb))))
              demoWorld idleSys) as (Hout & _ & _ & Hkept).
  - reflexivity.
  - vm_compute. reflexivity.
  - vm_compute. reflexivity.
  - split.
    + change ([threeRows; {| name := "empty.csv"; content := "" |}; tiedFile])
        with ([threeRows] ++ {| name := "empty.csv"; content := "" |} :: [tiedFile])%list.
      rewrite Hout. reflexivity.
    + change ([threeRows; {| name := "empty.csv"; content := "" |}; tiedFile])
        with ([threeRows] ++ {| name := "empty.csv"; content := "" |} :: [tiedFile])%list.
      rewrite Hout. cbn [snd db].
      apply (Hkept [] threeRows []); [reflexivity | intros g []].
Defined.

(** ** The catalogue after an import *)

Section CatalogOrder.
Import DuckDb.

#[local] Instance name_le_total : Total name_le.
Proof.
  intros a b. unfold name_le.
  destruct (String.leb_total a b) as [Hab | Hba]; [left; rewrite Hab | right; rewrite Hba];
    exact I.
Qed.

Lemma tableNames_NoDup (d : Db) : NoDup (tableNames d).
Proof.
  unfold tableNames. rewrite merge_sort_Permutation. apply NoDup_fst_map_to_list.
Qed.

Lemma tableNames_length (d : Db) : length (tableNames d) = base.size (tables d).
Proof.
  unfold tableNames. rewrite merge_sort_Permutation, length_map. apply length_map_to_list.
Qed.

Lemma tableNames_Sorted (d : Db) : Sorted name_le (tableNames d).
Proof. unfold tableNames. apply Sorted_merge_sort. exact name_le_total. Qed.

Lemma infoOf_names (tbs : gmap string Table) (names : list string) :
  map ti_name (map (infoOf tbs) names) = names.
Proof. induction names as [| n rest IH]; [reflexivity | cbn; rewrite IH; reflexivity]. Qed.

End CatalogOrder.

(** X4: in a session whose table names hold no quote, [getTables] succeeds
    without changing the session and lists every table exactly once, in the
    byte order of the names, each with its number of rows and its columns. *)
Theorem getTables_lists_every_table (d : Db) :
  cleanNames d ->
  exists tableList,
    DuckDb.getTables d = (inr tableList, d)
    /\ length tableList = base.size (tables d)
    /\ NoDup (map DuckDb.ti_name tableList)
    /\ Sorted DuckDb.name_le (map DuckDb.ti_name tableList)
    /\ (forall n t, tables d !! n = Some t ->
          {| DuckDb.ti_name := n;
             DuckDb.ti_rowCount := N.of_nat (length (rows t));
             DuckDb.ti_columns := columns t |} ∈ tableList)
    /\ (forall info, info ∈ tableList ->
          exists t, tables d !! DuckDb.ti_name info = Some t
                    /\ DuckDb.ti_rowCount info = N.of_nat (length (rows t))
                    /\ DuckDb.ti_columns info = columns t).
Proof.
  intros Hclean. exists (map (infoOf (tables d)) (DuckDb.tableNames d)).
  split; [apply getTables_clean, Hclean |].
  split; [rewrite length_map; apply tableNames_length |].
  rewrite infoOf_names.
  split; [apply tableNames_NoDup |]. split; [apply tableNames_Sorted |].
  split.
  - intros n t Hn. apply list_elem_of_fmap. exists n. split.
    + unfold infoOf. rewrite Hn. reflexivity.
    + apply tableNames_spec. eexists. exact Hn.
  - intros info Hin. apply list_elem_of_fmap in Hin. destruct Hin as (n & -> & Hn).
    apply tableNames_spec in Hn. destruct Hn as [t Ht].
    exists t. unfold infoOf. cbn. rewrite Ht. repeat split. 
Qed.

Lemma getTables_lists_every_table_witness :
  exists tableList,
    DuckDb.getTables oneTableDb = (inr tableList, oneTableDb) /\ length tableList = 1%nat.
Proof.
  destruct (getTables_lists_every_table oneTableDb oneTableDb_clean)
    as (tableList & Hget & Hlen & _).
  exists tableList. split; [exact Hget |]. rewrite Hlen. reflexivity.
Defined.

(** X5: every table name that the page derives from a file name is free of
    quotes, so dropping or choosing files on the build panel keeps the table
    names of the session free of quotes; the table list that a successful
    import shows is never missing and is what [getTables] answers on the
    resulting session. *)
Theorem page_imports_are_listed `{Platform}
    (s : Home.HomeState) (files : list File) (w : World) (sys : Sys) :
  cleanNames (db sys) ->
  (forall out, out = Home.handleBuildDrop s files w sys
               \/ out = Home.handleBuildFileInput s files w sys ->
     cleanNames (db (snd out))
     /\ fst out <> Home.Imported None
     /\ (forall tableList, fst out = Home.Imported (Some tableList) ->
           DuckDb.getTables (db (snd out)) = (inr tableList, db (snd out))))
  /\ (forall file, cleanName (Home.tableNameFor file)).
Proof.
  intros Hclean. split; [| apply tableNameFor_clean].
  assert (forall l,
            cleanNames (db (snd (Home.importFiles l w sys)))
            /\ fst (Home.importFiles l w sys) <> Home.Imported None
            /\ (forall tableList,
                  fst (Home.importFiles l w sys) = Home.Imported (Some tableList) ->
                  DuckDb.getTables (db (snd (Home.importFiles l w sys)))
                  = (inr tableList, db (snd (Home.importFiles l w sys))))) as Himport.
  { intros l. rewrite importFiles_eq.
    pose proof (importAll_cleanNames l (db sys) Hclean) as Hafter.
    destruct (Home.importAll l (db sys)) as [[e | []] d']; cbn [fst snd db] in *.
    - split; [exact Hafter |]. split; [discriminate |]. discriminate.
    - split; [exact Hafter |]. rewrite (getTables_clean d' Hafter). cbn [fst].
      split; [discriminate |]. intros tableList Heq. inversion Heq. reflexivity. }
  intros out [-> | ->].
  - unfold Home.handleBuildDrop.
    destruct (Home.isRoleLoading s).
    { cbn. split; [exact Hclean |]. split; discriminate. }
    destruct (length _ =? 0)%nat.
    { cbn. split; [exact Hclean |]. split; discriminate. }
    apply Himport.
  - unfold Home.handleBuildFileInput.
    destruct (length files =? 0)%nat.
    { cbn. split; [exact Hclean |]. split; discriminate. }
    destruct (Home.isRoleLoading s).
    { cbn. split; [exact Hclean |]. split; discriminate. }
    apply Himport.
Qed.

Lemma emptyDb_clean : cleanNames emptyDb.
Proof. intros n [t Ht]. cbn in Ht. rewrite lookup_empty in Ht. discriminate Ht. Defined.

Lemma page_imports_are_listed_witness :
  fst (@Home.handleBuildDrop demoPlatform proState [threeRows] demoWorld idleSys)
  <> Home.Imported None.
Proof.
  apply (proj1 (@page_imports_are_listed demoPlatform proState [threeRows] demoWorld idleSys
                  emptyDb_clean) _ (or_introl eq_refl)).
Defined.

(** X6: two files whose names give table names that differ at most by the
    case of their letters share one table.  For file names that hold no
    apostrophe: after importing both, the session has one table for that
    name, under the table name of the second file and holding what was read
    from the second file; every other table is as it was. *)
Theorem same_table_name_replaces `{Platform} (first second : File) (d d2 : Db) :
  DuckDb.sameName (Home.tableNameFor first) (Home.tableNameFor second) = true ->
  Js.contains DuckDb.SQUOTE (name first) = false ->
  Js.contains DuckDb.SQUOTE (name second) = false ->
  Home.importAll [first; second] d = (inr tt, d2) ->
  exists t,
    read_csv (content second) (DuckDb.escapeDelim (DuckDb.delimiterFor second)) = inr t
    /\ tables d2 !! Home.tableNameFor second = Some t
    /\ (forall other,
          other <> Home.tableNameFor second ->
          tables d2 !! other
          = if DuckDb.sameName other (Home.tableNameFor second) then None
            else tables d !! other).
Proof.
  intros Hsame _ _. rewrite importAll_cons.
  destruct (DuckDb.importCSV first (Home.tableNameFor first) d) as [[e | []] d1] eqn:Hfirst;
    [intros Heq; discriminate Heq |].
  rewrite importAll_cons.
  destruct (DuckDb.importCSV second (Home.tableNameFor second) d1) as [[e | []] d2'] eqn:Hsecond;
    [intros Heq; discriminate Heq |].
  change (Home.importAll [] d2') with (@inr Js.Error unit tt, d2').
  intros Heq. inversion Heq. subst d2'. clear Heq.
  destruct (importCSV_inv first _ d d1 Hfirst) as (t1 & _ & _ & _ & _ & ->).
  destruct (importCSV_inv second _ _ d2 Hsecond) as (t2 & Hread & _ & _ & _ & ->).
  exists t2. split; [exact Hread |]. cbn [tables].
  rewrite (withoutTable_created _ _ t1 (tables d) Hsame).
  split; [apply lookup_insert_eq |].
  intros other Hne. rewrite lookup_insert_ne by congruence. apply lookup_withoutTable.
Qed.

Lemma same_table_name_replaces_witness :
  exists t,
    tables (snd (@Home.importAll demoPlatform
                   [{| name := "Q1-Sales.csv"; content := content threeRows |};
                    {| name := "q1 sales.tsv"; content := "id" ++ Js.NL ++ "9" |}] emptyDb))
      !! "q1_sales" = Some t
    /\ tables (snd (@Home.importAll demoPlatform
                      [{| name := "Q1-Sales.csv"; content := content threeRows |};
                       {| name := "q1 sales.tsv"; content := "id" ++ Js.NL ++ "9" |}] emptyDb))
         !! "Q1_Sales" = None
    /\ length (rows t) = 1%nat.
Proof.
  destruct (@same_table_name_replaces demoPlatform
              {| name := "Q1-Sales.csv"; content := content threeRows |}
              {| name := "q1 sales.tsv"; content := "id" ++ Js.NL ++ "9" |} emptyDb
              (snd (@Home.importAll demoPlatform
                      [{| name := "Q1-Sales.csv"; content := content threeRows |};
                       {| name := "q1 sales.tsv"; content := "id" ++ Js.NL ++ "9" |}] emptyDb))
              eq_refl eq_refl eq_refl)
    as (t & Hread & Htable & Hothers).
  - vm_compute. reflexivity.
  - exists t. split; [exact Htable |].
    split; [rewrite (Hothers "Q1_Sales") by discriminate; reflexivity |].
    vm_compute in Hread. inversion Hread. reflexivity.
Defined.

(** ** The members of a bundle *)

Section BundleMembers.
Context `{Platform}.
Import DuckDb.

(** What [getTables] answered when it answered. *)
Lemma collectInfo_inv (tbs : gmap string Table) (names : list string)
    (acc tableList : list TableInfo) :
  collectInfo tbs names acc = inr tableList ->
  tableList = (acc ++ map (infoOf tbs) names)%list
  /\ forall n, n ∈ names -> is_Some (tbs !! n) /\ cleanName n.
Proof.
  revert acc. induction names as [| n rest IH]; intros acc; cbn [collectInfo map].
  - intros Heq. inversion Heq. rewrite app_nil_r. split; [reflexivity |].
    intros n Hn. apply elem_of_nil in Hn. contradiction.
  - unfold tableInfoOf.
    destruct (Js.contains DQUOTE n) eqn:Hdq; [discriminate |].
    destruct (tbs !! n) as [t |] eqn:Ht; [| discriminate].
    destruct (Js.contains SQUOTE n) eqn:Hsq; [discriminate |].
    intros Hrest. destruct (IH _ Hrest) as [-> Hall].
    split.
    + rewrite <- app_assoc. cbn [app]. f_equal. f_equal. unfold infoOf. rewrite Ht. reflexivity.
    + intros m Hm. apply elem_of_cons in Hm. destruct Hm as [-> | Hm]; [| apply Hall, Hm].
      split; [eexists; exact Ht | split; assumption].
Qed.

(** The bytes of the columnar export of a table. *)
Definition exportedBytes (tbs : gmap string Table) (n : string) : string :=
  match tbs !! n with
  | Some t => to_parquet t
  | None => ""
  end.

Definition parquetMember (tbs : gmap string Table) (n : string) : string * string :=
  (n ++ ".parquet", exportedBytes tbs n).

Lemma zipFile_fresh (member data : string) (zip : Js.JSZip) :
  Js.zipMember member zip = None ->
  Js.zipFile member data zip = (zip ++ [(member, data)])%list.
Proof.
  induction zip as [| [m d] rest IH]; cbn; [reflexivity |].
  destruct (String.eqb m member); [discriminate |].
  intros Hrest. rewrite (IH Hrest). reflexivity.
Qed.

Lemma zipMember_app (member : string) (a b : Js.JSZip) :
  Js.zipMember member (a ++ b)%list
  = match Js.zipMember member a with
    | Some data => Some data
    | None => Js.zipMember member b
    end.
Proof.
  induction a as [| [m d] rest IH]; cbn; [reflexivity |].
  destruct (String.eqb m member); [reflexivity | exact IH].
Qed.

Lemma zipMember_parquets_other (tbs : gmap string Table) (names : list string)
    (member : string) :
  (forall n, n ∈ names -> member <> n ++ ".parquet") ->
  Js.zipMember member (map (parquetMember tbs) names) = None.
Proof.
  induction names as [| n rest IH]; intros Hother; cbn; [reflexivity |].
  destruct (String.eqb (n ++ ".parquet") member) eqn:Heq.
  - apply String.eqb_eq in Heq. exfalso. apply (Hother n); [left | symmetry; exact Heq].
  - apply IH. intros m Hm. apply Hother. right. exact Hm.
Qed.

Lemma zipMember_parquets (tbs : gmap string Table) (names : list string) (n : string) :
  n ∈ names ->
  Js.zipMember (n ++ ".parquet") (map (parquetMember tbs) names) = Some (exportedBytes tbs n).
Proof.
  induction names as [| m rest IH]; intros Hn; [apply elem_of_nil in Hn; contradiction |].
  cbn. destruct (String.eqb (m ++ ".parquet") (n ++ ".parquet")) eqn:Heq.
  - apply String.eqb_eq, (append_suffix_inj ".parquet") in Heq. subst m. reflexivity.
  - apply elem_of_cons in Hn. destruct Hn as [-> | Hn]; [| apply IH, Hn].
    rewrite String.eqb_refl in Heq. discriminate Heq.
Qed.

(** The text members are no columnar member. *)
Lemma text_member_not_parquet (member n : string) :
  Js.endsWith member ".parquet" = false -> member <> n ++ ".parquet".
Proof.
  intros Hends Heq. apply endsWith_false in Hends. apply Hends. exists n. exact Heq.
Qed.

(** The columnar members written by the loop of an export. *)
Lemma bundleOf_parquets (tbs : gmap string Table) (names : list string)
    (zm : Js.JSZip * list Js.Json) :
  (forall n, n ∈ names -> is_Some (tbs !! n) /\ cleanName n) ->
  NoDup names ->
  (forall n, n ∈ names -> Js.zipMember (n ++ ".parquet") (fst zm) = None) ->
  bundleOf tbs (map (infoOf tbs) names) zm
  = inr ((fst zm ++ map (parquetMember tbs) names)%list,
         (snd zm ++ map manifestEntry (map (infoOf tbs) names))%list).
Proof.
  revert zm. induction names as [| n rest IH]; intros zm Hall Hnodup Hfresh.
  - cbn. rewrite !app_nil_r. destruct zm; reflexivity.
  - cbn [map bundleOf]. destruct (Hall n) as ([t Ht] & Hdq & Hsq); [left |].
    unfold exportOf. cbn [infoOf ti_name]. rewrite Hdq.
    rewrite contains_append, Hsq.
    change (Js.contains SQUOTE ".parquet") with false. cbn [orb]. rewrite Ht.
    apply NoDup_cons in Hnodup. destruct Hnodup as [Hnotin Hnodup].
    rewrite IH; cbn [fst snd].
    + rewrite (zipFile_fresh _ _ (fst zm)) by (apply Hfresh; left).
      rewrite <- !app_assoc. cbn [app]. unfold parquetMember at 2, exportedBytes.
      rewrite Ht.
      assert (infoOf tbs n = {| ti_name := n; ti_rowCount := N.of_nat (length (rows t));
                                ti_columns := columns t |}) as ->
        by (unfold infoOf; rewrite Ht; reflexivity).
      reflexivity.
    + intros m Hm. apply Hall. right. exact Hm.
    + exact Hnodup.
    + intros m Hm. rewrite (zipFile_fresh _ _ (fst zm)) by (apply Hfresh; left).
      rewrite zipMember_app, (Hfresh m) by (right; exact Hm). cbn.
      destruct (String.eqb (n ++ ".parquet") (m ++ ".parquet")) eqn:Heq; [| reflexivity].
      apply String.eqb_eq, (append_suffix_inj ".parquet") in Heq. subst m. contradiction.
Qed.

(** The members of a bundle, in the order they were written. *)
Definition bundleMembers (tbs : gmap string Table) (names : list string) : Js.JSZip :=
  (map (parquetMember tbs) names
   ++ [("manifest.json", manifestText (map (infoOf tbs) names));
       ("schema.sql", schemaText (map (infoOf tbs) names));
       ("README.md", PushToRemote.readme (map (infoOf tbs) names))])%list.

Lemma zipBundle_exact (d d1 : Db) (zip : Js.JSZip) :
  PushToRemote.zipBundle d = (inr zip, d1) ->
  cleanNames d /\ tableNames d <> [] /\ zip = bundleMembers (tables d) (tableNames d).
Proof.
  rewrite zipBundle_eq.
  destruct (collectInfo (tables d) (tableNames d) []) as [e | ts] eqn:Hinfo; [discriminate |].
  apply collectInfo_inv in Hinfo. cbn [app] in Hinfo. destruct Hinfo as [-> Hall].
  destruct (length _ =? 0)%nat eqn:Hlen; [discriminate |].
  pose proof (proj1 (bundle_loop (map (infoOf (tables d)) (tableNames d)) ([], []) d)) as Hloop.
  rewrite bundleOf_parquets in Hloop; try assumption; cycle 1.
  { apply tableNames_NoDup. }
  { reflexivity. }
  cbn [fst snd app] in Hloop.
  destruct (forEach bundleStep _ ([], []) d) as [[e | zm] d'] eqn:Hrun; [discriminate |].
  cbn [fst] in Hloop. inversion Hloop. subst zm. clear Hloop.
  intros Heq. inversion Heq. clear Heq. cbn [fst snd].
  split; [| split].
  - intros n Hn. apply Hall, tableNames_spec, Hn.
  - intros Hnil. rewrite Hnil in Hlen. discriminate Hlen.
  - rewrite pushed_statements. cbn [app]. unfold bundleMembers, manifestText, schemaText.
    assert (forall member,
              Js.endsWith member ".parquet" = false ->
              Js.zipMember member (map (parquetMember (tables d)) (tableNames d)) = None)
      as Htext.
    { intros member Hends. apply zipMember_parquets_other.
      intros n _. apply text_member_not_parquet, Hends. }
    rewrite (zipFile_fresh "manifest.json") by (apply Htext; reflexivity).
    rewrite (zipFile_fresh "schema.sql")
      by (rewrite zipMember_app, Htext by reflexivity; reflexivity).
    rewrite (zipFile_fresh "README.md")
      by (rewrite !zipMember_app, Htext by reflexivity; reflexivity).
    rewrite <- !app_assoc. reflexivity.
Qed.

End BundleMembers.

Section BundleRuns.
Context `{Platform}.
Import DuckDb.

Lemma zipBundle_runs (d : Db) :
  cleanNames d -> tableNames d <> [] ->
  fst (PushToRemote.zipBundle d) = inr (bundleMembers (tables d) (tableNames d)).
Proof.
  intros Hclean Hsome.
  assert (forall n, n ∈ tableNames d -> is_Some (tables d !! n) /\ cleanName n) as Hall.
  { intros n Hn. apply tableNames_spec in Hn. split; [exact Hn | apply Hclean, Hn]. }
  destruct (PushToRemote.zipBundle d) as [[e | zip] d1] eqn:Hrun.
  - exfalso. revert Hrun. rewrite zipBundle_eq, (collectInfo_clean _ _ _ Hall). cbn [app].
    rewrite length_map.
    destruct (length (tableNames d) =? 0)%nat eqn:Hlen.
    { apply Nat.eqb_eq, nil_length_inv in Hlen. contradiction. }
    pose proof (proj1 (bundle_loop (map (infoOf (tables d)) (tableNames d)) ([], []) d))
      as Hloop.
    rewrite bundleOf_parquets in Hloop;
      [| exact Hall | apply tableNames_NoDup | reflexivity].
    destruct (forEach bundleStep _ ([], []) d) as [[e' | zm] d'];
      [discriminate Hloop | discriminate].
  - cbn [fst]. f_equal. apply (zipBundle_exact d d1 zip Hrun).
Qed.

(** The body of the loop of [exportToDuckDB]. *)
Definition duckStep (zip : Js.JSZip) (table : TableInfo) : Eng Js.JSZip :=
  EngM.bind (copyToParquet (ti_name table) (ti_name table ++ ".parquet"))
    (fun _ => EngM.bind (copyFileToBuffer (ti_name table ++ ".parquet"))
                (fun buffer =>
                   EngM.ret (Js.zipFile (ti_name table ++ ".parquet") buffer zip))).

(** The loops of the two exports write the same members and the same
    files. *)
Lemma duck_loop (l : list TableInfo) (zip : Js.JSZip) (acc : list Js.Json) (d : Db) :
  forEach duckStep l zip d
  = match forEach bundleStep l (zip, acc) d with
    | (inl e, d') => (inl e, d')
    | (inr zm, d') => (inr (fst zm), d')
    end.
Proof.
  revert zip acc d. induction l as [| t rest IH]; intros zip acc d; [reflexivity |].
  assert (forall (zm : Js.JSZip * list Js.Json),
            forEach bundleStep (t :: rest) zm d
            = match exportOf (tables d) (ti_name t) (ti_name t ++ ".parquet") with
              | inl e => (inl e, d)
              | inr bytes =>
                  forEach bundleStep rest
                    (Js.zipFile (ti_name t ++ ".parquet") bytes (fst zm),
                     (snd zm ++ [manifestEntry t])%list)
                    {| tables := tables d;
                       files := <[ti_name t ++ ".parquet" := bytes]> (files d) |}
              end) as Hbundle.
  { intros zm. cbn [forEach]. unfold EngM.bind at 1. unfold bundleStep at 1.
    rewrite copy_then_read.
    destruct (exportOf (tables d) (ti_name t) (ti_name t ++ ".parquet")); reflexivity. }
  rewrite Hbundle. cbn [forEach]. unfold EngM.bind at 1. unfold duckStep at 1.
  rewrite copy_then_read.
  destruct (exportOf (tables d) (ti_name t) (ti_name t ++ ".parquet")) as [e | bytes];
    [reflexivity |].
  unfold EngM.ret at 1. cbn [fst snd]. apply IH.
Qed.

Lemma duckDbZip_eq (d : Db) :
  duckDbZip d =
    match collectInfo (tables d) (tableNames d) [] with
    | inl e => (inl e, d)
    | inr ts =>
        if (length ts =? 0)%nat then (inl "No tables to export", d)
        else match forEach bundleStep ts ([], []) d with
             | (inl e, d') => (inl e, d')
             | (inr zm, d') =>
                 (inr (Js.zipFile "schema.sql" (schemaText ts)
                         (Js.zipFile "manifest.json" (manifestText ts) (fst zm))), d')
             end
    end.
Proof.
  unfold duckDbZip, EngM.bind at 1. rewrite getTables_eq.
  destruct (collectInfo (tables d) (tableNames d) []) as [e | ts]; [reflexivity |].
  destruct (length ts =? 0)%nat; [reflexivity |].
  unfold EngM.bind at 1. fold duckStep. rewrite (duck_loop ts [] [] d).
  set (run := forEach bundleStep ts ([], []) d).
  change (forEach bundleStep ts ([], []) d) with run.
  destruct run as [[e | zm'] d']; reflexivity.
Qed.

End BundleRuns.

(** X7: the bundle that [exportAsZipBundle] compresses holds, in this order,
    one member [<table>.parquet] per table in the byte order of the table
    names, then [manifest.json], [schema.sql] and [README.md]: as many members
    as tables plus 3, the member of a table holding its columnar bytes.  With
    table names free of quotes and at least one table the bundle is built. *)
Theorem bundle_members `{Platform} (d : Db) :
  (cleanNames d -> DuckDb.tableNames d <> [] ->
   fst (PushToRemote.zipBundle d) = inr (bundleMembers (tables d) (DuckDb.tableNames d)))
  /\ (forall zip d1,
        PushToRemote.zipBundle d = (inr zip, d1) ->
        zip = bundleMembers (tables d) (DuckDb.tableNames d)
        /\ length zip = (base.size (tables d) + 3)%nat
        /\ (forall n t, tables d !! n = Some t ->
              Js.zipMember (n ++ ".parquet") zip = Some (to_parquet t))).
Proof.
  split; [apply zipBundle_runs |].
  intros zip d1 Hrun. destruct (zipBundle_exact d d1 zip Hrun) as (_ & _ & ->).
  split; [reflexivity |]. split.
  - unfold bundleMembers. rewrite length_app, length_map, tableNames_length. reflexivity.
  - intros n t Hn. unfold bundleMembers. rewrite zipMember_app, zipMember_parquets.
    + unfold exportedBytes. rewrite Hn. reflexivity.
    + apply tableNames_spec. eexists. exact Hn.
Qed.

Lemma bundle_members_witness :
  fst (@PushToRemote.zipBundle demoPlatform oneTableDb)
  = inr [("t.parquet", "PAR11,a,2,bPAR1");
         ("manifest.json", manifestText (map (infoOf (tables oneTableDb)) ["t"]));
         ("schema.sql", schemaText (map (infoOf (tables oneTableDb)) ["t"]));
         ("README.md", @PushToRemote.readme demoPlatform (map (infoOf (tables oneTableDb)) ["t"]))].
Proof.
  rewrite (proj1 (@bundle_members demoPlatform oneTableDb) oneTableDb_clean).
  - vm_compute. reflexivity.
  - vm_compute. discriminate.
Defined.

(** X8: [exportToDuckDB] builds the archive of [exportAsZipBundle] without
    [README.md]: the two leave the session in the same state, fail with the
    same error, and the bundle is the archive of [exportToDuckDB] with the
    member [README.md] added. *)
Theorem exportToDuckDB_is_bundle_without_readme `{Platform} (d : Db) :
  snd (DuckDb.duckDbZip d) = snd (PushToRemote.zipBundle d)
  /\ (forall e, fst (DuckDb.duckDbZip d) = inl e <-> fst (PushToRemote.zipBundle d) = inl e)
  /\ (forall zip,
        fst (DuckDb.duckDbZip d) = inr zip ->
        exists tableList,
          DuckDb.getTables d = (inr tableList, d)
          /\ fst (PushToRemote.zipBundle d)
             = inr (Js.zipFile "README.md" (PushToRemote.readme tableList) zip)
          /\ fst (DuckDb.exportToDuckDB d) = inr (zip_generate zip)).
Proof.
  unfold DuckDb.exportToDuckDB, EngM.bind.
  rewrite duckDbZip_eq, zipBundle_eq, getTables_eq.
  destruct (collectInfo (tables d) (DuckDb.tableNames d) []) as [e | ts].
  { cbn. split; [reflexivity |]. split; [tauto | discriminate]. }
  destruct (length ts =? 0)%nat.
  { cbn. split; [reflexivity |]. split; [tauto | discriminate]. }
  pose proof (proj1 (bundle_loop ts ([], []) d)) as Hloop.
  destruct (forEach bundleStep ts ([], []) d) as [[e | zm] d'].
  { cbn. split; [reflexivity |]. split; [tauto | discriminate]. }
  cbn [fst snd] in *. split; [reflexivity |]. split; [split; discriminate |].
  intros zip Heq. inversion Heq. subst zip. clear Heq.
  exists ts. split; [reflexivity |].
  symmetry in Hloop. apply bundleOf_entries in Hloop. cbn [snd app] in Hloop.
  rewrite pushed_statements, Hloop. cbn [app]. split; reflexivity.
Qed.

Lemma exportToDuckDB_is_bundle_without_readme_witness :
  exists zip tableList,
    fst (@DuckDb.duckDbZip demoPlatform oneTableDb) = inr zip
    /\ fst (@PushToRemote.zipBundle demoPlatform oneTableDb)
       = inr (Js.zipFile "README.md" (@PushToRemote.readme demoPlatform tableList) zip).
Proof.
  destruct (fst (@DuckDb.duckDbZip demoPlatform oneTableDb)) as [e | zip] eqn:Hrun;
    [vm_compute in Hrun; discriminate |].
  destruct (proj2 (proj2 (@exportToDuckDB_is_bundle_without_readme demoPlatform oneTableDb))
              zip Hrun) as (tableList & _ & Hbundle & _).
  exists zip, tableList. split; [reflexivity | exact Hbundle].
Defined.

(** X9: with no table in the session, [pushToRemote] resolves to the failure
    [No tables to export] after the export alone (no token is requested and
    nothing is sent), [exportToDuckDB] throws that error, and the session is
    unchanged. *)
Theorem nothing_to_export `{Platform}
    (databaseName : string) (storageTier : StorageTier) (w : World) (sys : Sys) :
  tables (db sys) = ∅ ->
  PushToRemote.pushToRemote databaseName storageTier w sys
  = (inr (PushToRemote.failure "No tables to export"),
     {| db := db sys; calls := (calls sys ++ [ExportAsZipBundle])%list |})
  /\ DuckDb.exportToDuckDB (db sys) = (inl "No tables to export", db sys).
Proof.
  intros Hempty. split.
  - unfold PushToRemote.pushToRemote, PushToRemote.exportAsZipBundle, ActM.tryCatch,
      ActM.andThen, ActM.bind, ActM.call, ActM.ret.
    assert (PushToRemote.zipBundle (db sys) = (inl "No tables to export", db sys)) as Hzip
      by (rewrite zipBundle_eq, (tableNames_empty _ Hempty); reflexivity).
    rewrite engine_eq. cbn [db calls].
    rewrite (bind_fail _ _ _ _ _ Hzip). reflexivity.
  - unfold DuckDb.exportToDuckDB, EngM.bind.
    rewrite duckDbZip_eq, (tableNames_empty _ Hempty). reflexivity.
Qed.

Lemma nothing_to_export_witness :
  fst (@PushToRemote.pushToRemote demoPlatform "database" temp demoWorld idleSys)
  = inr (PushToRemote.failure "No tables to export")
  /\ calls (snd (@PushToRemote.pushToRemote demoPlatform "database" temp demoWorld idleSys))
     = [ExportAsZipBundle].
Proof.
  rewrite (proj1 (@nothing_to_export demoPlatform "database" temp demoWorld idleSys eq_refl)).
  split; reflexivity.
Defined.

(** ** The export of a single table *)

Section SingleFile.
Context `{Platform}.
Import DuckDb.

(** X10: in a session whose table names hold no quote, [exportToParquet]
    throws [No tables to export] with no table, throws [Multiple tables - use
    exportToDuckDB instead] with two or more, and with exactly one table
    returns its columnar bytes, which it leaves in the file
    [export.parquet]. *)
Theorem exportToParquet_needs_one_table (d : Db) :
  cleanNames d ->
  (base.size (tables d) = 0%nat ->
   DuckDb.exportToParquet d = (inl "No tables to export", d))
  /\ (base.size (tables d) = 1%nat ->
      exists n t,
        tables d !! n = Some t
        /\ DuckDb.exportToParquet d
           = (inr (to_parquet t),
              {| tables := tables d;
                 files := <["export.parquet" := to_parquet t]> (files d) |}))
  /\ ((2 <= base.size (tables d))%nat ->
      DuckDb.exportToParquet d
      = (inl "Multiple tables - use exportToDuckDB instead", d)).
Proof.
  intros Hclean.
  pose proof (tableNames_length d) as Hlen.
  assert (Hrun : DuckDb.exportToParquet d
                 = match map (infoOf (tables d)) (tableNames d) with
                   | [] => (inl "No tables to export", d)
                   | [table] =>
                       match exportOf (tables d) (ti_name table) "export.parquet" with
                       | inl e => (inl e, d)
                       | inr bytes =>
                           (inr bytes,
                            {| tables := tables d;
                               files := <["export.parquet" := bytes]> (files d) |})
                       end
                   | _ => (inl "Multiple tables - use exportToDuckDB instead", d)
                   end).
  { unfold DuckDb.exportToParquet.
    rewrite (bind_step _ _ d d (map (infoOf (tables d)) (tableNames d)))
      by (apply getTables_clean; exact Hclean).
    destruct (map (infoOf (tables d)) (tableNames d)) as [| table [| more rest]];
      [reflexivity | | reflexivity].
    rewrite copy_then_read.
    destruct (exportOf (tables d) (ti_name table) "export.parquet"); reflexivity. }
  rewrite Hrun. clear Hrun.
  split; [| split].
  - intros Hsize. rewrite Hsize in Hlen. apply nil_length_inv in Hlen. rewrite Hlen.
    reflexivity.
  - intros Hsize. rewrite Hsize in Hlen.
    destruct (tableNames d) as [| n [| m rest]] eqn:Hnames; try discriminate.
    assert (is_Some (tables d !! n)) as [t Ht]
      by (apply tableNames_spec; rewrite Hnames; left).
    exists n, t. split; [exact Ht |]. cbn [map infoOf ti_name].
    unfold exportOf. destruct (Hclean n (mk_is_Some _ _ Ht)) as [Hdq _]. rewrite Hdq, Ht.
    reflexivity.
  - intros Hsize. rewrite <- Hlen in Hsize.
    destruct (tableNames d) as [| n [| m rest]]; cbn in Hsize; try lia. reflexivity.
Qed.

End SingleFile.

Lemma exportToParquet_needs_one_table_witness :
  cleanNames oneTableDb
  /\ base.size (tables oneTableDb) = 1%nat
  /\ fst (@DuckDb.exportToParquet demoPlatform oneTableDb) = inr "PAR11,a,2,bPAR1".
Proof.
  split; [exact oneTableDb_clean |]. split; [reflexivity |].
  destruct (@exportToParquet_needs_one_table demoPlatform oneTableDb oneTableDb_clean)
    as (_ & Hone & _).
  destruct (Hone eq_refl) as (n & t & Ht & ->). cbn [fst]. f_equal.
  assert (n = "t") as ->.
  { destruct (decide (n = "t")) as [Heq | Hne]; [exact Heq |].
    unfold oneTableDb in Ht. cbn [tables] in Ht.
    rewrite lookup_singleton_ne in Ht by congruence. discriminate. }
  vm_compute in Ht. inversion Ht. vm_compute. reflexivity.
Defined.

(** ** The calls of an upload *)

Section Traces.
Context `{Platform}.
Import PushToRemote.

(** The session after some more calls. *)
Definition called (new : list Call) (sys : Sys) : Sys :=
  {| db := db sys; calls := (calls sys ++ new)%list |}.

(** Whether the shared steps get as far as the transfer: the token proxy
    answered a body with a string token and the address could be read. *)
Definition transferAttempted (w : World) (filename : string) (len : N)
    (storageTier : StorageTier) : bool :=
  match tokenOf w filename len storageTier with
  | inr tokenResponse =>
      match Js.prop tokenResponse "token", Js.prop tokenResponse "full_upload_url" with
      | inr (Js.VStr _), inr _ => true
      | _, _ => false
      end
  | inl _ => false
  end.

(** The requests of the shared steps. *)
Definition transferCalls (w : World) (bytes filename : string) (len : N)
    (storageTier : StorageTier) : list Call :=
  GetUploadToken filename len storageTier
  :: (if transferAttempted w filename len storageTier
      then [UploadWithToken filename bytes] else []).

Lemma transfer_run (bytes filename : string) (len : N) (storageTier : StorageTier)
    (w : World) (sys : Sys) :
  transfer bytes filename len storageTier w sys
  = (transferOf w bytes filename len storageTier,
     called (transferCalls w bytes filename len storageTier) sys).
Proof.
  unfold transfer, transferOf, transferCalls, transferAttempted, tokenOf, uploadOf, called,
    ActM.andThen, ActM.bind, ActM.ret, getUploadToken, logToken, uploadWithToken,
    ActM.call, ActM.ask.
  cbn.
  destruct (api_upload_token w filename len storageTier) as [e | status text];
    [reflexivity |].
  destruct (negb (ok status)); [reflexivity |].
  destruct (JSON_parse text) as [e | tok]; [reflexivity |].
  destruct (Js.prop tok "token") as [e | [| | | | |]]; try reflexivity.
  destruct (Js.prop tok "full_upload_url") as [e | url]; [reflexivity |].
  cbn. rewrite <- app_assoc. cbn [app].
  destruct (xhr_post w url filename bytes) as [status' text' | |]; try reflexivity.
  destruct ((200 <=? status') && (status' <? 300))%N.
  - destruct (JSON_parse text') as [e | body]; reflexivity.
  - destruct (JSON_parse text') as [e | [| fields]]; reflexivity.
Qed.

Lemma tryCatch_run (body : Act (Js.Settled PushToRemoteResult)) (w : World) (sys : Sys) :
  ActM.tryCatch body (fun e => ActM.ret (inr (failure e))) w sys
  = (inr (settle (fst (body w sys))), snd (body w sys)).
Proof.
  unfold ActM.tryCatch, ActM.bind, ActM.ret.
  destruct (body w sys) as [[e | r] sys']; reflexivity.
Qed.

Definition directResult (w : World) (file : File) (storageTier : StorageTier)
  : PushToRemoteResult :=
  settle (if directlyUploadable file
          then transferOf w (content file) (name file) (size file) storageTier
          else inl "Only .parquet and .duckdb files are supported for direct upload").

Definition directCalls (w : World) (file : File) (storageTier : StorageTier) : list Call :=
  if directlyUploadable file
  then transferCalls w (content file) (name file) (size file) storageTier
  else [].

Lemma called_nil (sys : Sys) : called [] sys = sys.
Proof. unfold called. rewrite app_nil_r. destruct sys; reflexivity. Qed.

Lemma uploadDirectFile_run (file : File) (storageTier : StorageTier) (w : World) (sys : Sys) :
  uploadDirectFile file storageTier w sys
  = (inr (directResult w file storageTier), called (directCalls w file storageTier) sys).
Proof.
  unfold uploadDirectFile. rewrite tryCatch_run. unfold directResult, directCalls.
  change (bool_decide (option_map Js.toLowerCase (last (Js.split "." (name file)))
                       = Some "parquet")
          || (bool_decide (option_map Js.toLowerCase (last (Js.split "." (name file)))
                           = Some "duckdb")
              || bool_decide (option_map Js.toLowerCase (last (Js.split "." (name file)))
                              = Some "db")))
    with (directlyUploadable file).
  assert (forall a b c, negb a && negb (b || c) = negb (a || b || c)) as Hbool
    by (intros [] [] []; reflexivity).
  match goal with
  | |- context [negb ?a && negb (?b || ?c)] => rewrite (Hbool a b c)
  end.
  change (bool_decide (option_map Js.toLowerCase (last (Js.split "." (name file)))
                       = Some "parquet")
          || bool_decide (option_map Js.toLowerCase (last (Js.split "." (name file)))
                          = Some "duckdb")
          || bool_decide (option_map Js.toLowerCase (last (Js.split "." (name file)))
                          = Some "db"))
    with (directlyUploadable file).
  destruct (directlyUploadable file); cbn [negb].
  - pose proof (transfer_run (content file) (name file) (size file) storageTier w sys) as Hrun.
    unfold transfer in Hrun. rewrite Hrun. reflexivity.
  - cbn. rewrite called_nil. reflexivity.
Qed.

Lemma uploadParquetBuffer_run (buffer filename : string) (storageTier : StorageTier)
    (w : World) (sys : Sys) :
  uploadParquetBuffer buffer filename storageTier w sys
  = (inr (settle (transferOf w buffer
                    (Js.replaceExt DuckDb.CSV_EXTENSIONS ".parquet" filename)
                    (DuckDb.byteLength buffer) storageTier)),
     called (transferCalls w buffer
               (Js.replaceExt DuckDb.CSV_EXTENSIONS ".parquet" filename)
               (DuckDb.byteLength buffer) storageTier) sys).
Proof.
  unfold uploadParquetBuffer. rewrite tryCatch_run.
  pose proof (transfer_run buffer (Js.replaceExt DuckDb.CSV_EXTENSIONS ".parquet" filename)
                (DuckDb.byteLength buffer) storageTier w sys) as Hrun.
  unfold transfer in Hrun. cbn zeta. rewrite Hrun. reflexivity.
Qed.

(** What [exportAsZipBundle] answers: the compressed bundle and its length. *)
Definition exportOfSession (d : Db) : Js.Settled (string * N) :=
  match fst (zipBundle d) with
  | inl e => inl e
  | inr zip => inr (zip_generate zip, DuckDb.byteLength (zip_generate zip))
  end.

Lemma exportAsZipBundle_run (w : World) (sys : Sys) :
  exportAsZipBundle w sys
  = (exportOfSession (db sys),
     {| db := snd (zipBundle (db sys)); calls := (calls sys ++ [ExportAsZipBundle])%list |}).
Proof.
  unfold exportAsZipBundle, exportOfSession, ActM.bind, ActM.call.
  rewrite engine_eq. cbn [db calls]. unfold EngM.bind, EngM.ret.
  destruct (zipBundle (db sys)) as [[e | zip] d']; reflexivity.
Qed.

Definition pushResult (w : World) (d : Db) (databaseName : string) (storageTier : StorageTier)
  : PushToRemoteResult :=
  settle (match exportOfSession d with
          | inl e => inl e
          | inr exportResult =>
              transferOf w (fst exportResult) (databaseName ++ ".zip") (snd exportResult)
                         storageTier
          end).

Definition pushCalls (w : World) (d : Db) (databaseName : string) (storageTier : StorageTier)
  : list Call :=
  ExportAsZipBundle
  :: match exportOfSession d with
     | inl _ => []
     | inr exportResult =>
         transferCalls w (fst exportResult) (databaseName ++ ".zip") (snd exportResult)
                       storageTier
     end.

Lemma pushToRemote_run (databaseName : string) (storageTier : StorageTier)
    (w : World) (sys : Sys) :
  pushToRemote databaseName storageTier w sys
  = (inr (pushResult w (db sys) databaseName storageTier),
     {| db := snd (zipBundle (db sys));
        calls := (calls sys ++ pushCalls w (db sys) databaseName storageTier)%list |}).
Proof.
  unfold pushToRemote. rewrite tryCatch_run. unfold pushResult, pushCalls.
  match goal with
  | |- context [settle (fst (?body w sys))] =>
      assert (body w sys
              = (match exportOfSession (db sys) with
                 | inl e => inl e
                 | inr exportResult =>
                     transferOf w (fst exportResult) (databaseName ++ ".zip")
                                (snd exportResult) storageTier
                 end,
                 {| db := snd (zipBundle (db sys));
                    calls := (calls sys
                              ++ ExportAsZipBundle
                                 :: match exportOfSession (db sys) with
                                    | inl _ => []
                                    | inr exportResult =>
                                        transferCalls w (fst exportResult)
                                          (databaseName ++ ".zip") (snd exportResult)
                                          storageTier
                                    end)%list |})) as Hbody
  end.
  { unfold ActM.andThen at 1. unfold ActM.bind at 1. rewrite exportAsZipBundle_run.
    destruct (exportOfSession (db sys)) as [e | exportResult]; [reflexivity |].
    pose proof (transfer_run (fst exportResult) (databaseName ++ ".zip") (snd exportResult)
                  storageTier w
                  {| db := snd (zipBundle (db sys));
                     calls := (calls sys ++ [ExportAsZipBundle])%list |}) as Hrun.
    unfold transfer in Hrun. cbn zeta. rewrite Hrun. unfold called. cbn [db calls fst snd].
    rewrite <- app_assoc. reflexivity. }
  rewrite Hbody. reflexivity.
Qed.

End Traces.

Section TraceShapes.
Context `{Platform}.

Lemma transferCalls_shape (w : World) (bytes filename : string) (len : N)
    (storageTier : StorageTier) :
  transferCalls w bytes filename len storageTier = [GetUploadToken filename len storageTier]
  \/ transferCalls w bytes filename len storageTier
     = [GetUploadToken filename len storageTier; UploadWithToken filename bytes].
Proof.
  unfold transferCalls. destruct (transferAttempted w filename len storageTier);
    [right | left]; reflexivity.
Qed.

End TraceShapes.


(** ** A refused transfer *)

(** A platform and a world in which the token is issued and the backend
    refuses the file with status 413 and a [detail], and a world in which
    it refuses the file with status 422 and a [detail] that is a list. *)
Definition refusingPlatform : Platform :=
  {| read_csv := @read_csv demoPlatform;
     to_parquet := @to_parquet demoPlatform;
     zip_generate := @zip_generate demoPlatform;
     JSON_parse := fun text =>
       if String.eqb text "{refused}"
       then inr (Js.PObj (<["detail" := Js.VStr "File too large"]>
                          (<["error" := Js.VStr "payload"]> ∅)))
       else if String.eqb text "{invalid}"
       then inr (Js.PObj (<["detail" := Js.VObject]> ∅))
       else @JSON_parse demoPlatform text;
     js_String := @js_String demoPlatform;
     toLocaleString := @toLocaleString demoPlatform |}.

Definition refusingWorld : World :=
  {| isNeonDataConfigured := true;
     user_limits := user_limits demoWorld;
     files_count := files_count demoWorld;
     api_status := api_status demoWorld;
     api_upload_token := api_upload_token demoWorld;
     xhr_post := fun _ _ _ => XhrLoad 413 "{refused}" |}.

Definition invalidatingWorld : World :=
  {| isNeonDataConfigured := true;
     user_limits := user_limits demoWorld;
     files_count := files_count demoWorld;
     api_status := api_status demoWorld;
     api_upload_token := api_upload_token demoWorld;
     xhr_post := fun _ _ _ => XhrLoad 422 "{invalid}" |}.

Section Refusals.
Context `{Platform}.
Import PushToRemote.

(** X12: when the backend answers the transfer with a status outside
    200..299, [uploadDirectFile] resolves to a failure whose message is the
    [detail] of the JSON body when that is truthy, else its [error] when
    that is truthy, else [HTTP <status>]; a [detail] or [error] that is a
    string is the message as it is, one that is not a string is the message
    as [String] shows it (a list of objects shows as [[object Object]]).  A
    body that is [null] or is not JSON gives [Upload failed: HTTP
    <status>]. *)
Theorem refused_upload_reports_server_message
    (file : File) (storageTier : StorageTier) (w : World) (sys : Sys)
    (status : N) (text : string) (tok : Js.Parsed) (token : string) (url : Js.Value)
    (status' : N) (text' : string) :
  directlyUploadable file = true ->
  api_upload_token w (name file) (size file) storageTier = Http status text ->
  ok status = true ->
  JSON_parse text = inr tok ->
  Js.prop tok "token" = inr (Js.VStr token) ->
  Js.prop tok "full_upload_url" = inr url ->
  xhr_post w url (name file) (content file) = XhrLoad status' text' ->
  (status' < 200 \/ 300 <= status')%N ->
  let result := fst (uploadDirectFile file storageTier w sys) in
  (forall fields detail,
     JSON_parse text' = inr (Js.PObj fields) ->
     default Js.VUndefined (fields !! "detail") = detail ->
     Js.truthy detail = true ->
     result = inr (failure match detail with
                           | Js.VStr message => message
                           | _ => js_String detail
                           end))
  /\ (forall fields err,
        JSON_parse text' = inr (Js.PObj fields) ->
        Js.truthy (default Js.VUndefined (fields !! "detail")) = false ->
        default Js.VUndefined (fields !! "error") = err ->
        Js.truthy err = true ->
        result = inr (failure match err with
                              | Js.VStr message => message
                              | _ => js_String err
                              end))
  /\ (forall fields,
        JSON_parse text' = inr (Js.PObj fields) ->
        Js.truthy (default Js.VUndefined (fields !! "detail")) = false ->
        Js.truthy (default Js.VUndefined (fields !! "error")) = false ->
        result = inr (failure ("HTTP " ++ Js.numberToString status')))
  /\ ((JSON_parse text' = inr Js.PNull \/ exists e, JSON_parse text' = inl e) ->
        result = inr (failure ("Upload failed: HTTP " ++ Js.numberToString status'))).
Proof.
  intros Hext Htoken Hok Hparse Htok Hurl Hxhr Hstatus result. subst result.
  rewrite uploadDirectFile_fst, Hext.
  unfold transferOf, tokenOf, uploadOf, logToken, ActM.ret.
  rewrite Htoken, Hok. cbn [negb]. rewrite Hparse. cbn [fst]. rewrite Htok, Hurl, Hxhr.
  assert (((200 <=? status') && (status' <? 300))%N = false) as ->.
  { destruct Hstatus as [Hlow | Hhigh].
    - apply N.leb_gt in Hlow. rewrite Hlow. reflexivity.
    - apply N.ltb_ge in Hhigh. rewrite Hhigh. apply andb_false_r. }
  split; [| split; [| split]].
  - intros fields detail -> Hdetail Htruthy. rewrite Hdetail. cbn [settle].
    unfold orElse. rewrite Htruthy. cbv iota. rewrite Htruthy. reflexivity.
  - intros fields err -> Hdetail Herr Htruthy. cbn [settle].
    unfold orElse. rewrite Hdetail. cbv iota. rewrite Herr, Htruthy. reflexivity.
  - intros fields -> Hdetail Herr. cbn [settle]. unfold orElse.
    rewrite Hdetail. cbv iota. rewrite Herr. reflexivity.
  - intros [-> | [e ->]]; reflexivity.
Qed.

End Refusals.

Lemma refused_upload_reports_server_message_witness :
  directlyUploadable demoParquet = true
  /\ (413 < 200 \/ 300 <= 413)%N
  /\ fst (@PushToRemote.uploadDirectFile refusingPlatform demoParquet temp refusingWorld idleSys)
     = inr (PushToRemote.failure "File too large")
  /\ fst (@PushToRemote.uploadDirectFile refusingPlatform demoParquet temp invalidatingWorld
            idleSys)
     = inr (PushToRemote.failure "[object Object]").
Proof.
  assert (Hstatus : (413 < 200 \/ 300 <= 413)%N) by (right; vm_compute; discriminate).
  assert (Hstatus' : (422 < 200 \/ 300 <= 422)%N) by (right; vm_compute; discriminate).
  split; [vm_compute; reflexivity |]. split; [exact Hstatus |]. split.
  - refine (proj1 (@refused_upload_reports_server_message refusingPlatform demoParquet temp
                     refusingWorld idleSys 200%N "{token}"
                     (Js.PObj (<["token" := Js.VStr "0123456789abcdef"]>
                                 (<["full_upload_url" := Js.VStr "https://backend/upload"]>
                                 (<["download_url" := Js.VStr "https://backend/d/1"]>
                                 (<["filename" := Js.VStr "stored.zip"]>
                                 (<["expires_in_hours" := Js.VNum 24]> ∅))))))
                     "0123456789abcdef" (Js.VStr "https://backend/upload") 413%N "{refused}"
                     _ _ _ _ _ _ _ Hstatus)
                  (<["detail" := Js.VStr "File too large"]> (<["error" := Js.VStr "payload"]> ∅))
                  (Js.VStr "File too large") _ _ _);
      vm_compute; reflexivity.
  - refine (proj1 (@refused_upload_reports_server_message refusingPlatform demoParquet temp
                     invalidatingWorld idleSys 200%N "{token}"
                     (Js.PObj (<["token" := Js.VStr "0123456789abcdef"]>
                                 (<["full_upload_url" := Js.VStr "https://backend/upload"]>
                                 (<["download_url" := Js.VStr "https://backend/d/1"]>
                                 (<["filename" := Js.VStr "stored.zip"]>
                                 (<["expires_in_hours" := Js.VNum 24]> ∅))))))
                     "0123456789abcdef" (Js.VStr "https://backend/upload") 422%N "{invalid}"
                     _ _ _ _ _ _ _ Hstatus')
                  (<["detail" := Js.VObject]> ∅) Js.VObject _ _ _);
      vm_compute; reflexivity.
Defined.

(** ** The calls of a handler *)

Section HandlerRuns.
Context `{Platform}.

(** The session after [saveRecord]. *)
Definition saved (w : World) (record : option FileRecordInput) (sys : Sys) : Sys :=
  match record with
  | Some r => if isNeonDataConfigured w then called [AddFileRecord r] sys else sys
  | None => sys
  end.

Lemma saveRecord_run (record : option FileRecordInput) (w : World) (sys : Sys) :
  Home.saveRecord record w sys = (tt, saved w record sys).
Proof.
  unfold Home.saveRecord, saved, NeonDb.addFileRecord, ActM.bind, ActM.ask, ActM.ret,
    ActM.call, called.
  destruct record as [r |]; [| reflexivity].
  destruct (isNeonDataConfigured w); reflexivity.
Qed.

(** How an upload handler ends once the transfer has settled. *)
Definition finish (w : World) (storageTier : StorageTier)
    (result : PushToRemote.PushToRemoteResult) (record : option FileRecordInput)
    (failed : Home.Banner) (sys : Sys) : Home.Outcome * Sys :=
  if PushToRemote.success result
  then (Home.Published storageTier result record, saved w record sys)
  else (Home.TransferFailed storageTier failed, sys).

Lemma handleQuickUpload_run (s : Home.HomeState) (file : File) (w : World) (sys : Sys) :
  Home.quickStagedFile s = Some file ->
  Home.handleQuickUpload s w sys =
    let storageTier := Home.getEffectiveStorageTier s (Home.keepPersistentQuick s) in
    match Home.quickChecks s file storageTier w sys with
    | (inl e, sys1) => (Home.Caught (Home.UploadFailed (Some e)), sys1)
    | (inr (Some o), sys1) => (o, sys1)
    | (inr None, sys1) =>
        let result := directResult w file storageTier in
        finish w storageTier result
          (Home.recordFor s (Home.keepPersistentQuick s) result
             (Js.replaceExt Home.QUICK_EXTENSIONS "" (name file))
             (megabytes (size file))
             (if Js.endsWith (Js.toLowerCase (name file)) ".parquet"
              then "parquet" else "duckdb"))
          (Home.UploadFailed (PushToRemote.error result))
          (called (directCalls w file storageTier) sys1)
    end.
Proof.
  intros Hfile. unfold Home.handleQuickUpload. rewrite Hfile. cbn zeta.
  unfold ActM.bind at 1.
  destruct (Home.quickChecks s file _ w sys) as [[e | [o |]] sys1]; [reflexivity .. |].
  unfold ActM.bind at 1. rewrite uploadDirectFile_run. unfold finish.
  destruct (PushToRemote.success (directResult w file _)); [| reflexivity].
  unfold ActM.bind, ActM.ret. rewrite saveRecord_run. reflexivity.
Qed.

Lemma handleParquetUploadToServer_run (s : Home.HomeState) (rc : option N)
    (buffer fname : string) (w : World) (sys : Sys) :
  Home.parquetResult s = Some {| Home.rowCount := rc; Home.localBuffer := Some buffer;
                                 Home.pr_filename := Some fname |} ->
  fname <> "" ->
  Home.handleParquetUploadToServer s w sys =
    let storageTier := Home.getEffectiveStorageTier s (Home.keepPersistent s) in
    let parquetFilename := Js.replaceExt DuckDb.CSV_EXTENSIONS ".parquet" fname in
    match Home.parquetChecks s buffer storageTier w sys with
    | (inl e, sys1) => (Home.Caught (Home.UploadFailed (Some e)), sys1)
    | (inr (Some o), sys1) => (o, sys1)
    | (inr None, sys1) =>
        let result := settle (transferOf w buffer parquetFilename
                                (DuckDb.byteLength buffer) storageTier) in
        finish w storageTier result
          (Home.recordFor s (Home.keepPersistent s) result
             (Js.replaceExt ["parquet"] "" fname)
             (megabytes (DuckDb.byteLength buffer)) "parquet")
          (Home.UploadFailed (PushToRemote.error result))
          (called (transferCalls w buffer parquetFilename (DuckDb.byteLength buffer)
                     storageTier) sys1)
    end.
Proof.
  intros Hresult Hname. unfold Home.handleParquetUploadToServer. rewrite Hresult.
  apply String.eqb_neq in Hname. rewrite Hname. cbn zeta.
  unfold ActM.bind at 1.
  destruct (Home.parquetChecks s buffer _ w sys) as [[e | [o |]] sys1]; [reflexivity .. |].
  unfold ActM.bind at 1. rewrite uploadParquetBuffer_run. unfold finish.
  destruct (PushToRemote.success _); [| reflexivity].
  unfold ActM.bind, ActM.ret. rewrite saveRecord_run. reflexivity.
Qed.

Lemma handlePushToRemote_run (s : Home.HomeState) (w : World) (sys : Sys) :
  Home.handlePushToRemote s w sys =
    let storageTier := Home.getEffectiveStorageTier s (Home.keepPersistent s) in
    match Home.pushChecks s storageTier w sys with
    | (inl e, sys1) => (Home.Caught (Home.PushFailed (Some e)), sys1)
    | (inr (Some o), sys1) => (o, sys1)
    | (inr None, sys1) =>
        let result := pushResult w (db sys1) (Home.generateDbDisplayName s) storageTier in
        finish w storageTier result
          (Home.recordFor s (Home.keepPersistent s) result (Home.generateDbDisplayName s)
             match PushToRemote.sizeBytes result with
             | Some b => if (b =? 0)%N then 0%Q else megabytes b
             | None => 0%Q
             end "duckdb")
          (Home.PushFailed (PushToRemote.error result))
          {| db := snd (PushToRemote.zipBundle (db sys1));
             calls := (calls sys1
                       ++ pushCalls w (db sys1) (Home.generateDbDisplayName s) storageTier)%list |}
    end.
Proof.
  unfold Home.handlePushToRemote. cbn zeta. unfold ActM.bind at 1.
  destruct (Home.pushChecks s _ w sys) as [[e | [o |]] sys1]; [reflexivity .. |].
  unfold ActM.bind at 1. rewrite pushToRemote_run. unfold finish.
  destruct (PushToRemote.success _); [| reflexivity].
  unfold ActM.bind, ActM.ret. rewrite saveRecord_run. reflexivity.
Qed.

End HandlerRuns.

Section CheckCalls.
Context `{Platform}.

(** The calls of the checks: the estimate, the limits, the count, the
    capacity. *)
Definition isCheck (c : Call) : bool :=
  match c with
  | EstimateDatabaseSize | GetEffectiveLimits _ | GetUserFileCount _ | GetStorageStatus _ => true
  | _ => false
  end.

Lemma called_called (a b : list Call) (sys : Sys) :
  called b (called a sys) = called (a ++ b) sys.
Proof. unfold called. cbn. rewrite app_assoc. reflexivity. Qed.

Lemma persistentQueried_calls (w : World) (email : string) (fileSizeMb : Q) (sys : Sys) :
  exists new,
    persistentQueried w email fileSizeMb sys = called new sys
    /\ forallb isCheck new = true.
Proof.
  assert (forall c x, logged c x = called [c] x) as Hlogged by reflexivity.
  unfold persistentQueried, counted.
  destruct (negb (isNeonDataConfigured w));
    destruct (NeonDb.allowed _); rewrite !Hlogged, ?called_called;
    eexists; split; reflexivity.
Qed.

Lemma persistentChecks_calls (email : string) (fileSizeMb estimatedMb : Q)
    (w : World) (sys : Sys) :
  exists new,
    snd (Home.persistentChecks email fileSizeMb estimatedMb w sys) = called new sys
    /\ forallb isCheck new = true.
Proof. rewrite persistentChecks_eq. apply persistentQueried_calls. Qed.

Lemma quickChecks_calls (s : Home.HomeState) (file : File) (storageTier : StorageTier)
    (w : World) (sys : Sys) :
  exists new,
    snd (Home.quickChecks s file storageTier w sys) = called new sys
    /\ forallb isCheck new = true.
Proof.
  unfold Home.quickChecks.
  destruct (bool_decide (Home.userRole s = admin)).
  { exists []. rewrite called_nil. split; reflexivity. }
  destruct (Home.persistentRequest s _ storageTier) as [email |].
  - apply persistentChecks_calls.
  - exists []. rewrite called_nil. split; reflexivity.
Qed.

Lemma parquetChecks_calls (s : Home.HomeState) (buffer : string) (storageTier : StorageTier)
    (w : World) (sys : Sys) :
  exists new,
    snd (Home.parquetChecks s buffer storageTier w sys) = called new sys
    /\ forallb isCheck new = true.
Proof.
  unfold Home.parquetChecks.
  destruct (negb (bool_decide (Home.userRole s = admin)) && Js.gt _ 75).
  { exists []. rewrite called_nil. split; reflexivity. }
  destruct (bool_decide (Home.userRole s = admin)).
  { exists []. rewrite called_nil. split; reflexivity. }
  destruct (Home.persistentRequest s _ storageTier) as [email |].
  - apply persistentChecks_calls.
  - exists []. rewrite called_nil. split; reflexivity.
Qed.

Lemma pushChecks_calls (s : Home.HomeState) (storageTier : StorageTier)
    (w : World) (sys : Sys) :
  exists new,
    calls (snd (Home.pushChecks s storageTier w sys)) = (calls sys ++ new)%list
    /\ forallb isCheck new = true.
Proof.
  destruct (decide (Home.userRole s = admin)) as [Hadmin | Hrole].
  { rewrite (proj1 (admin_checks s w sys Hadmin)). exists []. rewrite app_nil_r.
    split; reflexivity. }
  rewrite (pushChecks_eq s storageTier w sys Hrole).
  destruct (DuckDb.estimateDatabaseSize (db sys)) as [[e | bytes] d'].
  { exists [EstimateDatabaseSize]. split; reflexivity. }
  cbn zeta. destruct (Js.gt _ 75).
  { exists [EstimateDatabaseSize]. split; reflexivity. }
  destruct (Home.persistentRequest s _ storageTier) as [email |].
  - destruct (persistentChecks_calls email 0 (megabytes bytes * 2)%Q w
                {| db := d'; calls := (calls sys ++ [EstimateDatabaseSize])%list |})
      as (new & Hnew & Hall).
    rewrite Hnew. exists (EstimateDatabaseSize :: new). cbn [calls called db].
    rewrite <- app_assoc. split; [reflexivity | exact Hall].
  - exists [EstimateDatabaseSize]. split; reflexivity.
Qed.

End CheckCalls.

(** ** Visitors *)

(** The calls an upload makes for a visitor. *)
Definition visitorCall (c : Call) : Prop :=
  match c with
  | EstimateDatabaseSize | ExportAsZipBundle | UploadWithToken _ _ => True
  | GetUploadToken _ _ storageTier => storageTier = temp
  | _ => False
  end.

Section Visitor.
Context `{Platform}.

Lemma transferCalls_visitor (w : World) (bytes filename : string) (len : N) :
  Forall visitorCall (transferCalls w bytes filename len temp).
Proof.
  destruct (transferCalls_shape w bytes filename len temp) as [-> | ->];
    repeat constructor.
Qed.

Lemma visitor_tier (s : Home.HomeState) (checkbox : bool) :
  Home.isAllowed s = false -> Home.getEffectiveStorageTier s checkbox = temp.
Proof. intros Hnot. unfold Home.getEffectiveStorageTier. rewrite Hnot. reflexivity. Qed.

Lemma visitor_request (s : Home.HomeState) (checkbox : bool) (storageTier : StorageTier) :
  Home.isAllowed s = false -> Home.persistentRequest s checkbox storageTier = None.
Proof.
  intros Hnot. unfold Home.persistentRequest. rewrite Hnot, andb_false_r. reflexivity.
Qed.

Lemma visitor_record (s : Home.HomeState) (keep : bool)
    (result : PushToRemote.PushToRemoteResult) (displayName : string) (sizeMb : Q)
    (fmt : string) :
  Home.isAllowed s = false -> Home.recordFor s keep result displayName sizeMb fmt = None.
Proof.
  intros Hnot. unfold Home.recordFor. rewrite Hnot, andb_false_r.
  destruct (Home.user s); [destruct (Home.userEmail s) |]; reflexivity.
Qed.

(** What [finish] leaves for a visitor. *)
Lemma visitor_finish (w : World) (result : PushToRemote.PushToRemoteResult)
    (failed : Home.Banner) (sys : Sys) :
  let out := finish w temp result None failed sys in
  snd out = sys
  /\ (forall storageTier r record,
        fst out = Home.Published storageTier r record -> storageTier = temp /\ record = None)
  /\ (forall storageTier b, fst out = Home.TransferFailed storageTier b -> storageTier = temp).
Proof.
  unfold finish. destruct (PushToRemote.success result); cbn.
  - split; [reflexivity |]. split; [| discriminate].
    intros storageTier r record Heq. inversion Heq. split; reflexivity.
  - split; [reflexivity |]. split; [discriminate |].
    intros storageTier b Heq. inversion Heq. reflexivity.
Qed.

End Visitor.

Ltac no_upload_outcome :=
  split; [exists []; rewrite app_nil_r; split; [reflexivity | constructor] |];
  split; intros; discriminate.

(** X13: for a visitor ([isAllowed] is false) the three upload handlers
    read neither limits, file count nor storage status and save no file
    record: their only calls are the size estimate, the export, token
    requests for the [temp] tier and transfers; what they publish, or fail to
    transfer, is on the [temp] tier, with no record. *)
Theorem visitor_uploads_are_temporary `{Platform}
    (s : Home.HomeState) (w : World) (sys : Sys) :
  Home.isAllowed s = false ->
  forall out,
    out = Home.handlePushToRemote s w sys
    \/ out = Home.handleQuickUpload s w sys
    \/ out = Home.handleParquetUploadToServer s w sys ->
    (exists new, calls (snd out) = (calls sys ++ new)%list /\ Forall visitorCall new)
    /\ (forall storageTier result record,
          fst out = Home.Published storageTier result record ->
          storageTier = temp /\ record = None)
    /\ (forall storageTier b,
          fst out = Home.TransferFailed storageTier b -> storageTier = temp).
Proof.
  intros Hnot out [-> | [-> | ->]].
  - rewrite handlePushToRemote_run. cbn zeta. rewrite (visitor_tier s _ Hnot).
    assert (exists d' new,
              (Home.pushChecks s temp w sys = (inr None, {| db := d'; calls := (calls sys ++ new)%list |})
               /\ Forall visitorCall new)
              \/ (exists e, Home.pushChecks s temp w sys
                            = (inl e, {| db := d'; calls := (calls sys ++ new)%list |})
                            /\ Forall visitorCall new)
              \/ (exists b, Home.pushChecks s temp w sys
                            = (inr (Some (Home.Refused b)),
                               {| db := d'; calls := (calls sys ++ new)%list |})
                            /\ Forall visitorCall new)) as Hchecks.
    { destruct (decide (Home.userRole s = admin)) as [Hadmin | Hrole].
      - exists (db sys), []. left. rewrite (proj1 (admin_checks s w sys Hadmin)), app_nil_r.
        split; [destruct sys; reflexivity | constructor].
      - rewrite (pushChecks_eq s temp w sys Hrole).
        destruct (DuckDb.estimateDatabaseSize (db sys)) as [[e | bytes] d'].
        + exists d', [EstimateDatabaseSize]. right. left. exists e.
          split; [reflexivity | repeat constructor].
        + cbn zeta. exists d', [EstimateDatabaseSize]. destruct (Js.gt _ 75).
          * right. right. eexists. split; [reflexivity | repeat constructor].
          * left. rewrite (visitor_request s _ temp Hnot).
            split; [reflexivity | repeat constructor]. }
    destruct Hchecks as (d' & new & [[-> Hnew] | [(e & -> & Hnew) | (b & -> & Hnew)]]).
    + rewrite visitor_record by exact Hnot.
      match goal with
      | |- context [finish w temp ?r None ?f ?x] =>
          destruct (visitor_finish w r f x) as (Hsys & Hpub & Hfail)
      end.
      split; [| split; [exact Hpub | exact Hfail]].
      rewrite Hsys. cbn [calls db]. rewrite <- app_assoc. eexists. split; [reflexivity |].
      apply Forall_app. split; [exact Hnew |]. unfold pushCalls.
      constructor; [exact I |].
      destruct (exportOfSession d'); [constructor | apply transferCalls_visitor].
    + split; [exists new; split; [reflexivity | exact Hnew] |]. split; intros; discriminate.
    + split; [exists new; split; [reflexivity | exact Hnew] |]. split; intros; discriminate.
  - destruct (Home.quickStagedFile s) as [file |] eqn:Hfile.
    2:{ unfold Home.handleQuickUpload. rewrite Hfile. cbn. no_upload_outcome. }
    rewrite (handleQuickUpload_run s file w sys Hfile). cbn zeta.
    rewrite (visitor_tier s _ Hnot).
    assert (Home.quickChecks s file temp w sys = (inr None, sys)) as ->.
    { unfold Home.quickChecks. destruct (bool_decide _); [reflexivity |].
      rewrite (visitor_request s _ temp Hnot). reflexivity. }
    rewrite visitor_record by exact Hnot.
    match goal with
    | |- context [finish w temp ?r None ?f ?x] =>
        destruct (visitor_finish w r f x) as (Hsys & Hpub & Hfail)
    end.
    split; [| split; [exact Hpub | exact Hfail]].
    rewrite Hsys. cbn [calls called]. eexists. split; [reflexivity |].
    unfold directCalls. destruct (directlyUploadable file);
      [apply transferCalls_visitor | constructor].
  - destruct (Home.parquetResult s) as [[rc [buffer |] [fname |]] |] eqn:Hresult;
      try (unfold Home.handleParquetUploadToServer; rewrite Hresult; cbn; no_upload_outcome).
    destruct (String.eqb fname "") eqn:Hname.
    { unfold Home.handleParquetUploadToServer. rewrite Hresult, Hname. cbn. no_upload_outcome. }
    apply String.eqb_neq in Hname.
    rewrite (handleParquetUploadToServer_run s rc buffer fname w sys Hresult Hname). cbn zeta.
    rewrite (visitor_tier s _ Hnot).
    assert (Home.parquetChecks s buffer temp w sys = (inr None, sys)
            \/ exists b, Home.parquetChecks s buffer temp w sys
                         = (inr (Some (Home.Refused b)), sys)) as [-> | [b ->]].
    { unfold Home.parquetChecks.
      destruct (negb (bool_decide (Home.userRole s = admin)) && Js.gt _ 75);
        [right; eexists; reflexivity |].
      left. destruct (bool_decide _); [reflexivity |].
      rewrite (visitor_request s _ temp Hnot). reflexivity. }
    + rewrite visitor_record by exact Hnot.
      match goal with
      | |- context [finish w temp ?r None ?f ?x] =>
          destruct (visitor_finish w r f x) as (Hsys & Hpub & Hfail)
      end.
      split; [| split; [exact Hpub | exact Hfail]].
      rewrite Hsys. cbn [calls called]. eexists. split; [reflexivity |].
      apply transferCalls_visitor.
    + no_upload_outcome.
Qed.

Lemma visitor_uploads_are_temporary_witness :
  exists new,
    calls (snd (@Home.handlePushToRemote demoPlatform
                  (Home.loadUserRole_finish pro Home.initialState) demoWorld oneTableSys))
    = new
    /\ Forall visitorCall new.
Proof.
  destruct (@visitor_uploads_are_temporary demoPlatform
              (Home.loadUserRole_finish pro Home.initialState) demoWorld oneTableSys eq_refl
              _ (or_introl eq_refl)) as ((new & Hcalls & Hall) & _).
  exists new. split; [exact Hcalls | exact Hall].
Defined.

(** ** File records *)

Section Records.
Context `{Platform}.

(** An outcome the checks stop on. *)
Definition stops (o : Home.Outcome) : Prop :=
  match o with
  | Home.Refused _ | Home.FileLimitModal _ _ | Home.StorageFullModal _ _ _ => True
  | _ => False
  end.

Lemma persistentChecks_stops (email : string) (fileSizeMb estimatedMb : Q)
    (w : World) (sys : Sys) (o : Home.Outcome) :
  fst (Home.persistentChecks email fileSizeMb estimatedMb w sys) = inr (Some o) -> stops o.
Proof.
  rewrite persistentChecks_eq. cbn [fst]. unfold persistentVerdict.
  destruct (negb _); [intros Heq; inversion Heq; exact I |].
  destruct (statusOf w persistent) as [st |]; [| discriminate].
  destruct (_ || _); [intros Heq; inversion Heq; exact I | discriminate].
Qed.

Lemma quickChecks_stops (s : Home.HomeState) (file : File) (storageTier : StorageTier)
    (w : World) (sys : Sys) (o : Home.Outcome) :
  fst (Home.quickChecks s file storageTier w sys) = inr (Some o) -> stops o.
Proof.
  unfold Home.quickChecks. destruct (bool_decide _); [discriminate |].
  destruct (Home.persistentRequest s _ storageTier); [apply persistentChecks_stops | discriminate].
Qed.

Lemma parquetChecks_stops (s : Home.HomeState) (buffer : string) (storageTier : StorageTier)
    (w : World) (sys : Sys) (o : Home.Outcome) :
  fst (Home.parquetChecks s buffer storageTier w sys) = inr (Some o) -> stops o.
Proof.
  unfold Home.parquetChecks.
  destruct (negb _ && _); [intros Heq; inversion Heq; exact I |].
  destruct (bool_decide _); [discriminate |].
  destruct (Home.persistentRequest s _ storageTier); [apply persistentChecks_stops | discriminate].
Qed.

Lemma pushChecks_stops (s : Home.HomeState) (storageTier : StorageTier)
    (w : World) (sys : Sys) (o : Home.Outcome) :
  fst (Home.pushChecks s storageTier w sys) = inr (Some o) -> stops o.
Proof.
  destruct (decide (Home.userRole s = admin)) as [Hadmin | Hrole].
  { rewrite (proj1 (admin_checks s w sys Hadmin)). discriminate. }
  rewrite (pushChecks_eq s storageTier w sys Hrole).
  destruct (DuckDb.estimateDatabaseSize (db sys)) as [[e | bytes] d']; [discriminate |].
  cbn zeta. destruct (Js.gt _ 75); [intros Heq; inversion Heq; exact I |].
  destruct (Home.persistentRequest s _ storageTier); [apply persistentChecks_stops | discriminate].
Qed.

Definition isRecord (c : Call) : bool :=
  match c with
  | AddFileRecord _ => true
  | _ => false
  end.

Lemma no_record (l : list Call) (r : FileRecordInput) :
  forallb (fun c => negb (isRecord c)) l = true -> ~ In (AddFileRecord r) l.
Proof.
  intros Hall Hin. rewrite forallb_forall in Hall. specialize (Hall _ Hin). discriminate Hall.
Qed.

Lemma checks_no_record (l : list Call) :
  forallb isCheck l = true -> forallb (fun c => negb (isRecord c)) l = true.
Proof.
  intros Hall. rewrite forallb_forall in *. intros c Hc. specialize (Hall c Hc).
  destruct c; try discriminate Hall; reflexivity.
Qed.

Lemma transferCalls_no_record (w : World) (bytes filename : string) (len : N)
    (storageTier : StorageTier) :
  forallb (fun c => negb (isRecord c)) (transferCalls w bytes filename len storageTier) = true.
Proof.
  destruct (transferCalls_shape w bytes filename len storageTier) as [-> | ->]; reflexivity.
Qed.

(** What a saved record says of the state and of the result. *)
Lemma recordFor_Some (s : Home.HomeState) (keep : bool)
    (result : PushToRemote.PushToRemoteResult) (displayName : string) (sizeMb : Q)
    (fmt : string) (r : FileRecordInput) :
  Home.recordFor s keep result displayName sizeMb fmt = Some r ->
  keep = true /\ Home.isAllowed s = true
  /\ Js.truthy (PushToRemote.downloadUrl result) = true
  /\ Js.truthy (PushToRemote.filename result) = true
  /\ Home.userEmail s = Some (user_email r)
  /\ download_url r = PushToRemote.downloadUrl result
  /\ server_filename r = PushToRemote.filename result
  /\ display_name r = displayName /\ size_mb r = sizeMb /\ format r = fmt.
Proof.
  unfold Home.recordFor. destruct (Home.user s) as [u |]; [| discriminate].
  destruct (Home.userEmail s) as [mail |]; [| discriminate].
  destruct keep; [| discriminate]. destruct (Home.isAllowed s); [| discriminate].
  destruct (Js.truthy (PushToRemote.downloadUrl result)); [| discriminate].
  destruct (Js.truthy (PushToRemote.filename result)); [| discriminate].
  cbn. intros Heq. inversion Heq. cbn. repeat split.
Qed.

(** The end of a handler whose checks let the upload through. *)
Lemma finish_records (w : World) (storageTier : StorageTier)
    (result : PushToRemote.PushToRemoteResult) (record : option FileRecordInput)
    (failed : Home.Banner) (sys sys2 : Sys) (pre : list Call) (r : FileRecordInput) :
  calls sys2 = (calls sys ++ pre)%list ->
  forallb (fun c => negb (isRecord c)) pre = true ->
  let out := finish w storageTier result record failed sys2 in
  exists new,
    calls (snd out) = (calls sys ++ new)%list
    /\ (In (AddFileRecord r) new
        <-> isNeonDataConfigured w = true
            /\ exists tier res, fst out = Home.Published tier res (Some r))
    /\ (forall tier res, fst out = Home.Published tier res (Some r) ->
          tier = storageTier /\ res = result /\ record = Some r
          /\ PushToRemote.success result = true).
Proof.
  intros Hcalls Hpre out. unfold out, finish.
  destruct (PushToRemote.success result) eqn:Hsuccess; cbn [fst snd].
  - unfold saved. destruct record as [r' |].
    + destruct (isNeonDataConfigured w) eqn:Hconf.
      * exists (pre ++ [AddFileRecord r'])%list. cbn [called calls]. rewrite Hcalls, app_assoc.
        split; [reflexivity |]. split.
        -- split.
           ++ intros Hin. apply in_app_or in Hin.
              destruct Hin as [Hin | [Heq | []]]; [exfalso; exact (no_record _ _ Hpre Hin) |].
              inversion Heq. subst r'. split; [reflexivity | eexists; eexists; reflexivity].
           ++ intros (_ & tier & res & Heq). inversion Heq. subst.
              apply in_or_app. right. left. reflexivity.
        -- intros tier res Heq. inversion Heq. repeat split.
      * exists pre. split; [exact Hcalls |]. split.
        -- split; [intros Hin; exfalso; exact (no_record _ _ Hpre Hin) |].
           intros [Habsurd _]. discriminate Habsurd.
        -- intros tier res Heq. inversion Heq. repeat split.
    + exists pre. split; [exact Hcalls |]. split.
      * split; [intros Hin; exfalso; exact (no_record _ _ Hpre Hin) |].
        intros (_ & tier & res & Heq). discriminate Heq.
      * intros tier res Heq. discriminate Heq.
  - exists pre. split; [exact Hcalls |]. split.
    + split; [intros Hin; exfalso; exact (no_record _ _ Hpre Hin) |].
      intros (_ & tier & res & Heq). discriminate Heq.
    + intros tier res Heq. discriminate Heq.
Qed.

End Records.

(** What it means for a handler to save nothing but the record of what it
    published. *)
Definition savesWhatItPublished (w : World) (s : Home.HomeState) (sys : Sys)
    (out : Home.Outcome * Sys) (r : FileRecordInput) : Prop :=
  exists new,
    calls (snd out) = (calls sys ++ new)%list
    /\ (In (AddFileRecord r) new
        <-> isNeonDataConfigured w = true
            /\ exists tier res, fst out = Home.Published tier res (Some r))
    /\ (forall tier res,
          fst out = Home.Published tier res (Some r) ->
          PushToRemote.success res = true
          /\ Home.isAllowed s = true
          /\ Home.userEmail s = Some (user_email r)
          /\ Js.truthy (PushToRemote.downloadUrl res) = true
          /\ Js.truthy (PushToRemote.filename res) = true
          /\ download_url r = PushToRemote.downloadUrl res
          /\ server_filename r = PushToRemote.filename res).

Section RecordsOfHandlers.
Context `{Platform}.

Lemma stopped_saves (w : World) (s : Home.HomeState) (sys sys1 : Sys) (o : Home.Outcome)
    (pre : list Call) (r : FileRecordInput) :
  calls sys1 = (calls sys ++ pre)%list ->
  forallb isCheck pre = true ->
  (forall tier res record, o <> Home.Published tier res record) ->
  savesWhatItPublished w s sys (o, sys1) r.
Proof.
  intros Hcalls Hpre Hnot. exists pre. split; [exact Hcalls |]. split; [split |].
  - intros Hin. exfalso. exact (no_record _ _ (checks_no_record _ Hpre) Hin).
  - intros (_ & tier & res & Heq). exfalso. exact (Hnot _ _ _ Heq).
  - intros tier res Heq. exfalso. exact (Hnot _ _ _ Heq).
Qed.

Lemma finished_saves (w : World) (s : Home.HomeState) (storageTier : StorageTier)
    (result : PushToRemote.PushToRemoteResult) (keep : bool) (displayName : string)
    (sizeMb : Q) (fmt : string) (failed : Home.Banner) (sys sys2 : Sys) (pre : list Call)
    (r : FileRecordInput) :
  calls sys2 = (calls sys ++ pre)%list ->
  forallb (fun c => negb (isRecord c)) pre = true ->
  savesWhatItPublished w s sys
    (finish w storageTier result (Home.recordFor s keep result displayName sizeMb fmt)
       failed sys2) r.
Proof.
  intros Hcalls Hpre.
  destruct (finish_records w storageTier result
              (Home.recordFor s keep result displayName sizeMb fmt) failed sys sys2 pre r
              Hcalls Hpre) as (new & Hnew & Hin & Hpub).
  exists new. split; [exact Hnew |]. split; [exact Hin |].
  intros tier res Heq. destruct (Hpub tier res Heq) as (_ & -> & Hrecord & Hsuccess).
  apply recordFor_Some in Hrecord.
  destruct Hrecord as (_ & Hallowed & Hurl & Hname & Hmail & Hdl & Hsf & _).
  repeat split; assumption.
Qed.

Lemma stops_not_published (o : Home.Outcome) :
  stops o -> forall tier res record, o <> Home.Published tier res record.
Proof. intros Hstops tier res record ->. exact Hstops. Qed.

End RecordsOfHandlers.

(** X14: each upload handler saves a file record exactly when the metadata
    store is configured and the handler published the upload together with
    that record.  Such a record exists only for a successful upload of an
    allowed, signed-in identity whose result has a download URL and a file
    name, and it carries that e-mail address, URL and file name. *)
Theorem records_follow_publication `{Platform}
    (s : Home.HomeState) (w : World) (sys : Sys) (r : FileRecordInput) :
  savesWhatItPublished w s sys (Home.handlePushToRemote s w sys) r
  /\ savesWhatItPublished w s sys (Home.handleQuickUpload s w sys) r
  /\ savesWhatItPublished w s sys (Home.handleParquetUploadToServer s w sys) r.
Proof.
  split; [| split].
  - rewrite handlePushToRemote_run. cbn zeta.
    destruct (pushChecks_calls s (Home.getEffectiveStorageTier s (Home.keepPersistent s)) w sys)
      as (pre & Hpre & Hchecks).
    pose proof (pushChecks_stops s (Home.getEffectiveStorageTier s (Home.keepPersistent s))
                  w sys) as Hstops.
    destruct (Home.pushChecks s _ w sys) as [[e | [o |]] sys1]; cbn [fst snd] in *.
    + apply (stopped_saves w s sys sys1 _ pre r Hpre Hchecks). discriminate.
    + apply (stopped_saves w s sys sys1 _ pre r Hpre Hchecks).
      apply stops_not_published, Hstops. reflexivity.
    + apply (finished_saves w s _ _ _ _ _ _ _ sys _
               (pre ++ pushCalls w (db sys1) (Home.generateDbDisplayName s)
                         (Home.getEffectiveStorageTier s (Home.keepPersistent s)))%list).
      * cbn [calls]. rewrite Hpre, app_assoc. reflexivity.
      * rewrite forallb_app, (checks_no_record _ Hchecks). unfold pushCalls. cbn [forallb].
        destruct (exportOfSession (db sys1)); [reflexivity | apply transferCalls_no_record].
  - destruct (Home.quickStagedFile s) as [file |] eqn:Hfile.
    2:{ unfold Home.handleQuickUpload. rewrite Hfile.
        apply (stopped_saves w s sys sys _ [] r); [symmetry; apply app_nil_r | reflexivity |].
        discriminate. }
    rewrite (handleQuickUpload_run s file w sys Hfile). cbn zeta.
    destruct (quickChecks_calls s file (Home.getEffectiveStorageTier s (Home.keepPersistentQuick s))
                w sys) as (pre & Hpre & Hchecks).
    pose proof (quickChecks_stops s file
                  (Home.getEffectiveStorageTier s (Home.keepPersistentQuick s)) w sys) as Hstops.
    destruct (Home.quickChecks s file _ w sys) as [[e | [o |]] sys1]; cbn [fst snd] in *;
      subst sys1.
    + apply (stopped_saves w s sys (called pre sys) _ pre r eq_refl Hchecks). discriminate.
    + apply (stopped_saves w s sys (called pre sys) _ pre r eq_refl Hchecks).
      apply stops_not_published, Hstops. reflexivity.
    + apply (finished_saves w s _ _ _ _ _ _ _ sys _
               (pre ++ directCalls w file
                         (Home.getEffectiveStorageTier s (Home.keepPersistentQuick s)))%list).
      * cbn [calls called]. rewrite app_assoc. reflexivity.
      * rewrite forallb_app, (checks_no_record _ Hchecks). unfold directCalls.
        destruct (directlyUploadable file); [apply transferCalls_no_record | reflexivity].
  - destruct (Home.parquetResult s) as [[rc [buffer |] [fname |]] |] eqn:Hresult;
      try (unfold Home.handleParquetUploadToServer; rewrite Hresult;
           apply (stopped_saves w s sys sys _ [] r);
           [symmetry; apply app_nil_r | reflexivity | discriminate]).
    destruct (String.eqb fname "") eqn:Hname.
    { unfold Home.handleParquetUploadToServer. rewrite Hresult, Hname.
      apply (stopped_saves w s sys sys _ [] r);
        [symmetry; apply app_nil_r | reflexivity | discriminate]. }
    apply String.eqb_neq in Hname.
    rewrite (handleParquetUploadToServer_run s rc buffer fname w sys Hresult Hname). cbn zeta.
    destruct (parquetChecks_calls s buffer (Home.getEffectiveStorageTier s (Home.keepPersistent s))
                w sys) as (pre & Hpre & Hchecks).
    pose proof (parquetChecks_stops s buffer
                  (Home.getEffectiveStorageTier s (Home.keepPersistent s)) w sys) as Hstops.
    destruct (Home.parquetChecks s buffer _ w sys) as [[e | [o |]] sys1]; cbn [fst snd] in *;
      subst sys1.
    + apply (stopped_saves w s sys (called pre sys) _ pre r eq_refl Hchecks). discriminate.
    + apply (stopped_saves w s sys (called pre sys) _ pre r eq_refl Hchecks).
      apply stops_not_published, Hstops. reflexivity.
    + apply (finished_saves w s _ _ _ _ _ _ _ sys _
               (pre ++ transferCalls w buffer
                         (Js.replaceExt DuckDb.CSV_EXTENSIONS ".parquet" fname)
                         (DuckDb.byteLength buffer)
                         (Home.getEffectiveStorageTier s (Home.keepPersistent s)))%list).
      * cbn [calls called]. rewrite app_assoc. reflexivity.
      * rewrite forallb_app, (checks_no_record _ Hchecks). apply transferCalls_no_record.
Qed.

(** ** Staged and converted files *)

Section Splitting.

Lemma split_nonempty (sep : ascii) (s : string) : Js.split sep s <> [].
Proof.
  induction s as [| c s IH]; cbn [Js.split]; [discriminate |].
  destruct (Ascii.eqb c sep); [discriminate |].
  destruct (Js.split sep s); [contradiction | discriminate].
Qed.

(** A string without the separator is one piece. *)
Lemma split_whole (sep : ascii) (s : string) :
  Js.contains sep s = false -> Js.split sep s = [s].
Proof.
  induction s as [| c s IH]; cbn [Js.split Js.contains]; [reflexivity |]. intros Hc.
  apply orb_false_elim in Hc. destruct Hc as [Hhead Hrest].
  rewrite Hhead, (IH Hrest). reflexivity.
Qed.

(** The pieces of a string that holds the separator end with the pieces of
    what follows it. *)
Lemma split_after (sep : ascii) (p rest : string) :
  exists front, front <> [] /\ Js.split sep (p ++ String sep rest) = (front ++ Js.split sep rest)%list.
Proof.
  induction p as [| c p IH].
  - exists [""]. split; [discriminate |].
    change ("" ++ String sep rest) with (String sep rest).
    cbn [Js.split]. rewrite Ascii.eqb_refl. reflexivity.
  - destruct IH as (front & Hfront & Heq). rewrite append_cons. cbn [Js.split]. rewrite Heq.
    destruct (Ascii.eqb c sep).
    + exists ("" :: front). split; [discriminate | reflexivity].
    + destruct front as [| h t]; [contradiction |].
      exists (String c h :: t). split; [discriminate | reflexivity].
Qed.

Lemma last_split (sep : ascii) (p e : string) :
  Js.contains sep e = false -> last (Js.split sep (p ++ String sep e)) = Some e.
Proof.
  intros He. destruct (split_after sep p e) as (front & _ & ->).
  rewrite (split_whole sep e He), last_snoc. reflexivity.
Qed.

End Splitting.

Section Uploadable.

(** The extensions the drop zone of Quick Upload accepts pass the test of
    [uploadDirectFile]. *)
Lemma quick_extension_uploadable (file : File) :
  Js.testExt Home.QUICK_EXTENSIONS (name file) = true -> directlyUploadable file = true.
Proof.
  intros Htest. apply testExt_hit in Htest.
  destruct Htest as (base & sfx & e & (Hname & Hin & Hsfx) & _).
  apply dotted_suffix in Hsfx. destruct Hsfx as (e' & -> & He').
  assert (Js.contains "."%char e = false) as Hnodot.
  { destruct Hin as [<- | [<- | [<- | []]]]; reflexivity. }
  assert (option_map Js.toLowerCase (last (Js.split "."%char (name file))) = Some e) as Hlast.
  { rewrite Hname.
    change ("." ++ e') with (String "."%char e').
    rewrite last_split; [cbn; rewrite He'; reflexivity |].
    apply contains_toLowerCase_dot. rewrite He'. exact Hnodot. }
  unfold directlyUploadable. rewrite Hlast.
  destruct Hin as [<- | [<- | [<- | []]]]; reflexivity.
Qed.

Lemma handleQuickDrop_staged (s : Home.HomeState) (dropped : list File) (file : File) :
  Home.handleQuickDrop s dropped = Home.Staged file ->
  In file dropped /\ Js.testExt Home.QUICK_EXTENSIONS (name file) = true
  /\ Home.isRoleLoading s = false.
Proof.
  unfold Home.handleQuickDrop.
  destruct (Home.isRoleLoading s); [discriminate |].
  destruct (filter _ dropped) as [| f [| g rest]] eqn:Hfilter; try discriminate.
  assert (f ∈ filter (fun f => Is_true (Js.testExt Home.QUICK_EXTENSIONS (name f))) dropped)
    as Hin by (rewrite Hfilter; left).
  apply list_elem_of_filter in Hin. destruct Hin as [Htest Hin].
  intros Hstaged.
  assert (f = file) as ->.
  { destruct (negb _); [destruct (Js.gt _ _); [discriminate |] |];
      inversion Hstaged; reflexivity. }
  split; [apply list_elem_of_In; exact Hin |].
  split; [apply Is_true_true; exact Htest | reflexivity].
Qed.

End Uploadable.

(** X15: a file that the drop zone of Quick Upload stages has an extension
    that [uploadDirectFile] supports: its upload is never refused for its
    extension, and resolves to what the token request and the transfer
    give. *)
Theorem dropped_file_passes_extension_test `{Platform}
    (s : Home.HomeState) (dropped : list File) (file : File)
    (storageTier : StorageTier) (w : World) (sys : Sys) :
  Home.handleQuickDrop s dropped = Home.Staged file ->
  directlyUploadable file = true
  /\ fst (PushToRemote.uploadDirectFile file storageTier w sys)
     = inr (settle (transferOf w (content file) (name file) (size file) storageTier)).
Proof.
  intros Hstaged. apply handleQuickDrop_staged in Hstaged.
  destruct Hstaged as (_ & Htest & _).
  pose proof (quick_extension_uploadable file Htest) as Hok.
  split; [exact Hok |]. rewrite uploadDirectFile_fst, Hok. reflexivity.
Qed.

Lemma dropped_file_passes_extension_test_witness :
  directlyUploadable demoParquet = true.
Proof.
  apply (@dropped_file_passes_extension_test demoPlatform proState [threeRows; demoParquet]
           demoParquet temp demoWorld idleSys).
  vm_compute. reflexivity.
Defined.

Section ConvertedNames.

Lemma parquet_name_has_no_delimited_extension (base : string) :
  Js.testExt DuckDb.CSV_EXTENSIONS (base ++ ".parquet") = false.
Proof.
  unfold Js.testExt, DuckDb.CSV_EXTENSIONS. cbn [existsb].
  rewrite toLowerCase_append.
  change (Js.toLowerCase ".parquet") with ".parquet".
  rewrite !endsWith_append by (apply Nat.leb_le; vm_compute; reflexivity). reflexivity.
Qed.

Lemma replaceExt_parquet (base : string) :
  Js.replaceExt ["parquet"] "" (base ++ ".parquet") = base.
Proof.
  cbn [Js.replaceExt].
  assert (Js.endsWith (Js.toLowerCase (base ++ ".parquet")) ("." ++ "parquet") = true) as ->.
  { apply endsWith_spec. exists (Js.toLowerCase base). apply toLowerCase_append. }
  rewrite length_append.
  replace (String.length base + String.length ".parquet" - String.length "parquet" - 1)%nat
    with (String.length base) by (change (String.length ".parquet") with 8%nat;
                                  change (String.length "parquet") with 7%nat; lia).
  rewrite substring_prefix. apply append_nil_r.
Qed.

End ConvertedNames.

(** X16: for a file with a delimited extension the page and the engine
    agree on the name of the converted file: the name the page stores (the
    extension replaced by [.parquet]) is the file the engine wrote,
    [uploadParquetBuffer] sends it under that same name, its display name is
    the source name without extension, and a successful conversion stores the
    buffer, the row count and that name. *)
Theorem converted_file_keeps_one_name `{Platform} (file : File) (w : World) (sys : Sys) :
  Js.testExt DuckDb.CSV_EXTENSIONS (name file) = true ->
  let parquetFilename := Js.replaceExt DuckDb.CSV_EXTENSIONS ".parquet" (name file) in
  outputFile file = parquetFilename
  /\ Js.replaceExt DuckDb.CSV_EXTENSIONS ".parquet" parquetFilename = parquetFilename
  /\ Js.replaceExt ["parquet"] "" parquetFilename
     = Js.replaceExt DuckDb.CSV_EXTENSIONS "" (name file)
  /\ Js.endsWith parquetFilename ".parquet" = true
  /\ (forall buffer n d1,
        DuckDb.convertCsvToParquet file (db sys) = (inr (buffer, n), d1) ->
        Home.convert file w sys
        = (Home.Converted {| Home.rowCount := Some n; Home.localBuffer := Some buffer;
                             Home.pr_filename := Some parquetFilename |},
           {| db := d1; calls := calls sys |})
        /\ files d1 !! parquetFilename = Some buffer).
Proof.
  intros Htest parquetFilename.
  destruct (testExt_hit _ _ Htest) as (base & sfx & e & _ & Hrepl).
  assert (parquetFilename = base ++ ".parquet") as Hname by apply Hrepl.
  assert (outputFile file = parquetFilename) as Hout.
  { unfold outputFile. rewrite Hrepl, Hname, append_nil_r. reflexivity. }
  split; [exact Hout |].
  split; [rewrite Hname; apply testExt_miss, parquet_name_has_no_delimited_extension |].
  split; [rewrite Hname, replaceExt_parquet, Hrepl, append_nil_r; reflexivity |].
  split; [rewrite Hname; apply endsWith_spec; exists base; reflexivity |].
  intros buffer n d1 Hrun. split.
  - unfold Home.convert, ActM.bind, ActM.ret. rewrite engine_eq, Hrun. reflexivity.
  - rewrite convertCsvToParquet_eq in Hrun. cbn zeta in Hrun.
    destruct (Js.contains DuckDb.SQUOTE (name file)); [discriminate |].
    destruct (read_csv _ _) as [e' | t]; [discriminate |].
    inversion Hrun. subst. cbn [files]. rewrite Hout. apply lookup_insert_eq.
Qed.

Lemma converted_file_keeps_one_name_witness :
  @Home.convert demoPlatform {| name := "Q1.Sales.CSV"; content := content threeRows |}
    demoWorld idleSys
  = (Home.Converted {| Home.rowCount := Some 3%N;
                       Home.localBuffer := Some "PAR11,a,2,b,3,cPAR1";
                       Home.pr_filename := Some "Q1.Sales.parquet" |},
     {| db := snd (@DuckDb.convertCsvToParquet demoPlatform
                     {| name := "Q1.Sales.CSV"; content := content threeRows |} emptyDb);
        calls := [] |}).
Proof.
  apply (proj2 (proj2 (proj2 (proj2
           (@converted_file_keeps_one_name demoPlatform
              {| name := "Q1.Sales.CSV"; content := content threeRows |} demoWorld idleSys
              eq_refl))))).
  vm_compute. reflexivity.
Defined.

(** ** Lookups that fail *)

(** X17: when the limits of an identity cannot be read (the request throws,
    or the answer has no [limits]), [getEffectiveLimits] answers no limit,
    [validateUpload] allows any file whatever the file count, and the checks
    of a persistent upload never show the file limit. *)
Theorem limits_lookup_fails_open
    (w : World) (email : string) (fileSizeMb estimatedMb : Q) (sys sys' : Sys) :
  (exists e, user_limits w email = Threw e) \/ user_limits w email = Replied None ->
  let limits := fst (NeonDb.getEffectiveLimits email w sys) in
  let validation := fst (NeonDb.validateUpload email fileSizeMb limits w sys') in
  limits = ∅
  /\ NeonDb.allowed validation = true
  /\ NeonDb.maxFiles validation = None
  /\ (forall count maxFiles,
        fst (Home.persistentChecks email fileSizeMb estimatedMb w sys)
        <> inr (Some (Home.FileLimitModal count maxFiles))).
Proof.
  intros Hfailed limits validation.
  assert (limitsOf w email = ∅) as Hnone.
  { unfold limitsOf. destruct Hfailed as [[e ->] | ->]; reflexivity. }
  assert (limits = ∅) as Hlimits by (unfold limits; rewrite getEffectiveLimits_eq; exact Hnone).
  split; [exact Hlimits |].
  unfold validation. rewrite validateUpload_eq, Hlimits. cbn [fst].
  split; [reflexivity |]. split; [reflexivity |].
  intros count maxFiles. rewrite persistentChecks_eq. cbn [fst].
  unfold persistentVerdict. rewrite Hnone. cbn.
  destruct (statusOf w persistent) as [st |]; [| discriminate].
  destruct (_ || _); discriminate.
Qed.

Lemma limits_lookup_fails_open_witness :
  let w := {| isNeonDataConfigured := true;
              user_limits := fun _ => Threw "Not authenticated";
              files_count := fun _ => Replied (Some 99%Q);
              api_status := api_status demoWorld;
              api_upload_token := api_upload_token demoWorld;
              xhr_post := xhr_post demoWorld |} in
  NeonDb.allowed
    (fst (NeonDb.validateUpload "pro@example.com" 500
            (fst (NeonDb.getEffectiveLimits "pro@example.com" w idleSys)) w idleSys))
  = true.
Proof.
  intros w.
  apply (limits_lookup_fails_open w "pro@example.com" 500 0 idleSys idleSys).
  left. exists "Not authenticated". reflexivity.
Defined.

(** X18: when the file count cannot be read (the metadata store is not
    configured, the request throws, or the answer has no [count])
    [getUserFileCount] answers 0, without a request when the store is not
    configured; [validateUpload] then never refuses for a positive
    [max_files]. *)
Theorem count_lookup_fails_open
    (w : World) (email : string) (fileSizeMb : Q) (limits : Limits) (sys : Sys) :
  isNeonDataConfigured w = false
  \/ (exists e, files_count w email = Threw e)
  \/ files_count w email = Replied None ->
  fst (NeonDb.getUserFileCount email w sys) = 0%Q
  /\ (isNeonDataConfigured w = false -> snd (NeonDb.getUserFileCount email w sys) = sys)
  /\ let validation := fst (NeonDb.validateUpload email fileSizeMb limits w sys) in
     NeonDb.userFileCount validation = 0%Q
     /\ (forall maxFiles,
           NeonDb.limit limits "max_files" = Some maxFiles -> (0 < maxFiles)%Q ->
           NeonDb.reason validation <> Some (NeonDb.FileLimitReached (Some maxFiles))).
Proof.
  intros Hfailed.
  assert (fileCountOf w email = 0%Q) as Hzero.
  { unfold fileCountOf. destruct Hfailed as [-> | [[e ->] | ->]]; [reflexivity | |];
      destruct (negb _); reflexivity. }
  rewrite getUserFileCount_eq, validateUpload_eq, Hzero. cbn [fst snd].
  split; [reflexivity |]. split.
  { intros Hconf. unfold counted. rewrite Hconf. reflexivity. }
  unfold validationOf. split.
  - destruct (NeonDb.reaches _ _); [reflexivity |]. destruct (NeonDb.exceeds _ _); reflexivity.
  - intros maxFiles Hmax Hpos. rewrite Hmax. unfold NeonDb.reaches, Js.ge.
    destruct (Qle_bool maxFiles 0) eqn:Hle.
    + apply Qle_bool_iff in Hle. exfalso. exact (Qlt_not_le _ _ Hpos Hle).
    + destruct (NeonDb.exceeds _ _); discriminate.
Qed.

Lemma count_lookup_fails_open_witness :
  let w := {| isNeonDataConfigured := true;
              user_limits := user_limits demoWorld;
              files_count := fun _ => Threw "Neon API error: 500 - ";
              api_status := api_status demoWorld;
              api_upload_token := api_upload_token demoWorld;
              xhr_post := xhr_post demoWorld |} in
  fst (NeonDb.getUserFileCount "pro@example.com" w idleSys) = 0%Q.
Proof.
  intros w.
  apply (count_lookup_fails_open w "pro@example.com" 0 ∅ idleSys).
  right. left. exists "Neon API error: 500 - ". reflexivity.
Defined.

(** X19: when the status request of the persistent tier fails (it throws or
    answers a status that is not ok), [getStorageStatus] answers [null] and
    the checks of a persistent upload that [validateUpload] allows let it
    proceed, whatever its size; the status was requested. *)
Theorem capacity_lookup_fails_open
    (w : World) (email : string) (fileSizeMb estimatedMb : Q) (sys : Sys) :
  api_status w persistent = StatusThrew \/ (exists status, api_status w persistent = StatusNotOk status) ->
  NeonDb.allowed (fst (NeonDb.validateUpload email fileSizeMb
                         (fst (NeonDb.getEffectiveLimits email w sys)) w sys)) = true ->
  fst (PushToRemote.getStorageStatus persistent w sys) = None
  /\ fst (Home.persistentChecks email fileSizeMb estimatedMb w sys) = inr None
  /\ In (GetStorageStatus persistent)
        (calls (snd (Home.persistentChecks email fileSizeMb estimatedMb w sys))).
Proof.
  intros Hfailed. rewrite getEffectiveLimits_eq, validateUpload_eq. cbn [fst]. intros Hallowed.
  assert (statusOf w persistent = None) as Hnone.
  { unfold statusOf. destruct Hfailed as [-> | [status ->]]; reflexivity. }
  rewrite getStorageStatus_eq, persistentChecks_eq. cbn [fst snd].
  unfold persistentVerdict, persistentQueried. rewrite Hallowed, Hnone. cbn [negb].
  split; [reflexivity |]. split; [reflexivity |]. apply capacity_queried.
Qed.

Lemma capacity_lookup_fails_open_witness :
  let w := {| isNeonDataConfigured := true;
              user_limits := user_limits fullWorld;
              files_count := files_count fullWorld;
              api_status := fun _ => StatusNotOk 500;
              api_upload_token := api_upload_token demoWorld;
              xhr_post := xhr_post demoWorld |} in
  fst (Home.persistentChecks "pro@example.com" 1 1000000 w idleSys) = inr None.
Proof.
  intros w.
  apply (capacity_lookup_fails_open w "pro@example.com" 1 1000000 idleSys).
  - right. exists 500%N. reflexivity.
  - vm_compute. reflexivity.
Defined.

(** ** Size limits *)

(** X20: a Quick Upload to the persistent tier that [validateUpload]
    refuses because the file exceeds [max_file_size_mb] is shown as the file
    limit (the file count and the maximum of files) although the count is
    below the maximum; only the limits and the count were read. *)
Theorem size_refusal_shows_file_limit `{Platform}
    (s : Home.HomeState) (file : File) (w : World) (sys : Sys) (email : string)
    (maxFileSizeMb : Q) :
  Home.userRole s <> admin ->
  Home.quickStagedFile s = Some file ->
  Home.persistentRequest s (Home.keepPersistentQuick s)
    (Home.getEffectiveStorageTier s (Home.keepPersistentQuick s)) = Some email ->
  NeonDb.reaches (fileCountOf w email) (NeonDb.limit (limitsOf w email) "max_files") = false ->
  NeonDb.limit (limitsOf w email) "max_file_size_mb" = Some maxFileSizeMb ->
  (maxFileSizeMb < megabytes (size file))%Q ->
  NeonDb.reason (fst (NeonDb.validateUpload email (megabytes (size file)) (limitsOf w email)
                        w sys))
  = Some (NeonDb.FileSizeExceeds (megabytes (size file)) (Some maxFileSizeMb))
  /\ Home.handleQuickUpload s w sys
     = (Home.FileLimitModal
          (Js.orNum (fileCountOf w email) 0)
          match NeonDb.limit (limitsOf w email) "max_files" with
          | Some m => Js.orNum m 2
          | None => 2%Q
          end,
        counted w email (logged (GetEffectiveLimits email) sys)).
Proof.
  intros Hrole Hfile Hrequest Hbelow Hmax Hlarge.
  assert (validationOf (fileCountOf w email) (megabytes (size file)) (limitsOf w email)
          = {| NeonDb.allowed := false;
               NeonDb.reason := Some (NeonDb.FileSizeExceeds (megabytes (size file))
                                        (Some maxFileSizeMb));
               NeonDb.userFileCount := fileCountOf w email;
               NeonDb.maxFiles := NeonDb.limit (limitsOf w email) "max_files" |}) as Hval.
  { unfold validationOf. rewrite Hbelow, Hmax. unfold NeonDb.exceeds.
    apply gt_spec in Hlarge. rewrite Hlarge. reflexivity. }
  split; [rewrite validateUpload_eq; cbn [fst]; rewrite Hval; reflexivity |].
  apply (handleQuickUpload_stopped s file w sys _ _ Hfile).
  rewrite (quickChecks_eq s file _ w sys Hrole), Hrequest, persistentChecks_eq.
  unfold persistentVerdict, persistentQueried. rewrite Hval. reflexivity.
Qed.

(** A world in which the identity may keep 5 files of at most 0 MB each and
    holds one. *)
Definition tinyLimitWorld : World :=
  {| isNeonDataConfigured := true;
     user_limits := fun _ =>
       Replied (Some (<["max_file_size_mb" := Some 0%Q]> {[ "max_files" := Some 5%Q ]}));
     files_count := fun _ => Replied (Some 1%Q);
     api_status := api_status demoWorld;
     api_upload_token := api_upload_token demoWorld;
     xhr_post := xhr_post demoWorld |}.

Lemma size_refusal_shows_file_limit_witness :
  fst (@Home.handleQuickUpload demoPlatform proState tinyLimitWorld idleSys)
  = Home.FileLimitModal 1 5.
Proof.
  rewrite (proj2 (@size_refusal_shows_file_limit demoPlatform proState demoParquet
                    tinyLimitWorld idleSys "pro@example.com" 0 ltac:(discriminate)
                    eq_refl eq_refl eq_refl eq_refl eq_refl)).
  reflexivity.
Defined.

(** X21: the upload of a built database passes the size 0 to
    [validateUpload], so a [max_file_size_mb] that is not negative never
    refuses it: for an estimate within the ceiling the validation allows the
    upload exactly when the file count is below [max_files], and then the
    handler never shows the file limit. *)
Theorem build_ignores_file_size_limit `{Platform}
    (s : Home.HomeState) (w : World) (sys : Sys) (email : string) (bytes : N) :
  Home.userRole s <> admin ->
  Home.persistentRequest s (Home.keepPersistent s)
    (Home.getEffectiveStorageTier s (Home.keepPersistent s)) = Some email ->
  fst (DuckDb.estimateDatabaseSize (db sys)) = inr bytes ->
  (megabytes bytes * 2 <= 75)%Q ->
  (forall maxFileSizeMb,
     NeonDb.limit (limitsOf w email) "max_file_size_mb" = Some maxFileSizeMb ->
     (0 <= maxFileSizeMb)%Q) ->
  fst (Home.pushChecks s (Home.getEffectiveStorageTier s (Home.keepPersistent s)) w sys)
  = persistentVerdict w email 0 (megabytes bytes * 2)%Q
  /\ NeonDb.allowed (validationOf (fileCountOf w email) 0 (limitsOf w email))
     = negb (NeonDb.reaches (fileCountOf w email)
               (NeonDb.limit (limitsOf w email) "max_files"))
  /\ (NeonDb.reaches (fileCountOf w email) (NeonDb.limit (limitsOf w email) "max_files")
      = false ->
      forall count maxFiles,
        fst (Home.handlePushToRemote s w sys) <> Home.FileLimitModal count maxFiles).
Proof.
  intros Hrole Hrequest Hbytes Hfits Hlimit.
  assert (fst (Home.pushChecks s (Home.getEffectiveStorageTier s (Home.keepPersistent s)) w sys)
          = persistentVerdict w email 0 (megabytes bytes * 2)%Q) as Hchecks.
  { rewrite (pushChecks_eq s _ w sys Hrole), (estimate_pairing (db sys)), Hbytes. cbn zeta.
    apply gt_false in Hfits. rewrite Hfits, Hrequest, persistentChecks_eq. reflexivity. }
  assert (NeonDb.exceeds 0 (NeonDb.limit (limitsOf w email) "max_file_size_mb") = false)
    as Hsize.
  { unfold NeonDb.exceeds.
    destruct (NeonDb.limit (limitsOf w email) "max_file_size_mb") as [m |] eqn:Hm;
      [| reflexivity].
    apply gt_false, Hlimit. reflexivity. }
  assert (NeonDb.allowed (validationOf (fileCountOf w email) 0 (limitsOf w email))
          = negb (NeonDb.reaches (fileCountOf w email)
                    (NeonDb.limit (limitsOf w email) "max_files"))) as Hallowed.
  { unfold validationOf. destruct (NeonDb.reaches _ _); [reflexivity |].
    rewrite Hsize. reflexivity. }
  split; [exact Hchecks |]. split; [exact Hallowed |].
  intros Hbelow count maxFiles. rewrite Hbelow in Hallowed. cbn [negb] in Hallowed.
  rewrite handlePushToRemote_run. cbn zeta.
  destruct (Home.pushChecks s _ w sys) as [checked sys1]. cbn [fst] in Hchecks. subst checked.
  unfold persistentVerdict. rewrite Hallowed. cbn [negb].
  destruct (statusOf w persistent) as [st |].
  - destruct (_ || _); [discriminate |].
    unfold finish. destruct (PushToRemote.success _); discriminate.
  - unfold finish. destruct (PushToRemote.success _); discriminate.
Qed.

Lemma build_ignores_file_size_limit_witness :
  NeonDb.allowed (validationOf (fileCountOf tinyLimitWorld "pro@example.com") 0
                    (limitsOf tinyLimitWorld "pro@example.com")) = true
  /\ fst (@Home.handlePushToRemote demoPlatform proState tinyLimitWorld oneTableSys)
     <> Home.FileLimitModal 1 5.
Proof.
  destruct (@build_ignores_file_size_limit demoPlatform proState tinyLimitWorld oneTableSys
              "pro@example.com" 15%N) as (_ & Hallowed & Hnot).
  - discriminate.
  - reflexivity.
  - vm_compute. reflexivity.
  - vm_compute. discriminate.
  - intros m Hm. vm_compute in Hm. inversion Hm. discriminate.
  - split; [rewrite Hallowed; reflexivity | apply Hnot; reflexivity].
Defined.

(** X22: for an identity that is not an administrator, a [.parquet] file of
    more than 75 MB and at most 150 MB is refused when it is dropped on Quick
    Upload but staged when it is chosen through the file input; with [Keep
    persistent] unchecked the checks of the upload then let it through. *)
Theorem parquet_ceiling_depends_on_entry
    (s : Home.HomeState) (file : File) (rest : list File) (w : World) (sys : Sys) :
  Home.userRole s <> admin ->
  Home.isRoleLoading s = false ->
  Js.endsWith (Js.toLowerCase (name file)) ".parquet" = true ->
  (75 < megabytes (size file))%Q ->
  (megabytes (size file) <= 150)%Q ->
  Home.handleQuickDrop s [file]
  = Home.Refused (Home.FileTooLarge "Parquet" (megabytes (size file)) 75)
  /\ Home.handleQuickFileInput s (file :: rest) = Home.Staged file
  /\ (Home.keepPersistentQuick s = false ->
      forall storageTier, Home.quickChecks s file storageTier w sys = (inr None, sys)).
Proof.
  intros Hrole Hloaded Hparquet Hover Hunder. split; [| split].
  - unfold Home.handleQuickDrop. rewrite Hloaded.
    assert (Js.testExt Home.QUICK_EXTENSIONS (name file) = true) as Hext.
    { unfold Js.testExt, Home.QUICK_EXTENSIONS. cbn [existsb].
      change ("." ++ "parquet") with ".parquet". rewrite Hparquet. reflexivity. }
    rewrite filter_cons, filter_nil, decide_True by (rewrite Hext; exact I).
    rewrite bool_decide_eq_false_2 by exact Hrole. cbn [negb]. rewrite Hparquet.
    apply gt_spec in Hover. rewrite Hover. reflexivity.
  - unfold Home.handleQuickFileInput. rewrite Hloaded.
    rewrite bool_decide_eq_false_2 by exact Hrole. cbn [negb].
    apply gt_false in Hunder. unfold Home.MAX_UPLOAD_SIZE_MB. rewrite Hunder. reflexivity.
  - intros Hbox storageTier. unfold Home.quickChecks, Home.persistentRequest.
    rewrite bool_decide_eq_false_2 by exact Hrole. rewrite Hbox. reflexivity.
Qed.

Definition bulkyParquet : File := {| name := "Big.Parquet"; content := bulk 80000000 |}.

Lemma parquet_ceiling_depends_on_entry_witness :
  Home.handleQuickDrop proState [bulkyParquet]
  = Home.Refused (Home.FileTooLarge "Parquet" (megabytes (size bulkyParquet)) 75)
  /\ Home.handleQuickFileInput proState [bulkyParquet] = Home.Staged bulkyParquet.
Proof.
  assert (size bulkyParquet = 80000000%N) as Hsize
    by (change (size bulkyParquet) with (DuckDb.byteLength (bulk 80000000));
        apply bulk_length).
  destruct (parquet_ceiling_depends_on_entry proState bulkyParquet [] demoWorld idleSys)
    as (Hdrop & Hinput & _).
  - discriminate.
  - reflexivity.
  - reflexivity.
  - rewrite Hsize. reflexivity.
  - rewrite Hsize. discriminate.
  - split; [exact Hdrop | exact Hinput].
Defined.

(** ** The ceiling of Quick Upload *)

Section QuickCeiling.

Lemma handleQuickDrop_parquet_over (s : Home.HomeState) (file : File) :
  Home.userRole s <> admin ->
  Home.isRoleLoading s = false ->
  Js.endsWith (Js.toLowerCase (name file)) ".parquet" = true ->
  (75 < megabytes (size file))%Q ->
  Home.handleQuickDrop s [file]
  = Home.Refused (Home.FileTooLarge "Parquet" (megabytes (size file)) 75).
Proof.
  intros Hrole Hloaded Hparquet Hover. unfold Home.handleQuickDrop. rewrite Hloaded.
  assert (Js.testExt Home.QUICK_EXTENSIONS (name file) = true) as Hext.
  { unfold Js.testExt, Home.QUICK_EXTENSIONS. cbn [existsb].
    change ("." ++ "parquet") with ".parquet". rewrite Hparquet. reflexivity. }
  rewrite filter_cons, filter_nil, decide_True by (rewrite Hext; exact I).
  rewrite bool_decide_eq_false_2 by exact Hrole. cbn [negb]. rewrite Hparquet.
  apply gt_spec in Hover. rewrite Hover. reflexivity.
Qed.

Lemma handleQuickFileInput_under (s : Home.HomeState) (file : File) (rest : list File) :
  Home.userRole s <> admin ->
  Home.isRoleLoading s = false ->
  (megabytes (size file) <= 150)%Q ->
  Home.handleQuickFileInput s (file :: rest) = Home.Staged file.
Proof.
  intros Hrole Hloaded Hunder. unfold Home.handleQuickFileInput. rewrite Hloaded.
  rewrite bool_decide_eq_false_2 by exact Hrole. cbn [negb].
  apply gt_false in Hunder. unfold Home.MAX_UPLOAD_SIZE_MB. rewrite Hunder. reflexivity.
Qed.

End QuickCeiling.

(** A columnar file of 80 000 000 bytes, about 76.3 MB. *)
Definition heavyParquet : File := {| name := "sales.parquet"; content := bulk 80000000 |}.

(** The page of [proState] once the file input of Quick Upload has staged
    [heavyParquet], with [Keep persistent] checked and unchecked. *)
Definition heavyState (keep : bool) : Home.HomeState :=
  {| Home.user := Some proUser; Home.isAllowed := true;
     Home.userStorageTier := persistent; Home.userRole := pro;
     Home.isRoleLoading := false;
     Home.keepPersistent := true; Home.keepPersistentQuick := keep;
     Home.tables := Home.tables proState;
     Home.quickStagedFile := Some heavyParquet;
     Home.parquetResult := Home.parquetResult proState |}.

(** C1: the ceiling of a columnar file, 75 MB, which the drop zone of
    Quick Upload applies, is not applied to a file chosen through the file
    input of Quick Upload.  For an identity of role [pro] and a file
    [sales.parquet] of 80 000 000 bytes: dropped, the file is refused as too
    large, with the limit 75 and its size; chosen through the file input it
    is staged; its upload to the persistent tier then reaches the file-count
    quota, which refuses it for the count, and its upload to the temporary
    tier is let through. *)
Theorem quick_file_input_skips_parquet_ceiling :
  size heavyParquet = 80000000%N
  /\ Home.decision (Home.handleQuickDrop proState [heavyParquet])
     = Some (Home.DENY Home.ARTIFACT_TOO_LARGE
               [("limitMB", 75%Q); ("actualMB", megabytes 80000000)])
  /\ Home.handleQuickFileInput proState [heavyParquet] = Home.Staged heavyParquet
  /\ Home.decision (fst (@Home.handleQuickUpload demoPlatform (heavyState true)
                           demoWorld idleSys))
     = Some (Home.DENY Home.FILE_COUNT_LIMIT [("currentCount", 2%Q); ("maxCount", 2%Q)])
  /\ Home.decision (fst (@Home.handleQuickUpload demoPlatform (heavyState false)
                           demoWorld idleSys))
     = Some Home.ALLOW.
Proof.
  assert (size heavyParquet = 80000000%N) as Hsize
    by (change (size heavyParquet) with (DuckDb.byteLength (bulk 80000000));
        apply bulk_length).
  assert (Hrole : Home.userRole proState <> admin) by discriminate.
  split; [exact Hsize |]. split; [| split; [| split]].
  - rewrite handleQuickDrop_parquet_over.
    + rewrite Hsize. reflexivity.
    + exact Hrole.
    + reflexivity.
    + reflexivity.
    + rewrite Hsize. reflexivity.
  - apply handleQuickFileInput_under.
    + exact Hrole.
    + reflexivity.
    + rewrite Hsize. discriminate.
  - assert (@Home.handleQuickUpload demoPlatform (heavyState true) demoWorld idleSys
            = (Home.FileLimitModal (Js.orNum (fileCountOf demoWorld "pro@example.com") 0)
                 (Js.orNum 2 2),
               counted demoWorld "pro@example.com"
                 (logged (GetEffectiveLimits "pro@example.com") idleSys))) as Hrun.
    { apply (@handleQuickUpload_stopped demoPlatform (heavyState true) heavyParquet);
        [reflexivity |].
      rewrite (quickChecks_eq (heavyState true) heavyParquet _ demoWorld idleSys)
        by discriminate.
      change (Home.persistentRequest (heavyState true)
                (Home.keepPersistentQuick (heavyState true))
                (Home.getEffectiveStorageTier (heavyState true)
                   (Home.keepPersistentQuick (heavyState true))))
        with (Some "pro@example.com").
      cbv iota.
      apply (persistentChecks_file_count "pro@example.com" _ _ demoWorld idleSys 2%Q).
      - reflexivity.
      - vm_compute. discriminate. }
    rewrite Hrun. reflexivity.
  - apply (@handleQuickUpload_proceeds demoPlatform (heavyState false) heavyParquet
             demoWorld idleSys idleSys); [reflexivity |].
    rewrite (quickChecks_eq (heavyState false) heavyParquet _ demoWorld idleSys)
      by discriminate.
    reflexivity.
Qed.

(** ** The identity *)

Section Access.

(** X23: [refreshSession] ends the loading of the session.  With an active
    session the identity is signed in, and it is refused only when the
    metadata store is configured and [user.check] answered a falsy
    [allowed]; when the check throws, the identity is allowed, with no user
    record and no limit.  Without a session nobody is signed in or
    allowed. *)
Theorem access_check_fails_open (w : World) (acc : Accounts) (a : AuthContext.AuthState) :
  let a' := AuthContext.refreshSession w acc a in
  AuthContext.isLoading a' = false
  /\ (forall id email, auth_getSession acc = ActiveSession id email ->
        AuthContext.user a' = Some {| Home.id := id; Home.email := email |}
        /\ (Js.truthy (AuthContext.isAllowed a') = false
            <-> isNeonDataConfigured w = true
                /\ exists allowed role limits,
                     user_check acc email = CheckReplied allowed role limits
                     /\ Js.truthy allowed = false)
        /\ (forall e, user_check acc email = CheckThrew e ->
              AuthContext.isAllowed a' = Js.VBool true
              /\ AuthContext.appUser a' = None
              /\ AuthContext.limits a' = ∅))
  /\ ((forall id email, auth_getSession acc <> ActiveSession id email) ->
        AuthContext.user a' = None /\ AuthContext.isAllowed a' = Js.VBool false).
Proof.
  intros a'. subst a'. unfold AuthContext.refreshSession.
  split; [reflexivity |]. split.
  - intros id email ->. cbn. split; [reflexivity |].
    unfold NeonDb.checkUserAccess. split; [split |].
    + destruct (isNeonDataConfigured w); cbn; [| discriminate].
      destruct (user_check acc email) as [e | allowed role limits]; cbn;
        [discriminate |].
      intros Hfalsy. split; [reflexivity |]. exists allowed, role, limits. auto.
    + intros (-> & allowed & role & limits & -> & Hfalsy). exact Hfalsy.
    + intros e ->. destruct (isNeonDataConfigured w); cbn; auto.
  - intros Hnone. destruct (auth_getSession acc) as [| | id email]; cbn; auto.
    exfalso. apply (Hnone id email). reflexivity.
Qed.

(** X24: once [loadUserRole] has run the role is loaded, and an upload goes
    to the permanent tier exactly when its box is checked and the identity is
    allowed, signed in, and [user.role] answered the string [admin]; with any
    other answer, or a failed request, such an upload goes to the persistent
    tier.  The role is [admin] exactly when the tier of the identity is
    permanent. *)
Theorem role_lookup_decides_tier (acc : Accounts) (s : Home.HomeState) (checked : bool) :
  let s' := Home.loadUserRole acc s in
  Home.isRoleLoading s' = false
  /\ (Home.getEffectiveStorageTier s' checked = permanent
      <-> checked = true /\ Home.isAllowed s = true
          /\ exists email, Home.userEmail s = Some email
                           /\ user_role acc email = Replied (Some (Js.VStr "admin")))
  /\ (Home.getEffectiveStorageTier s' checked = persistent
      <-> checked = true /\ Home.isAllowed s = true
          /\ exists email, Home.userEmail s = Some email
                           /\ user_role acc email <> Replied (Some (Js.VStr "admin")))
  /\ (Home.userRole s' = admin <-> Home.userStorageTier s' = permanent).
Proof.
  intros s'. subst s'. unfold Home.loadUserRole.
  change (Home.userEmail (Home.loadUserRole_start s)) with (Home.userEmail s).
  change (Home.isAllowed (Home.loadUserRole_start s)) with (Home.isAllowed s).
  assert (Hrole : forall email,
             NeonDb.getUserRole acc email = admin
             <-> user_role acc email = Replied (Some (Js.VStr "admin"))).
  { intros email. unfold NeonDb.getUserRole.
    destruct (user_role acc email) as [e | [[| | b | q | r |] |]];
      try (split; discriminate).
    destruct (String.eqb r "admin") eqn:Hr.
    - apply String.eqb_eq in Hr. subst r. split; reflexivity.
    - split; [discriminate |]. intros Heq. inversion Heq; subst.
      rewrite String.eqb_refl in Hr. discriminate. }
  destruct (Home.userEmail s) as [email |] eqn:Hemail.
  - destruct (Home.isAllowed s) eqn:Hallowed.
    + unfold Home.loadUserRole_finish, Home.getEffectiveStorageTier.
      change (Home.userEmail (Home.loadUserRole_start s)) with (Home.userEmail s).
      change (Home.isAllowed (Home.loadUserRole_start s)) with (Home.isAllowed s).
      rewrite Hemail, Hallowed. cbn.
      specialize (Hrole email).
      destruct (NeonDb.getUserRole acc email) eqn:Hgot; destruct checked; cbn;
        unfold NeonDb.getStorageTier; cbn.
      * split; [reflexivity |]. split; [| split].
        -- split; [discriminate |]. intros (_ & _ & e' & He' & Hadmin).
           inversion He'; subst. apply Hrole in Hadmin. discriminate.
        -- split; [| reflexivity]. intros _. split; [reflexivity |]. split; [reflexivity |].
           exists email. split; [reflexivity |]. intros Hadmin. apply Hrole in Hadmin.
           discriminate.
        -- split; discriminate.
      * split; [reflexivity |]. split; [| split].
        -- split; [discriminate |]. intros (Hc & _). discriminate.
        -- split; [discriminate |]. intros (Hc & _). discriminate.
        -- split; discriminate.
      * split; [reflexivity |]. split; [| split].
        -- split; [| reflexivity]. intros _. split; [reflexivity |]. split; [reflexivity |].
           exists email. split; [reflexivity |]. apply Hrole. reflexivity.
        -- split; [discriminate |]. intros (_ & _ & e' & He' & Hnot).
           inversion He'; subst. exfalso. apply Hnot, Hrole. reflexivity.
        -- split; reflexivity.
      * split; [reflexivity |]. split; [| split].
        -- split; [discriminate |]. intros (Hc & _). discriminate.
        -- split; [discriminate |]. intros (Hc & _). discriminate.
        -- split; reflexivity.
    + unfold Home.loadUserRole_finish, Home.getEffectiveStorageTier.
      change (Home.userEmail (Home.loadUserRole_start s)) with (Home.userEmail s).
      change (Home.isAllowed (Home.loadUserRole_start s)) with (Home.isAllowed s).
      rewrite Hemail, Hallowed. cbn.
      split; [reflexivity |]. split; [| split].
      * split; [discriminate |]. intros (_ & Hf & _). discriminate.
      * split; [discriminate |]. intros (_ & Hf & _). discriminate.
      * split; discriminate.
  - unfold Home.loadUserRole_finish, Home.getEffectiveStorageTier.
    change (Home.userEmail (Home.loadUserRole_start s)) with (Home.userEmail s).
    change (Home.isAllowed (Home.loadUserRole_start s)) with (Home.isAllowed s).
    rewrite Hemail. cbn.
    split; [reflexivity |]. split; [| split].
    + split.
      * destruct (negb (Home.isAllowed s) || negb checked); discriminate.
      * intros (_ & _ & e' & He' & _). discriminate.
    + split.
      * destruct (negb (Home.isAllowed s) || negb checked); discriminate.
      * intros (_ & _ & e' & He' & _). discriminate.
    + split; discriminate.
Qed.

End Access.

(** ** The elapsed time *)

Section Timer.
Import ElapsedTimer.

Definition upTo (n : nat) : list Z := map Z.of_nat (seq 0 n).

Lemma upTo_spec (n : nat) (z : Z) : (0 <= z < Z.of_nat n)%Z -> In z (upTo n).
Proof.
  intros Hz. unfold upTo. apply in_map_iff. exists (Z.to_nat z).
  split; [lia |]. apply in_seq. lia.
Qed.

(** The first five characters of the formatted time, for a number of
    minutes and of seconds. *)
Definition clock (m s : Z) : string :=
  Js.padStart0 2 (Js.integerToString m) ++ ":"
  ++ Js.padStart0 2 (Js.integerToString s).

Definition shown (m s : Z) : string :=
  Js.integerToString m ++ "m " ++ Js.integerToString s ++ "s".

Lemma formatTimerSimple_prefix (p q : string) :
  String.length p = 5%nat ->
  Home.formatTimerSimple (p ++ q) = Home.formatTimerSimple p.
Proof.
  intros Hlen. unfold Home.formatTimerSimple.
  assert (substring 0 5 (p ++ q) = p) as -> by (rewrite <- Hlen; apply substring_prefix).
  assert (substring 0 5 p = p) as -> by (rewrite <- Hlen; apply substring_all).
  reflexivity.
Qed.

(** Below 100 minutes the clock has five characters and is read back as
    the minutes and the seconds. *)
Lemma clock_read_back :
  forallb (fun m =>
    forallb (fun s =>
      (String.length (clock m s) =? 5)%nat
      && String.eqb (Home.formatTimerSimple (clock m s)) (shown m s))
      (upTo 60))
    (upTo 100) = true.
Proof. vm_compute. reflexivity. Qed.

(** From 100 to 999 minutes the first five characters end with the tens of
    the seconds. *)
Lemma long_clock_read_back :
  forallb (fun m =>
    forallb (fun s =>
      String.eqb (Home.formatTimerSimple
                    (substring 0 5 (clock (100 + m) s)))
                 (shown (100 + m) (s / 10)))
      (upTo 60))
    (upTo 900) = true.
Proof. vm_compute. reflexivity. Qed.

Lemma millis_width :
  forallb (fun ms => (String.length (Js.padStart0 3 (Js.integerToString ms)) =? 3)%nat)
    (upTo 1000) = true.
Proof. vm_compute. reflexivity. Qed.

Lemma substring_within (n : nat) (p q : string) :
  (n <= String.length p)%nat -> substring 0 n (p ++ q) = substring 0 n p.
Proof.
  revert p. induction n as [| n IH]; intros p Hn.
  - destruct p, q; reflexivity.
  - destruct p as [| c p]; simpl in Hn; [lia |].
    rewrite append_cons. simpl. rewrite IH by lia. reflexivity.
Qed.

Lemma substring_twice (n : nat) (s : string) :
  substring 0 n (substring 0 n s) = substring 0 n s.
Proof.
  revert s. induction n as [| n IH]; intros s.
  - destruct s; reflexivity.
  - destruct s as [| c s]; [reflexivity |]. simpl. rewrite IH. reflexivity.
Qed.

Lemma formatTimerSimple_first_five (s : string) :
  Home.formatTimerSimple s = Home.formatTimerSimple (substring 0 5 s).
Proof. unfold Home.formatTimerSimple. rewrite substring_twice. reflexivity. Qed.

Lemma long_clock_width :
  forallb (fun m =>
    forallb (fun s => (5 <=? String.length (clock (100 + m) s))%nat) (upTo 60))
    (upTo 900) = true.
Proof. vm_compute. reflexivity. Qed.

Lemma forallb_upTo (f : Z -> bool) (n : nat) (z : Z) :
  forallb f (upTo n) = true -> (0 <= z < Z.of_nat n)%Z -> f z = true.
Proof.
  intros Hall Hz. rewrite forallb_forall in Hall. apply Hall, upTo_spec, Hz.
Qed.

(** X25: for a number of milliseconds that is not negative,
    [calculateElapsed] gives minutes, seconds below 60 and milliseconds below
    1000 that add up to it.  Below 100 minutes the formatted time has 9
    characters and [formatTimerSimple] shows exactly these minutes and
    seconds; from 100 to 999 minutes it shows the minutes and, for the
    seconds, only their tens. *)
Theorem elapsed_time_display (ms : Z) :
  (0 <= ms)%Z ->
  let e := calculateElapsed ms in
  (ms = minutes e * 60000 + seconds e * 1000 + milliseconds e)%Z
  /\ (0 <= minutes e /\ 0 <= seconds e < 60 /\ 0 <= milliseconds e < 1000)%Z
  /\ ((ms < 6000000)%Z ->
      String.length (formatted e) = 9%nat
      /\ Home.formatTimerSimple (formatted e)
         = Js.integerToString (minutes e) ++ "m "
           ++ Js.integerToString (seconds e) ++ "s")
  /\ ((6000000 <= ms < 60000000)%Z ->
      Home.formatTimerSimple (formatted e)
      = Js.integerToString (minutes e) ++ "m "
        ++ Js.integerToString (seconds e / 10) ++ "s").
Proof.
  intros Hms e.
  assert (Hsec : (0 <= ms / 1000)%Z) by (apply Z.div_pos; lia).
  assert (Hmin : (0 <= minutes e)%Z) by (apply Z.div_pos; [exact Hsec | lia]).
  assert (Hs : seconds e = ((ms / 1000) mod 60)%Z) by (apply Z.rem_mod_nonneg; lia).
  assert (Hm : milliseconds e = (ms mod 1000)%Z) by (apply Z.rem_mod_nonneg; lia).
  assert (Hrs : (0 <= seconds e < 60)%Z) by (rewrite Hs; apply Z.mod_pos_bound; lia).
  assert (Hrm : (0 <= milliseconds e < 1000)%Z) by (rewrite Hm; apply Z.mod_pos_bound; lia).
  assert (Hsplit : (ms = minutes e * 60000 + seconds e * 1000 + milliseconds e)%Z).
  { rewrite Hs, Hm. change (minutes e) with (ms / 1000 / 60)%Z.
    pose proof (Z.div_mod ms 1000 ltac:(lia)) as H1.
    pose proof (Z.div_mod (ms / 1000) 60 ltac:(lia)) as H2. lia. }
  assert (Hfmt : formatted e
                 = clock (minutes e) (seconds e)
                   ++ "." ++ Js.padStart0 3 (Js.integerToString (milliseconds e))).
  { unfold clock. rewrite !append_assoc. reflexivity. }
  split; [exact Hsplit |]. split; [auto |]. split.
  - intros Hlt.
    assert (Hm100 : (0 <= minutes e < Z.of_nat 100)%Z) by lia.
    pose proof (forallb_upTo _ _ _ clock_read_back Hm100) as Hrow. cbv beta in Hrow.
    pose proof (forallb_upTo _ _ _ Hrow (conj (proj1 Hrs) (proj2 Hrs))) as Hcell.
    cbv beta in Hcell. apply andb_prop in Hcell. destruct Hcell as [Hlen Hread].
    apply Nat.eqb_eq in Hlen. apply String.eqb_eq in Hread.
    pose proof (forallb_upTo _ _ _ millis_width (conj (proj1 Hrm) (proj2 Hrm))) as Hw.
    cbv beta in Hw. apply Nat.eqb_eq in Hw.
    rewrite Hfmt. split.
    + rewrite !length_append, Hlen, Hw. reflexivity.
    + rewrite formatTimerSimple_prefix by exact Hlen. exact Hread.
  - intros Hlong.
    assert (Hm900 : (0 <= minutes e - 100 < Z.of_nat 900)%Z) by lia.
    pose proof (forallb_upTo _ _ _ long_clock_read_back Hm900) as Hrow. cbv beta in Hrow.
    pose proof (forallb_upTo _ _ _ Hrow (conj (proj1 Hrs) (proj2 Hrs))) as Hread.
    cbv beta in Hread. apply String.eqb_eq in Hread.
    pose proof (forallb_upTo _ _ _ long_clock_width Hm900) as Hrow'. cbv beta in Hrow'.
    pose proof (forallb_upTo _ _ _ Hrow' (conj (proj1 Hrs) (proj2 Hrs))) as Hwide.
    cbv beta in Hwide. apply Nat.leb_le in Hwide.
    replace (100 + (minutes e - 100))%Z with (minutes e) in Hread, Hwide by lia.
    rewrite formatTimerSimple_first_five, Hfmt, substring_within by exact Hwide.
    exact Hread.
Qed.

Lemma elapsed_time_display_witness :
  (0 <= 754321)%Z
  /\ (formatted (calculateElapsed 754321) = "12:34.321"
      /\ Home.formatTimerSimple (formatted (calculateElapsed 754321)) = "12m 34s")
  /\ (formatted (calculateElapsed 6034321) = "100:34.321"
      /\ Home.formatTimerSimple (formatted (calculateElapsed 6034321)) = "100m 3s").
Proof.
  split; [lia |]. split.
  - split; [reflexivity |].
    destruct (elapsed_time_display 754321 ltac:(lia)) as (_ & _ & Hshort & _).
    destruct (Hshort ltac:(lia)) as [_ ->]. reflexivity.
  - split; [reflexivity |].
    destruct (elapsed_time_display 6034321 ltac:(lia)) as (_ & _ & _ & Hlong).
    rewrite (Hlong ltac:(lia)). reflexivity.
Defined.

End Timer.
